(** * Bulk order import: parsing, inventory reconciliation and draft-order
      creation of [app/routes/app._index.jsx]

    The route's [action] is embedded as Rocq functions.  The source tree
    holds two revisions of the route; they are told apart by a [revision]
    argument wherever they differ ([Rev1] is the file that starts with the
    comment naming the route, [Rev2] is the one with the B2B company context).

    JavaScript values are embedded as follows.
    - Strings are [string]s; [trim] strips the ASCII white space characters
      and [toLowerCase] maps the ASCII letters.
    - A number is not-a-number, an infinity, or a finite value [m * 10^e]
      ([Fin m e]).  Every finite double is such a value and every decimal
      literal is read exactly; rounding of the 53-bit mantissa is not
      modelled, overflow to infinity and underflow to zero when a literal is
      read are.
    - [value] is the type of dynamically typed data: spreadsheet cells and
      parsed JSON. *)

From Stdlib Require Import ZArith List String Ascii Bool Lia DecimalString.
Import ListNotations.

Set Warnings "-register-all".

Local Open Scope Z_scope.
Local Open Scope list_scope.

(* ================================================================== *)
(** ** JavaScript strings *)

Module JsString.

Definition isWhiteSpace (c : ascii) : bool :=
  let n := nat_of_ascii c in
  (Nat.leb 9 n && Nat.leb n 13) || Nat.eqb n 32.

Fixpoint trimStart (s : string) : string :=
  match s with
  | EmptyString => EmptyString
  | String c r => if isWhiteSpace c then trimStart r else s
  end.

Fixpoint trimEnd (s : string) : string :=
  match s with
  | EmptyString => EmptyString
  | String c r =>
      match trimEnd r with
      | EmptyString => if isWhiteSpace c then EmptyString else String c EmptyString
      | r' => String c r'
      end
  end.

(** [s.trim()] *)
Definition trim (s : string) : string := trimEnd (trimStart s).

Definition lowerChar (c : ascii) : ascii :=
  let n := nat_of_ascii c in
  if Nat.leb 65 n && Nat.leb n 90 then ascii_of_nat (n + 32) else c.

(** [s.toLowerCase()] *)
Fixpoint toLowerCase (s : string) : string :=
  match s with
  | EmptyString => EmptyString
  | String c r => String (lowerChar c) (toLowerCase r)
  end.

(** [s.startsWith(p)] *)
Definition startsWith (p s : string) : bool := String.prefix p s.

Fixpoint drop (n : nat) (s : string) : string :=
  match n, s with
  | O, _ => s
  | S _, EmptyString => EmptyString
  | S k, String _ r => drop k r
  end.

(** [s.replace(pat, rep)] for a string pattern: the first occurrence only. *)
Fixpoint replace (pat rep s : string) : string :=
  match s with
  | EmptyString => if String.prefix pat EmptyString then rep else EmptyString
  | String c r =>
      if String.prefix pat s then String.append rep (drop (String.length pat) s)
      else String c (replace pat rep r)
  end.

Fixpoint contains (sep : ascii) (s : string) : bool :=
  match s with
  | EmptyString => false
  | String c r => Ascii.eqb c sep || contains sep r
  end.

(** [s.split(sep).pop()]: what follows the last separator. *)
Fixpoint lastSegment (sep : ascii) (s : string) : string :=
  match s with
  | EmptyString => EmptyString
  | String c r =>
      if contains sep r then lastSegment sep r
      else if Ascii.eqb c sep then r else s
  end.

Fixpoint join (sep : string) (l : list string) : string :=
  match l with
  | [] => EmptyString
  | [s] => s
  | s :: rest => String.append s (String.append sep (join sep rest))
  end.

Definition nonEmpty (s : string) : bool :=
  match s with EmptyString => false | _ => true end.

End JsString.

(* ================================================================== *)
(** ** JavaScript numbers *)

Module JsNumber.

Inductive number : Type :=
  | NaN
  | PosInf
  | NegInf
  | Fin (m e : Z).            (* the value m * 10^e *)

Definition zero : number := Fin 0 0.
Definition one : number := Fin 1 0.
Definition ofZ (z : Z) : number := Fin z 0.

(** Two finite values, brought to the smaller exponent and compared. *)
Definition cmpFin (m1 e1 m2 e2 : Z) : comparison :=
  let e := Z.min e1 e2 in
  (m1 * 10 ^ (e1 - e)) ?= (m2 * 10 ^ (e2 - e)).

(** [a < b] *)
Definition lt (a b : number) : bool :=
  match a, b with
  | NaN, _ | _, NaN => false
  | _, NegInf => false
  | NegInf, _ => true
  | PosInf, _ => false
  | Fin _ _, PosInf => true
  | Fin m1 e1, Fin m2 e2 =>
      match cmpFin m1 e1 m2 e2 with Lt => true | _ => false end
  end.

(** [a <= b] *)
Definition le (a b : number) : bool :=
  match a, b with
  | NaN, _ | _, NaN => false
  | NegInf, _ => true
  | _, PosInf => true
  | PosInf, _ => false
  | Fin _ _, NegInf => false
  | Fin m1 e1, Fin m2 e2 =>
      match cmpFin m1 e1 m2 e2 with Gt => false | _ => true end
  end.

(** [a > b] *)
Definition gt (a b : number) : bool := lt b a.

(** [Number.isFinite(a)] *)
Definition isFinite (a : number) : bool :=
  match a with Fin _ _ => true | _ => false end.

(** [a + b] *)
Definition add (a b : number) : number :=
  match a, b with
  | NaN, _ | _, NaN => NaN
  | PosInf, NegInf | NegInf, PosInf => NaN
  | PosInf, _ | _, PosInf => PosInf
  | NegInf, _ | _, NegInf => NegInf
  | Fin m1 e1, Fin m2 e2 =>
      let e := Z.min e1 e2 in
      Fin (m1 * 10 ^ (e1 - e) + m2 * 10 ^ (e2 - e)) e
  end.

(** A number whose value is a whole number. *)
Definition isInteger (a : number) : Prop :=
  match a with
  | Fin m e => 0 <= e \/ (10 ^ (- e) | m)
  | _ => False
  end.

(** ToBoolean on a number: zero and not-a-number are falsy. *)
Definition truthy (a : number) : bool :=
  match a with
  | NaN => false
  | Fin m _ => negb (m =? 0)
  | _ => true
  end.

(** *** Reading a number from a string: [Number(s)] *)

Definition digitOf (base : Z) (c : ascii) : option Z :=
  let n := Z.of_nat (nat_of_ascii c) in
  let d :=
    if (48 <=? n) && (n <=? 57) then n - 48
    else if (97 <=? n) && (n <=? 102) then n - 87
    else if (65 <=? n) && (n <=? 70) then n - 55
    else 99 in
  if d <? base then Some d else None.

(** The digits at the head of [s] in [base]: their value onto [acc], how
    many there were, and the rest of the string. *)
Fixpoint readDigits (base : Z) (s : string) (acc : Z) (count : nat)
  : Z * nat * string :=
  match s with
  | EmptyString => (acc, count, s)
  | String c r =>
      match digitOf base c with
      | Some d => readDigits base r (acc * base + d) (S count)
      | None => (acc, count, s)
      end
  end.

(** The largest double is (2^53 - 1) * 2^971; a literal of magnitude
    (2^54 - 1) * 2^970 or more rounds to infinity, one of magnitude 2^-1075
    or less rounds to zero. *)
Definition overflows (m e : Z) : bool :=
  let t := (2 ^ 54 - 1) * 2 ^ 970 in
  if 0 <=? e then t <=? Z.abs m * 10 ^ e else t * 10 ^ (- e) <=? Z.abs m.

Definition underflows (m e : Z) : bool :=
  if 0 <=? e then false else Z.abs m * 2 ^ 1075 <=? 10 ^ (- e).

Definition roundRange (neg : bool) (m e : Z) : number :=
  if overflows m e then (if neg then NegInf else PosInf)
  else if underflows m e then zero
  else Fin (if neg then - m else m) e.

(** ExponentPart (optional), then the end of the string. *)
Definition readExponent (s : string) : option Z :=
  match s with
  | EmptyString => Some 0
  | String c r =>
      if Ascii.eqb c "e" || Ascii.eqb c "E" then
        let '(neg, r') :=
          match r with
          | String "-" t => (true, t)
          | String "+" t => (false, t)
          | _ => (false, r)
          end in
        match readDigits 10 r' 0 O with
        | (_, O, _) => None
        | (x, _, EmptyString) => Some (if neg then - x else x)
        | _ => None
        end
      else None
  end.

(** StrUnsignedDecimalLiteral without the Infinity case. *)
Definition readUnsigned (neg : bool) (s : string) : number :=
  let '(ip, ni, r1) := readDigits 10 s 0 O in
  let '(mant, nf, r2) :=
    match r1 with
    | String "." t => readDigits 10 t ip O
    | _ => (ip, O, r1)
    end in
  match ni, nf with
  | O, O => NaN
  | _, _ =>
      match readExponent r2 with
      | Some x => roundRange neg mant (x - Z.of_nat nf)
      | None => NaN
      end
  end.

Definition readRadix (base : Z) (s : string) : number :=
  match readDigits base s 0 O with
  | (_, O, _) => NaN
  | (x, _, EmptyString) => roundRange false x 0
  | _ => NaN
  end.

(** StringToNumber *)
Definition ofString (s : string) : number :=
  match JsString.trim s with
  | EmptyString => zero
  | String "0" (String "x" r) | String "0" (String "X" r) => readRadix 16 r
  | String "0" (String "o" r) | String "0" (String "O" r) => readRadix 8 r
  | String "0" (String "b" r) | String "0" (String "B" r) => readRadix 2 r
  | String "+" r =>
      if String.eqb r "Infinity" then PosInf else readUnsigned false r
  | String "-" r =>
      if String.eqb r "Infinity" then NegInf else readUnsigned true r
  | t => if String.eqb t "Infinity" then PosInf else readUnsigned false t
  end.

(** *** Writing a number: [String(n)] (Number::toString, radix 10) *)

Definition digitsOf (z : Z) : string :=
  NilEmpty.string_of_uint (N.to_uint (Z.to_N z)).

Fixpoint zeros (n : nat) : string :=
  match n with O => EmptyString | S k => String "0" (zeros k) end.

(** The digit string without its trailing zeros, and how many were cut. *)
Fixpoint cutZeros (s : string) : string * nat :=
  match s with
  | EmptyString => (EmptyString, O)
  | String c r =>
      match cutZeros r with
      | (EmptyString, k) =>
          if Ascii.eqb c "0" then (EmptyString, S k) else (String c EmptyString, k)
      | (r', k) => (String c r', k)
      end
  end.

Definition toStringPos (m e : Z) : string :=
  let '(ds, cut) := cutZeros (digitsOf m) in
  let k := Z.of_nat (String.length ds) in
  let n := e + Z.of_nat cut + k in
  let expo (x : Z) : string :=
    String.append (if x <? 0 then "e-"%string else "e+"%string) (digitsOf (Z.abs x)) in
  if (k <=? n) && (n <=? 21) then String.append ds (zeros (Z.to_nat (n - k)))
  else if (0 <? n) && (n <=? 21) then
    String.append (String.substring 0 (Z.to_nat n) ds)
      (String "." (JsString.drop (Z.to_nat n) ds))
  else if (-6 <? n) && (n <=? 0) then
    String.append "0."%string (String.append (zeros (Z.to_nat (- n))) ds)
  else
    match ds with
    | String d EmptyString => String d (expo (n - 1))
    | String d rest => String d (String "." (String.append rest (expo (n - 1))))
    | EmptyString => EmptyString
    end.

Definition toString (a : number) : string :=
  match a with
  | NaN => "NaN"%string
  | PosInf => "Infinity"%string
  | NegInf => "-Infinity"%string
  | Fin m e =>
      if m =? 0 then "0"%string
      else if m <? 0 then String "-" (toStringPos (- m) e)
      else toStringPos m e
  end.

End JsNumber.

(* ================================================================== *)
(** ** Dynamically typed values: spreadsheet cells and parsed JSON *)

Module JsValue.
Import JsNumber.

Inductive value : Type :=
  | Undefined
  | Null
  | Bool (b : bool)
  | Num (n : number)
  | Str (s : string)
  | Arr (items : list value)
  | Obj (fields : list (string * value)).

(** ToBoolean *)
Definition truthy (v : value) : bool :=
  match v with
  | Undefined | Null => false
  | Bool b => b
  | Num n => JsNumber.truthy n
  | Str s => JsString.nonEmpty s
  | Arr _ | Obj _ => true
  end.

(** [a || b] *)
Definition or (a b : value) : value := if truthy a then a else b.

(** [String(v)] *)
Fixpoint toString (v : value) : string :=
  match v with
  | Undefined => "undefined"
  | Null => "null"
  | Bool true => "true"
  | Bool false => "false"
  | Num n => JsNumber.toString n
  | Str s => s
  | Arr items =>
      JsString.join ","
        (map (fun x => match x with
                       | Undefined | Null => EmptyString
                       | _ => toString x
                       end) items)
  | Obj _ => "[object Object]"
  end%string.

(** [Number(v)] *)
Definition toNumber (v : value) : number :=
  match v with
  | Undefined => NaN
  | Null => zero
  | Bool true => one
  | Bool false => zero
  | Num n => n
  | Str s => ofString s
  | Arr _ | Obj _ => ofString (toString v)
  end.

Definition isNullish (v : value) : bool :=
  match v with Undefined | Null => true | _ => false end.

(** The binding of key [k]; of two bindings of one key the later one counts,
    as in [JSON.parse]. *)
Fixpoint lookup (k : string) (fields : list (string * value)) : value :=
  match fields with
  | [] => Undefined
  | (k', v) :: rest =>
      match lookup k rest with
      | Undefined => if String.eqb k k' then v else Undefined
      | found => found
      end
  end.

(** [v.k] for a [v] that is neither null nor undefined (reading a property
    of those throws); the keys read by the route are own properties of
    objects only. *)
Definition prop (v : value) (k : string) : value :=
  match v with
  | Obj fields => lookup k fields
  | _ => Undefined
  end.

Definition ofOption (o : option string) : value :=
  match o with Some s => Str s | None => Null end.

End JsValue.

(* ================================================================== *)
(** ** The data model *)

Import JsNumber JsValue.

Inductive revision : Type := Rev1 | Rev2.

Inductive Status : Type :=
  | Pending | Ok | NoStock | Partial | SkuNotFound | LookupError.

(** The [status] strings of the source. *)
Definition statusString (s : Status) : string :=
  match s with
  | Pending => "pending"
  | Ok => "ok"
  | NoStock => "no stock"
  | Partial => "partial"
  | SkuNotFound => "sku not found"
  | LookupError => "error"
  end%string.

(** A preview row: the object pushed on [parsedRows] and, enriched, on
    [enrichedRows]. *)
Record Row : Type := mkRow {
  sku : string;
  productName : string;
  exist : bool;
  availableQuantity : number;
  quantityRequested : number;
  fulfilledQuantity : number;
  status : Status;
  variantId : option string
}.

(** A row as the JavaScript object it is, in the key order of the literal. *)
Definition rowValue (r : Row) : value :=
  Obj [ ("sku", Str (sku r));
        ("productName", Str (productName r));
        ("exist", Bool (exist r));
        ("availableQuantity", Num (availableQuantity r));
        ("quantityRequested", Num (quantityRequested r));
        ("fulfilledQuantity", Num (fulfilledQuantity r));
        ("status", Str (statusString (status r)));
        ("variantId", ofOption (variantId r)) ]%string.

(** What the action returns. *)
Inductive result : Type :=
  | ErrorResult (error customerName customerId : string) (previewRows : value)
  | PreviewResult (customerName customerId : string) (previewRows : list Row)
  | Redirect (url : string)
  | Idle.

(** An action either returns or lets an exception escape. *)
Inductive completion : Type :=
  | Return (r : result)
  | Throw.

(* ================================================================== *)
(** ** External collaborators *)

(** *** Catalog lookup: the reply to the [variantBySku] query *)

Record quantityEntry : Type := mkQuantity {
  name : string;
  quantity : value
}.

Record level : Type := mkLevel {
  quantities : option (list quantityEntry)
}.

Record variantNode : Type := mkVariant {
  id : string;
  displayName : option string;
  productTitle : option string;               (* product?.title *)
  inventoryLevels : option (list (option level))
      (* inventoryItem?.inventoryLevels?.edges, each edge?.node *)
}.

Inductive catalogReply : Type :=
  | CatalogThrows              (* admin.graphql or response.json() throws *)
  | CatalogBody (errors : list string)
                (edges : list (option variantNode)).
                (* json.errors, json?.data?.productVariants?.edges || [] *)

(** *** The shop query, the B2B query *)

Inductive shopReply : Type :=
  | ShopThrows                 (* admin.graphql throws *)
  | ShopBodyThrows             (* reading the body throws *)
  | ShopBody (shopId : option string).   (* body?.data?.shop?.id *)

Record company : Type := mkCompany {
  companyGid : option string;
  locationIds : list (option string)   (* locations.edges, each node?.id *)
}.

Record contactProfile : Type := mkProfile {
  profileId : option string;
  profileCompany : option company
}.

Inductive b2bReply : Type :=
  | B2BThrows
  | B2BProfiles (profiles : list contactProfile).

Record b2bContext : Type := mkB2B {
  companyId : option string;
  companyLocationId : option string;
  companyContactId : option string
}.

(** *** The order-creation service and the history store *)

Record lineItem : Type := mkLineItem {
  itemQuantity : number;
  itemVariantId : value
}.

Record orderRequest : Type := mkOrderRequest {
  shop_id : option string;
  reqCustomerId : string;
  reqCustomerName : string;
  lineItems : list lineItem;
  note : string;
  totalQuantity : number;
  reqB2B : option b2bContext             (* the three company keys, Rev2 *)
}.

Inductive orderReply : Type :=
  | FetchThrows (message : string)
  | HttpError (httpStatus : Z) (statusText : string)     (* !ocResp.ok *)
  | InvalidJson (message : string)        (* ocResp.json() throws *)
  | OrderJson (ocJson : value).

Record historyRecord : Type := mkHistory {
  histShopId : option string;
  histCustomerId : string;
  histCustomerName : string;
  orderId : value;
  orderLegacyId : value;
  orderName : value;
  histTotalQuantity : number
}.

(** The calls the action makes to the outside, in the order it makes them. *)
Inductive event : Type :=
  | ShopQuery
  | B2BQuery (customerGid : string)
  | VariantQuery (skuQueried : string)
  | DraftOrderCreate (body : orderRequest)
  | HistoryCreate (data : historyRecord).

(** The outside world of one request. *)
Record services : Type := mkServices {
  shop : shopReply;
  b2b : string -> b2bReply;
  catalog : nat -> string -> catalogReply;  (* the n-th lookup, for a sku *)
  draftOrderCreate : orderRequest -> orderReply;
  historyCreate : historyRecord -> bool     (* false: the write throws *)
}.

(** A computation that calls the outside: its value and the calls made. *)
Definition Call (A : Type) : Type := (A * list event)%type.

Definition ret {A} (a : A) : Call A := (a, []).

Definition bind {A B} (m : Call A) (f : A -> Call B) : Call B :=
  let '(a, t1) := m in
  let '(b, t2) := f a in
  (b, t1 ++ t2).

Definition emit (e : event) : Call unit := (tt, [e]).

Notation "x <- m ;; k" := (bind m (fun x => k))
  (at level 61, m at next level, right associativity).
Notation "m ;;; k" := (bind m (fun _ => k))
  (at level 61, right associativity).

(* ================================================================== *)
(** ** The submitted form *)

Inductive fileEntry : Type :=
  | NoFile
  | FileIsString                       (* typeof file === "string" *)
  | Upload (workbook : option (list (list value))).
      (* [None]: XLSX.read throws; otherwise the first sheet as
         sheet_to_json(sheet, {header: 1, defval: ""}) returns it *)

Inductive jsonEntry : Type :=
  | NoEntry
  | EntryIsFile
  | Text (s : string).

(** The fields of the posted form.  [customerName] and [customerId] are the
    text inputs of the page's form. *)
Record formData : Type := mkForm {
  intent : option string;
  formCustomerName : option string;
  formCustomerId : option string;
  file : fileEntry;
  previewJson : jsonEntry
}.

(** [formData.get(k) || fallback] on a text field *)
Definition orText (o : option string) (fallback : string) : string :=
  match o with
  | Some s => if JsString.nonEmpty s then s else fallback
  | None => fallback
  end.

(** [x || null] on an optional string *)
Definition orNull (o : option string) : option string :=
  match o with
  | Some s => if JsString.nonEmpty s then Some s else None
  | None => None
  end.

(* ================================================================== *)
(** ** Row parser (the "process" intent, first half) *)

Module Parser.

Definition headerRow (row0 : list value) : list string :=
  map (fun h => JsString.toLowerCase (JsString.trim (toString h))) row0.

(** [l.findIndex(p)]; [None] stands for -1. *)
Fixpoint findIndex {A : Type} (p : A -> bool) (l : list A) : option nat :=
  match l with
  | [] => None
  | x :: rest =>
      if p x then Some O
      else match findIndex p rest with
           | Some i => Some (S i)
           | None => None
           end
  end.

Definition isSku (h : string) : bool := String.eqb h "sku".
Definition isQty (h : string) : bool :=
  String.eqb h "quantity" || String.eqb h "qty".

(** [row[i]] *)
Definition cell (row : list value) (i : nat) : value := nth i row Undefined.

(** [String(rawSku || "").trim()] *)
Definition skuOf (rawSku : value) : string :=
  JsString.trim (toString (or rawSku (Str ""))).

(** [Number(rawQty || 0)] *)
Definition quantityOf (rawQty : value) : number :=
  toNumber (or rawQty (Num zero)).

(** The object pushed on [parsedRows]. *)
Definition parsedRow (sku : string) (quantityRequested : number) : Row :=
  {| sku := sku;
     productName := "";
     exist := false;
     availableQuantity := zero;
     quantityRequested := quantityRequested;
     fulfilledQuantity := zero;
     status := Pending;
     variantId := None |}.

(** [for (const row of dataRows) { ... parsedRows.push(...) }] *)
Fixpoint parseLoop (skuIndex qtyIndex : nat) (dataRows : list (list value))
    (parsedRows : list Row) : list Row :=
  match dataRows with
  | [] => parsedRows
  | row :: rest =>
      let rawSku := cell row skuIndex in
      let rawQty := cell row qtyIndex in
      let sku := skuOf rawSku in
      if negb (JsString.nonEmpty sku) then
        parseLoop skuIndex qtyIndex rest parsedRows
      else
        let quantityRequested := quantityOf rawQty in
        if negb (isFinite quantityRequested) || le quantityRequested zero then
          parseLoop skuIndex qtyIndex rest parsedRows
        else
          parseLoop skuIndex qtyIndex rest
            (parsedRows ++ [parsedRow sku quantityRequested])
  end.

Inductive outcome : Type :=
  | EmptyFile
  | MissingColumns
  | NoValidRows
  | Parsed (parsedRows : list Row).

(** From the decoded grid to [parsedRows]. *)
Definition parse (rows : list (list value)) : outcome :=
  match rows with
  | [] => EmptyFile
  | row0 :: dataRows =>
      let header := headerRow row0 in
      match findIndex isSku header, findIndex isQty header with
      | Some skuIndex, Some qtyIndex =>
          match parseLoop skuIndex qtyIndex dataRows [] with
          | [] => NoValidRows
          | parsedRows => Parsed parsedRows
          end
      | _, _ => MissingColumns
      end
  end.

End Parser.

(* ================================================================== *)
(** ** Inventory reconciler (the "process" intent, second half) *)

Module Reconciler.

(** [{...row, exist: false, productName: "* * * * * * *", ...}] *)
Definition unresolved (row : Row) (st : Status) : Row :=
  {| sku := sku row;
     productName := "* * * * * * *";
     exist := false;
     availableQuantity := zero;
     quantityRequested := quantityRequested row;
     fulfilledQuantity := zero;
     status := st;
     variantId := None |}.

(** [variantNode.displayName || variantNode.product?.title || `SKU ${sku}`],
    with " - Default Title" cut out. *)
Definition productNameOf (node : variantNode) (sku : string) : string :=
  let raw :=
    orText (displayName node)
      (orText (productTitle node) (String.append "SKU " sku)) in
  JsString.replace " - Default Title" "" raw.

(** [quantities.find((q) => q.name === "available")] *)
Definition availableEntry (quantities : list quantityEntry)
  : option quantityEntry :=
  find (fun q => String.eqb (name q) "available") quantities.

(** [for (const edge of levelEdges) { ... totalAvailable += ... }] *)
Fixpoint sumLevels (levelEdges : list (option level)) (totalAvailable : number)
  : number :=
  match levelEdges with
  | [] => totalAvailable
  | None :: rest => sumLevels rest totalAvailable
  | Some lvl :: rest =>
      let qs := match quantities lvl with Some l => l | None => [] end in
      match availableEntry qs with
      | Some entry =>
          match quantity entry with
          | Num n => sumLevels rest (add totalAvailable n)
          | _ => sumLevels rest totalAvailable
          end
      | None => sumLevels rest totalAvailable
      end
  end.

Definition totalAvailableOf (node : variantNode) : number :=
  let levelEdges :=
    match inventoryLevels node with Some l => l | None => [] end in
  sumLevels levelEdges zero.

(** The [if (totalAvailable <= 0) ... else if ... else ...] chain. *)
Definition classify (quantityRequested totalAvailable : number)
  : number * Status :=
  if le totalAvailable zero then (zero, NoStock)
  else if gt quantityRequested totalAvailable then (totalAvailable, Partial)
  else (quantityRequested, Ok).

Definition matched (row : Row) (node : variantNode) : Row :=
  let totalAvailable := totalAvailableOf node in
  let '(fulfilledQuantity, st) :=
    classify (quantityRequested row) totalAvailable in
  {| sku := sku row;
     productName := productNameOf node (sku row);
     exist := true;
     availableQuantity := totalAvailable;
     quantityRequested := quantityRequested row;
     fulfilledQuantity := fulfilledQuantity;
     status := st;
     variantId := Some (id node) |}.

(** The body of the [try] once the reply is there, and its [catch]. *)
Definition enrichRow (rev : revision) (row : Row) (reply : catalogReply) : Row :=
  match reply with
  | CatalogThrows => unresolved row LookupError
  | CatalogBody errors edges =>
      let graphqlFailed :=
        match rev, errors with
        | Rev1, _ :: _ => true       (* treated as an API error *)
        | _, _ => false              (* Rev2 logs the errors and goes on *)
        end in
      if graphqlFailed then unresolved row LookupError
      else
        match edges with
        | Some node :: _ => matched row node
        | _ => unresolved row SkuNotFound
        end
  end.

(** [for (const row of parsedRows) { ... enrichedRows.push(...) }]; [n] counts
    the lookups made so far. *)
Fixpoint enrichLoop (rev : revision) (env : services) (n : nat)
    (parsedRows enrichedRows : list Row) : Call (list Row) :=
  match parsedRows with
  | [] => ret enrichedRows
  | row :: rest =>
      emit (VariantQuery (sku row)) ;;;
      let reply := catalog env n (sku row) in
      enrichLoop rev env (S n) rest (enrichedRows ++ [enrichRow rev row reply])
  end.

End Reconciler.

(* ================================================================== *)
(** ** The action *)

Section Action.

(** Built-ins of the platform the action calls: [JSON.parse] ([None] when it
    throws) and [encodeURIComponent] (taken to return; the URIError it
    raises on a lone surrogate is left out). *)
Variable JSON_parse : string -> option value.
Variable encodeURIComponent : string -> string.

Definition msgRequired : string :=
  "Customer selection and CSV/Excel file are required to import orders.".
Definition msgUnreadable : string :=
  "Unable to read the file. Please check that it's a valid CSV or Excel file.".
Definition msgEmpty : string := "The file is empty.".
Definition msgColumns : string :=
  "Header row must contain 'sku' and 'quantity' (or 'qty') columns.".
Definition msgNoValidRows : string :=
  "No valid rows found. Please check that SKU and Quantity columns are filled.".
Definition msgNothingToOrder : string :=
  "No rows with available inventory to create a draft order. Please check the preview.".
Definition msgOrderFailed : string :=
  "Failed to create draft order via external service. ".
Definition msgCheckData : string := "Please check the uploaded data.".

(** *** intent "process" *)

Definition processIntent (rev : revision) (env : services) (form : formData)
  : Call completion :=
  let customerName := JsString.trim (orText (formCustomerName form) "") in
  let customerId := JsString.trim (orText (formCustomerId form) "") in
  let failWith (error : string) : Call completion :=
    ret (Return (ErrorResult error customerName customerId (Arr []))) in
  let missingCustomer :=
    negb (JsString.nonEmpty customerName) || negb (JsString.nonEmpty customerId) in
  let missingFile :=
    match file form with Upload _ => false | _ => true end in
  if missingCustomer || missingFile then failWith msgRequired
  else
    match file form with
    | Upload (Some rows) =>
        match Parser.parse rows with
        | Parser.EmptyFile => failWith msgEmpty
        | Parser.MissingColumns => failWith msgColumns
        | Parser.NoValidRows => failWith msgNoValidRows
        | Parser.Parsed parsedRows =>
            enrichedRows <- Reconciler.enrichLoop rev env O parsedRows [] ;;
            ret (Return (PreviewResult customerName customerId enrichedRows))
        end
    | _ => failWith msgUnreadable      (* XLSX.read throws *)
    end.

(** *** intent "create" *)

(** [gid.startsWith("gid://") ? gid.split("/").pop() : gid] *)
Definition numericPart (gid : string) : string :=
  if JsString.startsWith "gid://" gid then JsString.lastSegment "/" gid else gid.

(** [getShopNumericId(admin)]: the numeric shop id, [None] for null.  Every
    failure is caught inside and gives null, in both revisions. *)
Definition getShopNumericId (env : services) : Call (option string) :=
  emit ShopQuery ;;;
  ret (match shop env with
       | ShopThrows | ShopBodyThrows => None
       | ShopBody shopId => orNull (Some (numericPart (orText shopId "")))
       end).

Definition noContext : b2bContext := mkB2B None None None.

(** [getB2BContext(admin, customerGid)] (Rev2) *)
Definition getB2BContext (env : services) (customerGid : string)
  : Call b2bContext :=
  if negb (JsString.nonEmpty customerGid) then ret noContext
  else
    emit (B2BQuery customerGid) ;;;
    ret (match b2b env customerGid with
         | B2BThrows => noContext
         | B2BProfiles [] => noContext
         | B2BProfiles (profile :: _) =>
             let comp := profileCompany profile in
             {| companyId :=
                  orNull (match comp with Some c => companyGid c | None => None end);
                companyContactId := orNull (profileId profile);
                companyLocationId :=
                  orNull (match comp with
                          | Some c => match locationIds c with
                                      | first :: _ => first
                                      | [] => None
                                      end
                          | None => None
                          end) |}
         end).

(** [let previewRows = []; if (typeof previewJson === "string" &&
    previewJson.length > 0) { try { previewRows = JSON.parse(previewJson) }
    catch (e) { ... } }] *)
Definition previewRowsOf (form : formData) : value :=
  match previewJson form with
  | Text s =>
      if Nat.ltb 0 (String.length s) then
        match JSON_parse s with
        | Some v => v
        | None => Arr []
        end
      else Arr []
  | _ => Arr []
  end.

(** [Number(row.fulfilledQuantity || 0)] *)
Definition fulfilledOf (row : value) : number :=
  toNumber (or (prop row "fulfilledQuantity") (Num zero)).

(** The callback of [previewRows.filter]. *)
Definition includable (row : value) : bool :=
  truthy (prop row "exist")
  && truthy (prop row "variantId")
  && gt (fulfilledOf row) zero.

(** [items.filter(includable)]; [None] when reading a property of a null
    element throws. *)
Fixpoint filterRows (items : list value) : option (list value) :=
  match items with
  | [] => Some []
  | row :: rest =>
      if isNullish row then None
      else match filterRows rest with
           | Some kept => Some (if includable row then row :: kept else kept)
           | None => None
           end
  end.

(** [previewRows.filter(...)]: only an array has [filter]. *)
Definition includedRowsOf (previewRows : value) : option (list value) :=
  match previewRows with
  | Arr items => filterRows items
  | _ => None
  end.

(** [includedRows.reduce((sum, row) => sum + Number(...), 0)] *)
Definition totalQuantityOf (includedRows : list value) : number :=
  fold_left (fun sum row => add sum (fulfilledOf row)) includedRows zero.

(** [includedRows.map((row) => ({quantity: ..., variantId: ...}))] *)
Definition lineItemsOf (includedRows : list value) : list lineItem :=
  map (fun row =>
         {| itemQuantity := toNumber (prop row "fulfilledQuantity");
            itemVariantId := prop row "variantId" |}) includedRows.

Definition noteOf (customerName customerNumericId : string) : string :=
  String.append "Bulk upload for customer: "
    (String.append customerName
       (String.append " (Shopify customer ID: "
          (String.append customerNumericId ")"))).

(** The [try] around the order-creation call: the created draft order, or
    the message of the error that reaches the [catch]. *)
Definition draftOrderOf (rev : revision) (reply : orderReply) : string + value :=
  match reply with
  | FetchThrows message => inl message
  | HttpError st txt =>
      inl (String.append "OC HTTP error "
             (String.append (JsNumber.toString (ofZ st)) (String.append " " txt)))
  | InvalidJson message =>
      match rev with
      | Rev1 => inl message
      | Rev2 => inl "OC DraftOrderCreate: invalid JSON response"%string
      end
  | OrderJson ocJson =>
      if negb (truthy ocJson)
         || negb (truthy (prop ocJson "success"))
         || negb (truthy (prop ocJson "draftOrder"))
      then inl (toString (or (prop ocJson "error")
                             (Str "Invalid response from Shopify GraphQL")))
      else inr (prop ocJson "draftOrder")
  end.

(** The object handed to [JSON.stringify] for the body of the POST to the
    DraftOrderCreate endpoint. *)
Definition orderBody (customerName customerGid customerNumericId : string)
    (context : option b2bContext) (shopNumericId : option string)
    (includedRows : list value) : orderRequest :=
  {| shop_id := shopNumericId;
     reqCustomerId := customerGid;
     reqCustomerName := customerName;
     lineItems := lineItemsOf includedRows;
     note := noteOf customerName customerNumericId;
     totalQuantity := totalQuantityOf includedRows;
     reqB2B := context |}.

(** The [data] of [db.bulkOrderUpload.create]. *)
Definition historyData (customerName customerNumericId : string)
    (shopNumericId : option string) (draftOrder : value)
    (totalQuantity : number) : historyRecord :=
  {| histShopId := orNull shopNumericId;
     histCustomerId := customerNumericId;
     histCustomerName := customerName;
     orderId := prop draftOrder "id";
     orderLegacyId := or (prop draftOrder "legacyResourceId") (Str "");
     orderName := or (prop draftOrder "name") (Str "");
     histTotalQuantity := totalQuantity |}.

(** The B2B context: Rev2 fetches it, Rev1 sends none. *)
Definition contextOf (rev : revision) (env : services) (customerGid : string)
  : Call (option b2bContext) :=
  match rev with
  | Rev1 => ret None
  | Rev2 => c <- getB2BContext env customerGid ;; ret (Some c)
  end.

(** From [previewRows.filter] to the end of the "create" branch. *)
Definition confirmRows (rev : revision) (env : services)
    (customerName customerIdRaw : string)
    (context : option b2bContext) (shopNumericId : option string)
    (previewRows : value) : Call completion :=
  let customerGid := customerIdRaw in
  let customerNumericId := numericPart customerGid in
  let failWith (error : string) : Call completion :=
    ret (Return (ErrorResult error customerName customerIdRaw previewRows)) in
  match includedRowsOf previewRows with
  | None => ret Throw
  | Some [] => failWith msgNothingToOrder
  | Some includedRows =>
      let totalQuantity := totalQuantityOf includedRows in
      let body :=
        orderBody customerName customerGid customerNumericId context
          shopNumericId includedRows in
      emit (DraftOrderCreate body) ;;;
      match draftOrderOf rev (draftOrderCreate env body) with
      | inl message =>
          failWith (String.append msgOrderFailed (orText (Some message) msgCheckData))
      | inr draftOrder =>
          if negb (truthy draftOrder) then
            failWith (String.append msgOrderFailed msgCheckData)
          else
            let realOrderId := prop draftOrder "id" in
            let realOrderLegacyId := or (prop draftOrder "legacyResourceId") (Str "") in
            let realOrderName := or (prop draftOrder "name") (Str "") in
            let data :=
              historyData customerName customerNumericId shopNumericId
                draftOrder totalQuantity in
            emit (HistoryCreate data) ;;;
            (* a write that throws is logged; the redirect follows either way *)
            let saved := historyCreate env data in
            let createdOrderNameParam :=
              encodeURIComponent
                (toString (or (or realOrderName realOrderLegacyId) realOrderId)) in
            ret (Return (Redirect
                   (String.append "/app?createdOrderName=" createdOrderNameParam)))
      end
  end.

Definition createIntent (rev : revision) (env : services) (form : formData)
  : Call completion :=
  let customerName := orText (formCustomerName form) "Unknown Customer" in
  let customerIdRaw := orText (formCustomerId form) "" in
  context <- contextOf rev env customerIdRaw ;;
  shopNumericId <- getShopNumericId env ;;
  confirmRows rev env customerName customerIdRaw context shopNumericId
    (previewRowsOf form).

(** [action]: dispatch on the intent. *)
Definition action (rev : revision) (env : services) (form : formData)
  : Call completion :=
  match intent form with
  | Some i =>
      if String.eqb i "process" then processIntent rev env form
      else if String.eqb i "create" then createIntent rev env form
      else ret (Return Idle)
  | None => ret (Return Idle)
  end.

End Action.

(* ================================================================== *)
(** ** The customer search endpoint ([app/routes/api.customers.jsx]) *)

Module CustomersApi.

(** A node of the [customers] connection. *)
Record customerNode : Type := mkNode {
  nodeId : string;
  nodeDisplayName : option string;
  nodeEmail : option string
}.

(** The reply to the [CustomersSearch] query. *)
Inductive searchReply : Type :=
  | SearchThrows               (* admin.graphql or response.json() throws *)
  | SearchBody (errors : list string)
               (edges : list (option customerNode)).
               (* json.errors, json?.data?.customers?.edges || []; [None] is
                  an edge without a node, whose [node.id] throws *)

(** An entry of the [customers] array of the response. *)
Record customer : Type := mkCustomer {
  id : string;
  displayName : string;
  email : string
}.

(** The [Response]: its status and the JSON body. *)
Record response : Type := mkResponse {
  httpStatus : Z;
  customers : list customer;
  error : option string
}.

(** [edges.map((edge) => ...)]; [None] when an edge has no node. *)
Fixpoint mapEdges (edges : list (option customerNode)) : option (list customer) :=
  match edges with
  | [] => Some []
  | None :: _ => None
  | Some node :: rest =>
      match mapEdges rest with
      | Some l =>
          Some ({| id := nodeId node;
                   displayName := orText (nodeDisplayName node) "";
                   email := orText (nodeEmail node) "" |} :: l)
      | None => None
      end
  end.

(** [loader]: the response and the query strings sent to the Admin API.
    [qParam] is [url.searchParams.get("q")]. *)
Definition loader (qParam : option string) (admin : string -> searchReply)
  : response * list string :=
  let qRaw := orText qParam "" in
  let q := JsString.trim qRaw in
  if negb (JsString.nonEmpty q) || Nat.ltb (String.length q) 2 then
    ({| httpStatus := 200; customers := []; error := None |}, [])
  else
    (match admin q with
     | SearchThrows =>
         {| httpStatus := 500; customers := []; error := Some "Server error"%string |}
     | SearchBody (_ :: _) _ =>
         {| httpStatus := 500; customers := []; error := Some "GraphQL error"%string |}
     | SearchBody [] edges =>
         match mapEdges edges with
         | Some l => {| httpStatus := 200; customers := l; error := None |}
         | None =>
             {| httpStatus := 500; customers := []; error := Some "Server error"%string |}
         end
     end, [q]).

End CustomersApi.

(* ================================================================== *)
(** ** The page's loader ([loader] of [app/routes/app._index.jsx]) *)

Module IndexLoader.

(** A row of the [BulkOrderUpload] table. *)
Record historyItem : Type := mkItem {
  itemId : Z;
  itemShopId : option string;
  itemCustomerId : string;
  itemCustomerName : string;
  itemOrderId : string;
  itemOrderLegacyId : option string;
  itemOrderName : option string;
  itemTotalQuantity : Z;
  itemCreatedAt : Z
}.

(** The reply of the getCustomers endpoint. *)
Inductive customersReply : Type :=
  | CustomersFetchThrows
  | CustomersBodyThrows        (* ocResp.json() throws (Rev2: caught, null) *)
  | CustomersJson (ocJson : value).

(** The outside world of the loader. *)
Record world : Type := mkWorld {
  admin : services;
  findMany : string -> option (list historyItem);
      (* bulkOrderUpload.findMany for a shopId, newest first, 50 at most;
         [None]: the query throws *)
  getCustomers : string -> customersReply
}.

Inductive call : Type :=
  | CallShop
  | CallFindMany (shopId : string)
  | CallGetCustomers (shop_id : string).

Record loaderData : Type := mkData {
  history : list historyItem;
  customers : list value;
  shopAdminSubdomain : string;
  createdOrderName : option string
}.

(** [Array.isArray(ocJson.customers) ? ocJson.customers : []] under
    [ocJson && ocJson.success]. *)
Definition customersOf (reply : customersReply) : list value :=
  match reply with
  | CustomersJson ocJson =>
      if truthy ocJson && truthy (prop ocJson "success") then
        match prop ocJson "customers" with
        | Arr items => items
        | _ => []
        end
      else []
  | _ => []
  end.

(** [loader]; [createdParam] is the [createdOrderName] search parameter and
    [sessionShop] is [session?.shop]. *)
Definition loader (w : world) (createdParam sessionShop : option string)
  : loaderData * list call :=
  let createdOrderName := orNull createdParam in
  let shopDomain := orText sessionShop "" in
  let shopAdminSubdomain := JsString.replace ".myshopify.com" "" shopDomain in
  let shopNumericId := fst (getShopNumericId (admin w)) in
  let '(history, calls1) :=
    match shopNumericId with
    | Some shopId =>
        (match findMany w shopId with Some rows => rows | None => [] end,
         [CallFindMany shopId])
    | None => ([], [])
    end in
  let '(customers, calls2) :=
    match shopNumericId with
    | Some shopId => (customersOf (getCustomers w shopId), [CallGetCustomers shopId])
    | None => ([], [])
    end in
  ({| history := history;
      customers := customers;
      shopAdminSubdomain := shopAdminSubdomain;
      createdOrderName := createdOrderName |},
   CallShop :: calls1 ++ calls2).

End IndexLoader.

(* ================================================================== *)
(** ** The page component ([ImportOrdersIndex]): its state and handlers *)

Module Page.

(** [hay.includes(needle)] *)
Fixpoint includes (needle hay : string) : bool :=
  String.prefix needle hay
  || match hay with
     | EmptyString => false
     | String _ r => includes needle r
     end.

(** [l.slice(start, finish)], also for negative and out-of-range indices. *)
Definition sliceIndex (len i : Z) : Z :=
  if i <? 0 then Z.max (len + i) 0 else Z.min i len.

Definition slice {A : Type} (start finish : Z) (l : list A) : list A :=
  let len := Z.of_nat (List.length l) in
  let k := sliceIndex len start in
  let final := sliceIndex len finish in
  firstn (Z.to_nat (final - k)) (skipn (Z.to_nat k) l).

(** A customer preloaded by the loader. *)
Record customer : Type := mkCustomer {
  id : string;
  displayName : option string;
  email : option string
}.

(** The component's state ([useState]); the last two exist in Rev2 only. *)
Record state : Type := mkState {
  customerQuery : string;
  selectedCustomerId : string;
  customerOptions : list customer;
  previewCancelled : bool;
  historySearch : string;
  historyPage : Z
}.

(** The callback of [customers.filter] in [handleCustomerChange]. *)
Definition matchesQuery (trimmed : string) (c : customer) : bool :=
  let name := JsString.toLowerCase (orText (displayName c) "") in
  let mail := JsString.toLowerCase (orText (email c) "") in
  includes trimmed name || (JsString.nonEmpty mail && includes trimmed mail).

Definition handleCustomerChange (customers : list customer) (value : string)
    (st : state) : state :=
  let trimmed := JsString.toLowerCase (JsString.trim value) in
  {| customerQuery := value;
     selectedCustomerId := "";
     customerOptions :=
       if negb (JsString.nonEmpty trimmed) then []
       else slice 0 10 (filter (matchesQuery trimmed) customers);
     previewCancelled := previewCancelled st;
     historySearch := historySearch st;
     historyPage := historyPage st |}.

Definition handleCustomerSelect (c : customer) (st : state) : state :=
  {| customerQuery := orText (displayName c) "";
     selectedCustomerId := id c;
     customerOptions := [];
     previewCancelled := previewCancelled st;
     historySearch := historySearch st;
     historyPage := historyPage st |}.

Definition handleCancelPreview (st : state) : state :=
  {| customerQuery := "";
     selectedCustomerId := "";
     customerOptions := [];
     previewCancelled := true;
     historySearch := historySearch st;
     historyPage := historyPage st |}.

(** [useEffect(() => setPreviewCancelled(false), [actionData])] *)
Definition onActionData (st : state) : state :=
  {| customerQuery := customerQuery st;
     selectedCustomerId := selectedCustomerId st;
     customerOptions := customerOptions st;
     previewCancelled := false;
     historySearch := historySearch st;
     historyPage := historyPage st |}.

(** [actionData && actionData.mode === "preview"] *)
Definition inPreviewMode (actionData : option result) : bool :=
  match actionData with
  | Some (PreviewResult _ _ _) => true
  | _ => false
  end.

Definition showPreview (actionData : option result) (st : state) : bool :=
  inPreviewMode actionData && negb (previewCancelled st).

Definition showHistory (actionData : option result) (st : state) : bool :=
  negb (inPreviewMode actionData) || previewCancelled st.

(** The upload form as it is posted: the text input carries [customerQuery],
    the hidden input [selectedCustomerId]. *)
Definition processForm (st : state) (upload : fileEntry) : formData :=
  {| intent := Some "process"%string;
     formCustomerName := Some (customerQuery st);
     formCustomerId := Some (selectedCustomerId st);
     file := upload;
     previewJson := NoEntry |}.

(** The confirmation form of a preview: hidden inputs with the preview's
    customer and [JSON.stringify(actionData.previewRows || [])]. *)
Definition confirmForm (JSON_stringify : value -> string)
    (customerName customerId : string) (previewRows : list Row) : formData :=
  {| intent := Some "create"%string;
     formCustomerName := Some (orText (Some customerName) "");
     formCustomerId := Some (orText (Some customerId) "");
     file := NoFile;
     previewJson := Text (JSON_stringify (Arr (map rowValue previewRows))) |}.

(** The colour of a preview row, from its status text. *)
Definition textColor (rev : revision) (statusText : string) : string :=
  let isNotFound :=
    String.eqb statusText "sku not found" || String.eqb statusText "error" in
  let isNoStock := String.eqb statusText "no stock" in
  if isNotFound then "#ff0000"
  else if isNoStock then
    match rev with Rev1 => "#fcb001" | Rev2 => "#aaaaaa" end
  else "#000000".

(** *** Import history: search and pages (Rev2) *)

Definition HISTORY_PAGE_SIZE : Z := 15.

Definition matchesSearch (normalizedHistorySearch : string)
    (item : IndexLoader.historyItem) : bool :=
  let customerName :=
    JsString.toLowerCase (orText (Some (IndexLoader.itemCustomerName item)) "") in
  let orderName :=
    JsString.toLowerCase (orText (IndexLoader.itemOrderName item) "") in
  let legacyId :=
    JsString.toLowerCase (orText (IndexLoader.itemOrderLegacyId item) "") in
  let orderId :=
    JsString.toLowerCase (orText (Some (IndexLoader.itemOrderId item)) "") in
  includes normalizedHistorySearch customerName
  || includes normalizedHistorySearch orderName
  || includes normalizedHistorySearch legacyId
  || includes normalizedHistorySearch orderId.

Definition filteredHistory (history : list IndexLoader.historyItem)
    (st : state) : list IndexLoader.historyItem :=
  let normalizedHistorySearch :=
    JsString.toLowerCase (JsString.trim (historySearch st)) in
  if negb (JsString.nonEmpty normalizedHistorySearch) then history
  else filter (matchesSearch normalizedHistorySearch) history.

(** [Math.max(1, Math.ceil(totalHistoryRows / HISTORY_PAGE_SIZE))] *)
Definition totalHistoryPages (totalHistoryRows : Z) : Z :=
  Z.max 1 ((totalHistoryRows + HISTORY_PAGE_SIZE - 1) / HISTORY_PAGE_SIZE).

(** [Math.min(Math.max(historyPage, 1), totalHistoryPages)] *)
Definition safeHistoryPage (historyPage totalPages : Z) : Z :=
  Z.min (Z.max historyPage 1) totalPages.

Definition pagedHistory {A : Type} (filtered : list A) (safePage : Z) : list A :=
  let start := (safePage - 1) * HISTORY_PAGE_SIZE in
  let finish := start + HISTORY_PAGE_SIZE in
  slice start finish filtered.

Definition canPrev (safePage : Z) : bool := 1 <? safePage.
Definition canNext (safePage totalPages : Z) : bool := safePage <? totalPages.

(** The Prev and Next buttons: [canPrev && setHistoryPage((p) =>
    Math.max(1, p - 1))] and its mirror image. *)
Definition clickPrev (safePage : Z) (p : Z) : Z :=
  if canPrev safePage then Z.max 1 (p - 1) else p.

Definition clickNext (safePage totalPages : Z) (p : Z) : Z :=
  if canNext safePage totalPages then Z.min totalPages (p + 1) else p.

(** "Showing [from] - [to] of [totalHistoryRows]" *)
Definition showingFrom (safePage totalHistoryRows : Z) : Z :=
  if totalHistoryRows =? 0 then 0 else (safePage - 1) * HISTORY_PAGE_SIZE + 1.

Definition showingTo (safePage totalHistoryRows : Z) : Z :=
  Z.min (safePage * HISTORY_PAGE_SIZE) totalHistoryRows.

End Page.

(* ================================================================== *)
(** ** Notions the properties are stated with *)

(** The calls of a trace that reach the order-creation service, and those
    that write to the history store. *)
Definition orderRequests (t : list event) : list orderRequest :=
  flat_map (fun e => match e with DraftOrderCreate b => [b] | _ => [] end) t.

Definition historyWrites (t : list event) : list historyRecord :=
  flat_map (fun e => match e with HistoryCreate d => [d] | _ => [] end) t.

(** The rows a reconciliation is expected to give: row [i] enriched with the
    reply to its own lookup, whatever the other lookups did. *)
Fixpoint reconciled (rev : revision) (env : services) (n : nat)
    (parsedRows : list Row) : list Row :=
  match parsedRows with
  | [] => []
  | row :: rest =>
      Reconciler.enrichRow rev row (catalog env n (sku row))
      :: reconciled rev env (S n) rest
  end.

(** A lookup that found a variant: the reply carries a first edge with a
    node and, for Rev1, no GraphQL error. *)
Definition foundIn (rev : revision) (reply : catalogReply) (node : variantNode)
  : Prop :=
  exists errors rest,
    reply = CatalogBody errors (Some node :: rest)
    /\ (rev = Rev1 -> errors = []).

(** The "available" quantity a location reports, if it reports one. *)
Definition locationAvailable (edge : option level) : option number :=
  match edge with
  | Some lvl =>
      match quantities lvl with
      | Some qs =>
          match Reconciler.availableEntry qs with
          | Some entry =>
              match quantity entry with Num n => Some n | _ => None end
          | None => None
          end
      | None => None
      end
  | None => None
  end.

(** The quantities reported for a variant, location by location; a location
    without a figure is left out. *)
Definition reportedQuantities (node : variantNode) : list number :=
  flat_map (fun edge => match locationAvailable edge with
                        | Some n => [n]
                        | None => []
                        end)
    (match inventoryLevels node with Some l => l | None => [] end).

(** Left-to-right sum, from 0. *)
Definition sumOf (l : list number) : number := fold_left add l zero.

(** The inclusion predicate on a row of the preview. *)
Definition includableRow (r : Row) : bool :=
  exist r
  && match variantId r with Some s => JsString.nonEmpty s | None => false end
  && gt (fulfilledQuantity r) zero.

(** The order line a row of the preview stands for. *)
Definition lineOf (r : Row) : lineItem :=
  {| itemQuantity := fulfilledQuantity r;
     itemVariantId := ofOption (variantId r) |}.

(** The order-creation reply counts as a success when it is a JSON body with
    a truthy [success] and a truthy [draftOrder]. *)
Definition orderSucceeded (reply : orderReply) (draftOrder : value) : Prop :=
  exists ocJson,
    reply = OrderJson ocJson
    /\ truthy ocJson = true
    /\ truthy (prop ocJson "success") = true
    /\ prop ocJson "draftOrder" = draftOrder
    /\ truthy draftOrder = true.

Definition orderFailed (reply : orderReply) : Prop :=
  match reply with
  | OrderJson ocJson =>
      truthy ocJson = false
      \/ truthy (prop ocJson "success") = false
      \/ truthy (prop ocJson "draftOrder") = false
  | _ => True
  end.

(** The label of a created draft order: its name, else its legacy id, else
    its id. *)
Definition orderLabel (draftOrder : value) : string :=
  toString (or (or (or (prop draftOrder "name") (Str ""))
                   (or (prop draftOrder "legacyResourceId") (Str "")))
               (prop draftOrder "id")).

(** A parsed row as the parser leaves it: a finite, positive quantity. *)
Definition candidate (r : Row) : Prop :=
  isFinite (quantityRequested r) = true /\ gt (quantityRequested r) zero = true.

(** The quantities of a variant are whole numbers (the API's Int). *)
Definition wholeQuantities (node : variantNode) : Prop :=
  Forall isInteger (reportedQuantities node).

(** *** The parser as the specification words it *)

(** The text in a cell; a missing cell has none. *)
Definition cellText (c : value) : string :=
  match c with
  | Undefined | Null => EmptyString
  | _ => toString c
  end.

(** A data row gives a candidate row when its sku cell is not blank after
    trimming and its quantity cell is a positive finite number. *)
Definition specCandidate (skuIndex qtyIndex : nat) (row : list value)
  : option Row :=
  let sku := JsString.trim (cellText (Parser.cell row skuIndex)) in
  let quantity := toNumber (Parser.cell row qtyIndex) in
  if JsString.nonEmpty sku && isFinite quantity && gt quantity zero
  then Some (Parser.parsedRow sku quantity)
  else None.

(** One candidate row per such data row, in input order. *)
Definition specCandidates (skuIndex qtyIndex : nat)
    (dataRows : list (list value)) : list Row :=
  flat_map (fun row => match specCandidate skuIndex qtyIndex row with
                       | Some r => [r]
                       | None => []
                       end) dataRows.

(** A sku cell on which [rawSku || ""] keeps the cell's text: anything but
    the number 0, not-a-number and the boolean false. *)
Definition keepsText (c : value) : bool :=
  match c with
  | Num n => JsNumber.truthy n
  | Bool b => b
  | _ => true
  end.

(** The lookups the "create" intent makes before it reads the preview:
    Rev2 asks for the customer's B2B context (unless the customer id is
    empty), both revisions ask for the shop id. *)
Definition lookupsBefore (rev : revision) (customerGid : string) : list event :=
  match rev with
  | Rev1 => []
  | Rev2 => if JsString.nonEmpty customerGid then [B2BQuery customerGid] else []
  end ++ [ShopQuery].

(** The customer name and id the "create" intent works with. *)
Definition createName (form : formData) : string :=
  orText (formCustomerName form) "Unknown Customer".
Definition createCustomerId (form : formData) : string :=
  orText (formCustomerId form) "".

(** A string that does not start with white space. *)
Definition headIsText (s : string) : Prop :=
  match s with
  | EmptyString => True
  | String c _ => JsString.isWhiteSpace c = false
  end.

(** What the parser guarantees of a row it emits. *)
Definition wellFormedParsedRow (r : Row) : Prop :=
  JsString.nonEmpty (sku r) = true
  /\ JsString.trim (sku r) = sku r
  /\ isFinite (quantityRequested r) = true
  /\ gt (quantityRequested r) zero = true
  /\ status r = Pending /\ exist r = false /\ variantId r = None
  /\ fulfilledQuantity r = zero /\ availableQuantity r = zero.

(** A text of ASCII characters only: on such a text [trim] and
    [toLowerCase] above are the built-ins exactly. *)
Fixpoint asciiText (s : string) : bool :=
  match s with
  | EmptyString => true
  | String c r => Nat.ltb (nat_of_ascii c) 128 && asciiText r
  end.

(** A header cell as a sheet holds it: an ASCII text, a number, a boolean
    or nothing. *)
Definition plainHeaderCell (c : value) : Prop :=
  match c with
  | Str s => asciiText s = true
  | Arr _ | Obj _ => False
  | _ => True
  end.

(** What [JSON.stringify] writes for a number: the number when it is
    finite, [null] otherwise. *)
Definition jsonNumber (n : number) : value :=
  if isFinite n then Num n else Null.

(** The statuses under which the preview promises a quantity. *)
Definition okOrPartial (s : Status) : bool :=
  match s with Ok | Partial => true | _ => false end.

(* ================================================================== *)
(** ** Sample data *)

(** A variant with 3 available at one location, a location without a
    figure and an empty edge; and a parsed row asking for 5. *)
Definition sampleNode : variantNode :=
  {| id := "gid://shopify/ProductVariant/1";
     displayName := Some "Shirt - Default Title"%string;
     productTitle := None;
     inventoryLevels :=
       Some [ Some (mkLevel (Some [mkQuantity "available" (Num (ofZ 3))]));
              Some (mkLevel None);
              None ] |}.

Definition sampleRow : Row := Parser.parsedRow "ABC123" (ofZ 5).

(** The catalog of the row-isolation scenario: the first lookup finds the
    variant, every later one throws. *)
Definition sampleServices : services :=
  {| shop := ShopBody (Some "gid://shopify/Shop/77"%string);
     b2b := fun _ => B2BProfiles [];
     catalog := fun n _ =>
       match n with
       | O => CatalogBody [] [Some sampleNode]
       | _ => CatalogThrows
       end;
     draftOrderCreate := fun _ => FetchThrows "network";
     historyCreate := fun _ => false |}.

(** A catalog whose first lookup gets [reply1] and every later one a reply
    that carries the GraphQL errors [errors] and no variant. *)
Definition erroringServices (reply1 : catalogReply) (errors : list string)
  : services :=
  {| shop := ShopBody (Some "gid://shopify/Shop/77"%string);
     b2b := fun _ => B2BProfiles [];
     catalog := fun n _ =>
       match n with
       | O => reply1
       | _ => CatalogBody errors []
       end;
     draftOrderCreate := fun _ => FetchThrows "network";
     historyCreate := fun _ => false |}.

(** The same variant, oversold at its only location. *)
Definition oversoldNode : variantNode :=
  {| id := "gid://shopify/ProductVariant/1";
     displayName := Some "Shirt"%string;
     productTitle := None;
     inventoryLevels :=
       Some [ Some (mkLevel (Some [mkQuantity "available" (Num (ofZ (-3)))])) ] |}.

(** The grid of the specification's parsing example. *)
Definition exampleGrid : list (list value) :=
  [ [Str "SKU"; Str "Quantity"];
    [Str "ABC123"; Str "5"];
    [Str ""; Str "3"];
    [Str "XYZ999"; Str "-1"];
    [Str "DEF000"; Str "0"];
    [Str "GHI111"; Str "2"] ].

(** A sheet whose first data row has the sku 0, as a numeric cell. *)
Definition zeroSkuGrid : list (list value) :=
  [ [Str "sku"; Str "qty"];
    [Num (ofZ 0); Num (ofZ 5)];
    [Str "ABC123"; Num (ofZ 5)] ].

(** Three preview rows: one to order, one not found, one out of stock. *)
Definition samplePreview : list Row :=
  [ {| sku := "A"; productName := "Shirt"; exist := true;
       availableQuantity := ofZ 3; quantityRequested := ofZ 5;
       fulfilledQuantity := ofZ 3; status := Partial;
       variantId := Some "v1"%string |};
    Reconciler.unresolved (Parser.parsedRow "B" (ofZ 1)) SkuNotFound;
    {| sku := "C"; productName := "Hat"; exist := true;
       availableQuantity := ofZ 0; quantityRequested := ofZ 2;
       fulfilledQuantity := ofZ 0; status := NoStock;
       variantId := Some "v2"%string |} ].

(** A stand-in for [JSON.parse] that knows three texts: "[]", "rows" for
    the serialised [samplePreview], and "unavailable" for its last two rows. *)
Definition sampleParse (s : string) : option value :=
  if String.eqb s "[]" then Some (Arr [])
  else if String.eqb s "rows" then Some (Arr (map rowValue samplePreview))
  else if String.eqb s "unavailable" then Some (Arr (map rowValue (tl samplePreview)))
  else None.

Definition sampleForm (json : jsonEntry) : formData :=
  {| intent := Some "create"%string;
     formCustomerName := Some "Acme"%string;
     formCustomerId := Some "gid://shopify/Customer/42"%string;
     file := NoFile;
     previewJson := json |}.

(** The order service creates draft order #24; the history write throws. *)
Definition sampleDraftOrder : value :=
  Obj [ ("id", Str "gid://shopify/DraftOrder/9");
        ("legacyResourceId", Str "9");
        ("name", Str "#24") ]%string.

Definition creatingServices : services :=
  {| shop := ShopBody (Some "gid://shopify/Shop/77"%string);
     b2b := fun _ => B2BProfiles [];
     catalog := fun _ _ => CatalogThrows;
     draftOrderCreate := fun _ =>
       OrderJson (Obj [ ("success", Bool true);
                        ("draftOrder", sampleDraftOrder) ]%string);
     historyCreate := fun _ => false |}.


(** A preview whose only row carries the quantity 1e400, which
    [JSON.parse] reads as Infinity. *)
Definition overflowedPreview : value :=
  Arr [ Obj [ ("sku", Str "A");
              ("exist", Bool true);
              ("variantId", Str "v1");
              ("fulfilledQuantity", Num PosInf) ]%string ].

(** An upload of a sheet for customer Acme. *)
Definition uploadForm (workbook : option (list (list value))) : formData :=
  {| intent := Some "process"%string;
     formCustomerName := Some " Acme "%string;
     formCustomerId := Some "gid://shopify/Customer/42"%string;
     file := Upload workbook;
     previewJson := NoEntry |}.

(* ================================================================== *)
(** ** Lemmas on the order of numbers *)

Lemma cmpFin_refl m e : cmpFin m e m e = Eq.
Proof. unfold cmpFin. apply Z.compare_refl. Qed.

Lemma cmpFin_antisym m1 e1 m2 e2 :
  cmpFin m2 e2 m1 e1 = CompOpp (cmpFin m1 e1 m2 e2).
Proof.
  unfold cmpFin. rewrite (Z.min_comm e2 e1). apply Z.compare_antisym.
Qed.

Lemma le_refl_finite a : isFinite a = true -> le a a = true.
Proof.
  destruct a; simpl; try discriminate. intros _. now rewrite cmpFin_refl.
Qed.

Lemma lt_le a b : lt a b = true -> le a b = true.
Proof.
  destruct a, b; simpl; try discriminate; try reflexivity.
  destruct (cmpFin m e m0 e0); congruence.
Qed.

Lemma not_le_lt a b :
  isFinite a = true -> isFinite b = true -> le a b = false -> lt b a = true.
Proof.
  destruct a, b; simpl; try discriminate. intros _ _.
  rewrite (cmpFin_antisym m e m0 e0).
  destruct (cmpFin m e m0 e0); simpl; congruence.
Qed.

Lemma not_lt_le a b :
  isFinite a = true -> isFinite b = true -> lt a b = false -> le b a = true.
Proof.
  destruct a, b; simpl; try discriminate. intros _ _.
  rewrite (cmpFin_antisym m e m0 e0).
  destruct (cmpFin m e m0 e0); simpl; congruence.
Qed.

Lemma gt_zero_truthy n : gt n zero = true -> JsNumber.truthy n = true.
Proof.
  destruct n; simpl; try discriminate; try reflexivity.
  unfold gt, lt, zero, cmpFin. simpl.
  destruct (Z.eqb_spec m 0) as [->|]; [|reflexivity].
  now rewrite Z.mul_0_l.
Qed.

Lemma falsy_not_gt_zero n : JsNumber.truthy n = false -> gt n zero = false.
Proof.
  intros H. destruct (gt n zero) eqn:E; [|reflexivity].
  apply gt_zero_truthy in E. congruence.
Qed.

Lemma isInteger_add a b : isInteger a -> isInteger b -> isInteger (add a b).
Proof.
  destruct a as [| | |m1 e1], b as [| | |m2 e2]; simpl; try tauto.
  intros Ha Hb.
  destruct (Z.le_gt_cases 0 (Z.min e1 e2)) as [Hm|Hm]; [now left|right].
  set (e := Z.min e1 e2) in *.
  assert (He1 : e <= e1) by (subst e; lia).
  assert (He2 : e <= e2) by (subst e; lia).
  assert (D : forall m' e', e <= e' -> (0 <= e' \/ (10 ^ (- e') | m')) ->
                            (10 ^ (- e) | m' * 10 ^ (e' - e))).
  { intros m' e' Hle [Hpos|Hdiv].
    - replace (e' - e) with (e' + - e) by lia.
      rewrite Z.pow_add_r by lia.
      apply Z.divide_mul_r, Z.divide_mul_r, Z.divide_refl.
    - destruct (Z.le_gt_cases 0 e') as [Hpos|Hneg].
      + replace (e' - e) with (e' + - e) by lia.
        rewrite Z.pow_add_r by lia.
        apply Z.divide_mul_r, Z.divide_mul_r, Z.divide_refl.
      + replace (- e) with (- e' + (e' - e)) by lia.
        rewrite Z.pow_add_r by lia.
        now apply Z.mul_divide_mono_r. }
  apply Z.divide_add_r; auto.
Qed.

Lemma isInteger_sum l acc :
  isInteger acc -> Forall isInteger l -> isInteger (fold_left add l acc).
Proof.
  revert acc. induction l as [|x l IH]; intros acc Hacc Hl; simpl; [assumption|].
  inversion Hl; subst. apply IH; [now apply isInteger_add|assumption].
Qed.

Lemma isInteger_finite a : isInteger a -> isFinite a = true.
Proof. destruct a; simpl; tauto. Qed.

Ltac conjs := repeat match goal with |- _ /\ _ => split end.

(* ================================================================== *)
(** ** The reconciler *)

Lemma enrichLoop_rows rev env parsedRows : forall n enrichedRows,
  fst (Reconciler.enrichLoop rev env n parsedRows enrichedRows)
  = enrichedRows ++ reconciled rev env n parsedRows.
Proof.
  induction parsedRows as [|row rest IH]; intros n acc; simpl.
  - now rewrite app_nil_r.
  - specialize (IH (S n) (acc ++ [Reconciler.enrichRow rev row (catalog env n (sku row))])).
    destruct (Reconciler.enrichLoop rev env (S n) rest _) as [rows t].
    simpl in *. rewrite IH, <- app_assoc. reflexivity.
Qed.

Lemma enrichLoop_trace rev env parsedRows : forall n enrichedRows,
  snd (Reconciler.enrichLoop rev env n parsedRows enrichedRows)
  = map (fun row => VariantQuery (sku row)) parsedRows.
Proof.
  induction parsedRows as [|row rest IH]; intros n acc; simpl; [reflexivity|].
  specialize (IH (S n) (acc ++ [Reconciler.enrichRow rev row (catalog env n (sku row))])).
  destruct (Reconciler.enrichLoop rev env (S n) rest _) as [rows t].
  simpl in *. now rewrite IH.
Qed.

Lemma reconciled_length rev env parsedRows : forall n,
  List.length (reconciled rev env n parsedRows) = List.length parsedRows.
Proof. induction parsedRows; intros n; simpl; [reflexivity|now rewrite IHparsedRows]. Qed.

Lemma reconciled_nth rev env parsedRows : forall n i row,
  nth_error parsedRows i = Some row ->
  nth_error (reconciled rev env n parsedRows) i
  = Some (Reconciler.enrichRow rev row (catalog env (n + i) (sku row))).
Proof.
  induction parsedRows as [|r rest IH]; intros n i row H.
  - destruct i; discriminate.
  - destruct i as [|i]; simpl in *.
    + inversion H; subst. now rewrite Nat.add_0_r.
    + rewrite (IH (S n) i row H). now rewrite Nat.add_succ_r.
Qed.

Lemma enrichRow_keeps rev row reply :
  sku (Reconciler.enrichRow rev row reply) = sku row
  /\ quantityRequested (Reconciler.enrichRow rev row reply) = quantityRequested row.
Proof.
  unfold Reconciler.enrichRow, Reconciler.matched.
  destruct reply as [|errors edges]; [now split|].
  destruct rev, errors; simpl;
    try (now split);
    destruct edges as [|[node|] ?]; simpl; try (now split);
    destruct (Reconciler.classify _ _); now split.
Qed.

Lemma enrichRow_found rev row reply node :
  foundIn rev reply node ->
  Reconciler.enrichRow rev row reply = Reconciler.matched row node.
Proof.
  intros (errors & rest & -> & Herr). unfold Reconciler.enrichRow.
  destruct rev.
  - now rewrite (Herr eq_refl).
  - now destruct errors.
Qed.

(** C1. A row enriched from a lookup that found a variant has its
    fulfilled quantity and status fixed by the requested quantity and the
    total available, in this order of precedence: total <= 0 gives
    (0, no stock); else requested > total gives (total, partial); else
    (requested, ok).  Exactly one of the three cases applies to any pair. *)
Theorem fulfillment_by_precedence :
  forall rev row reply node,
    foundIn rev reply node ->
    let r := Reconciler.enrichRow rev row reply in
    let requested := quantityRequested row in
    let total := Reconciler.totalAvailableOf node in
    (le total zero = true ->
       fulfilledQuantity r = zero /\ status r = NoStock)
    /\ (le total zero = false -> gt requested total = true ->
       fulfilledQuantity r = total /\ status r = Partial)
    /\ (le total zero = false -> gt requested total = false ->
       fulfilledQuantity r = requested /\ status r = Ok).
Proof.
  intros rev row reply node Hfound r requested total.
  subst r. rewrite (enrichRow_found _ _ _ _ Hfound).
  unfold Reconciler.matched, Reconciler.classify.
  fold total. fold requested.
  destruct (le total zero) eqn:Hle, (gt requested total) eqn:Hgt; simpl;
    repeat split; intros; congruence.
Qed.

(** Row isolation, in both revisions.  Reconciliation gives as many rows
    as it was given, in the same order: the row at position [i] is the input
    row at [i] (same sku, same requested quantity) enriched with the reply to
    its own lookup only.  When that lookup throws, the row at [i] is marked
    "error"; when its reply carries GraphQL errors, Rev1 marks it "error"
    too.  The rows at the other positions are produced all the same. *)
Lemma reconciliation_isolates_rows :
  forall rev env parsedRows,
    let out := fst (Reconciler.enrichLoop rev env O parsedRows []) in
    List.length out = List.length parsedRows
    /\ map sku out = map sku parsedRows
    /\ map quantityRequested out = map quantityRequested parsedRows
    /\ (forall i row,
          nth_error parsedRows i = Some row ->
          nth_error out i
          = Some (Reconciler.enrichRow rev row (catalog env i (sku row))))
    /\ (forall i row,
          nth_error parsedRows i = Some row ->
          catalog env i (sku row) = CatalogThrows ->
          exists r, nth_error out i = Some r
                    /\ sku r = sku row /\ status r = LookupError)
    /\ (forall i row e errors edges,
          rev = Rev1 ->
          nth_error parsedRows i = Some row ->
          catalog env i (sku row) = CatalogBody (e :: errors) edges ->
          exists r, nth_error out i = Some r
                    /\ sku r = sku row /\ status r = LookupError).
Proof.
  intros rev env parsedRows out. subst out.
  rewrite enrichLoop_rows. simpl.
  assert (Hmap : forall n,
            map sku (reconciled rev env n parsedRows) = map sku parsedRows
            /\ map quantityRequested (reconciled rev env n parsedRows)
               = map quantityRequested parsedRows).
  { induction parsedRows as [|r rest IH]; intros n; simpl; [now split|].
    destruct (IH (S n)) as [-> ->].
    destruct (enrichRow_keeps rev r (catalog env n (sku r))) as [-> ->].
    now split. }
  split; [apply reconciled_length|].
  split; [apply Hmap|]. split; [apply Hmap|]. split; [|split].
  - intros i row H. now rewrite (reconciled_nth rev env parsedRows O i row H).
  - intros i row H Hthrow.
    rewrite (reconciled_nth rev env parsedRows O i row H). simpl.
    rewrite Hthrow. eexists. split; [reflexivity|]. now split.
  - intros i row e errors edges -> H Herr.
    rewrite (reconciled_nth Rev1 env parsedRows O i row H). simpl.
    rewrite Herr. eexists. split; [reflexivity|]. now split.
Qed.

Lemma sampleNode_found rev : foundIn rev (CatalogBody [] [Some sampleNode]) sampleNode.
Proof. exists [], []. split; [reflexivity|intros _; reflexivity]. Defined.

Lemma fulfillment_by_precedence_witness :
  foundIn Rev1 (CatalogBody [] [Some sampleNode]) sampleNode
  /\ fulfilledQuantity
       (Reconciler.enrichRow Rev1 sampleRow (CatalogBody [] [Some sampleNode]))
     = ofZ 3
  /\ status
       (Reconciler.enrichRow Rev1 sampleRow (CatalogBody [] [Some sampleNode]))
     = Partial.
Proof.
  split; [apply sampleNode_found|].
  destruct (fulfillment_by_precedence Rev1 sampleRow _ _ (sampleNode_found Rev1))
    as (_ & HP & _).
  apply HP; reflexivity.
Defined.

Lemma reconciliation_isolates_rows_witness :
  let parsedRows := [sampleRow; Parser.parsedRow "XYZ999" (ofZ 2)] in
  let out := fst (Reconciler.enrichLoop Rev2 sampleServices O parsedRows []) in
  List.length out = 2%nat
  /\ map status out = [Partial; LookupError].
Proof.
  pose proof (reconciliation_isolates_rows Rev2 sampleServices
                [sampleRow; Parser.parsedRow "XYZ999" (ofZ 2)]) as (Hlen & _).
  split; [exact Hlen|reflexivity].
Defined.

(** C4. A lookup that answers with GraphQL errors, in the middle of a run.
    Two parsed rows are reconciled; the first lookup gets any reply, the
    second a reply that carries GraphQL errors and no variant.  In both
    revisions the output has the two rows in their order and the first row is
    enriched from its own reply, so the run is not aborted.  Rev1 marks the
    second row "error".  Rev2 marks it "sku not found", with [exist] false
    and nothing to fulfil: the failed lookup is shown as an absent sku. *)
Theorem errored_lookup_loses_error_mark :
  forall row1 row2 reply1 e errors,
    let env := erroringServices reply1 (e :: errors) in
    fst (Reconciler.enrichLoop Rev2 env O [row1; row2] [])
    = [ Reconciler.enrichRow Rev2 row1 reply1;
        Reconciler.unresolved row2 SkuNotFound ]
    /\ fst (Reconciler.enrichLoop Rev1 env O [row1; row2] [])
       = [ Reconciler.enrichRow Rev1 row1 reply1;
           Reconciler.unresolved row2 LookupError ]
    /\ map status
         (fst (Reconciler.enrichLoop Rev2
                 (erroringServices (CatalogBody [] [Some sampleNode]) ["Throttled"%string])
                 O [sampleRow; Parser.parsedRow "XYZ999" (ofZ 2)] []))
       = [Partial; SkuNotFound]
    /\ map status
         (fst (Reconciler.enrichLoop Rev1
                 (erroringServices (CatalogBody [] [Some sampleNode]) ["Throttled"%string])
                 O [sampleRow; Parser.parsedRow "XYZ999" (ofZ 2)] []))
       = [Partial; LookupError].
Proof.
  intros row1 row2 reply1 e errors env. subst env.
  rewrite !enrichLoop_rows. cbn [fst].
  split; [reflexivity|]. split; [reflexivity|]. split; reflexivity.
Qed.

(** C5. In Rev2 a reply that carries GraphQL errors and no variant is
    marked "sku not found", the status of a confirmed absence; Rev1 marks the
    same reply "error". *)
Theorem graphql_errors_marked_not_found :
  forall row e errors,
    status (Reconciler.enrichRow Rev2 row (CatalogBody (e :: errors) []))
    = SkuNotFound
    /\ status (Reconciler.enrichRow Rev1 row (CatalogBody (e :: errors) []))
       = LookupError.
Proof. intros row e errors. split; reflexivity. Qed.

(** A lookup that throws is marked "error" in both revisions, and a clean
    reply without a variant "sku not found"; the two texts differ. *)
Lemma thrown_lookup_is_error rev row :
  status (Reconciler.enrichRow rev row CatalogThrows) = LookupError
  /\ status (Reconciler.enrichRow rev row (CatalogBody [] [])) = SkuNotFound
  /\ statusString LookupError <> statusString SkuNotFound.
Proof. destruct rev; repeat split; discriminate. Qed.

(** In Rev2 a reply with GraphQL errors that still carries a variant is
    reconciled as a match. *)
Lemma graphql_errors_with_data_rev2 row e errors node rest :
  Reconciler.enrichRow Rev2 row (CatalogBody (e :: errors) (Some node :: rest))
  = Reconciler.matched row node.
Proof. reflexivity. Qed.

(* ------------------------------------------------------------------ *)
(** *** The invariant of reconciled rows *)

Lemma sumLevels_sum levelEdges : forall acc,
  Reconciler.sumLevels levelEdges acc
  = fold_left add
      (flat_map (fun edge => match locationAvailable edge with
                             | Some n => [n]
                             | None => []
                             end) levelEdges) acc.
Proof.
  induction levelEdges as [|edge rest IH]; intros acc; [reflexivity|].
  simpl. destruct edge as [lvl|]; simpl; [|apply IH].
  destruct (quantities lvl) as [qs|]; simpl.
  - destruct (Reconciler.availableEntry qs) as [entry|]; simpl; [|apply IH].
    destruct (quantity entry); simpl; apply IH.
  - unfold Reconciler.availableEntry. simpl. apply IH.
Qed.

Lemma totalAvailable_is_sum node :
  Reconciler.totalAvailableOf node = sumOf (reportedQuantities node).
Proof. unfold Reconciler.totalAvailableOf. apply sumLevels_sum. Qed.

Lemma enrichRow_cases rev row reply :
  (exists node, foundIn rev reply node)
  \/ (exists st, Reconciler.enrichRow rev row reply = Reconciler.unresolved row st
                 /\ (st = SkuNotFound \/ st = LookupError)).
Proof.
  destruct reply as [|errors edges].
  - right. exists LookupError. split; [reflexivity|now right].
  - destruct rev, errors as [|e errors], edges as [|[node|] rest];
      try (left; exists node; eexists _, _; split; [reflexivity|];
           first [ reflexivity | discriminate | intros _; reflexivity ]);
      right;
      first [ exists SkuNotFound; split; [reflexivity|now left]
            | exists LookupError; split; [reflexivity|now right] ].
Qed.

Lemma parseLoop_candidates skuIndex qtyIndex dataRows : forall parsedRows,
  Forall candidate parsedRows ->
  Forall candidate (Parser.parseLoop skuIndex qtyIndex dataRows parsedRows).
Proof.
  induction dataRows as [|row rest IH]; intros acc Hacc; simpl; [assumption|].
  destruct (negb (JsString.nonEmpty _)); [now apply IH|].
  destruct (isFinite _) eqn:Hfin; simpl; [|now apply IH].
  destruct (le _ zero) eqn:Hle; [now apply IH|].
  apply IH, Forall_app. split; [assumption|].
  constructor; [|constructor]. split; [exact Hfin|].
  apply not_le_lt; auto.
Qed.

(** The parser hands only rows with a finite, positive quantity to the
    reconciler. *)
Lemma parsed_rows_are_candidates rows parsedRows :
  Parser.parse rows = Parser.Parsed parsedRows -> Forall candidate parsedRows.
Proof.
  unfold Parser.parse. destruct rows as [|row0 dataRows]; [discriminate|].
  destruct (Parser.findIndex _ _) as [skuIndex|]; [|discriminate].
  destruct (Parser.findIndex _ _) as [qtyIndex|]; [|discriminate].
  pose proof (parseLoop_candidates skuIndex qtyIndex dataRows [] (Forall_nil _)) as H.
  destruct (Parser.parseLoop _ _ _ _); [discriminate|].
  intros E. inversion E; subst. exact H.
Qed.

(** C9, as stated, fails: a variant oversold at its only location (available
    -3) gives a reconciled row whose availableQuantity is negative, so that
    fulfilledQuantity (0) is above min(quantityRequested, availableQuantity). *)
Lemma negative_available_quantity :
  let r := Reconciler.enrichRow Rev1 sampleRow (CatalogBody [] [Some oversoldNode]) in
  availableQuantity r = ofZ (-3)
  /\ le zero (availableQuantity r) = false
  /\ le (fulfilledQuantity r) (availableQuantity r) = false.
Proof. repeat split. Qed.

(** C9, amended. A row reconciled from a parsed row, when the catalog's
    quantities are whole numbers: availableQuantity is a whole number (it may
    be negative): for a match, the sum of the quantities the locations
    report, and 0 otherwise; 0 <= fulfilledQuantity <= quantityRequested; fulfilledQuantity <=
    availableQuantity whenever availableQuantity is not negative; and
    fulfilledQuantity > 0 implies exist = true and status ok or partial. *)
Theorem reconciled_row_invariant :
  forall rev row reply,
    candidate row ->
    (forall node, foundIn rev reply node -> wholeQuantities node) ->
    let r := Reconciler.enrichRow rev row reply in
    isInteger (availableQuantity r)
    /\ (forall node, foundIn rev reply node ->
          availableQuantity r = sumOf (reportedQuantities node))
    /\ ((forall node, ~ foundIn rev reply node) -> availableQuantity r = zero)
    /\ le zero (fulfilledQuantity r) = true
    /\ le (fulfilledQuantity r) (quantityRequested r) = true
    /\ (le zero (availableQuantity r) = true ->
          le (fulfilledQuantity r) (availableQuantity r) = true)
    /\ (gt (fulfilledQuantity r) zero = true ->
          exist r = true /\ (status r = Ok \/ status r = Partial)).
Proof.
  intros rev row reply [Hfin Hpos] Hwhole r.
  assert (Hq0 : le zero (quantityRequested row) = true) by now apply lt_le.
  destruct (enrichRow_cases rev row reply) as [[node Hfound]|(st & Hst & _)].
  - assert (Hr : r = Reconciler.matched row node)
      by (subst r; now apply enrichRow_found).
    assert (Hsame : forall node', foundIn rev reply node' ->
              Reconciler.totalAvailableOf node = sumOf (reportedQuantities node')).
    { intros node' (e1 & r1 & E1 & _). destruct Hfound as (e2 & r2 & E2 & _).
      replace node' with node by congruence. apply totalAvailable_is_sum. }
    pose proof (Hwhole node Hfound) as Hint.
    assert (Htot : isInteger (Reconciler.totalAvailableOf node)).
    { rewrite totalAvailable_is_sum. apply isInteger_sum; [now left|exact Hint]. }
    pose proof (isInteger_finite _ Htot) as Htfin.
    rewrite Hr. unfold Reconciler.matched, Reconciler.classify.
    destruct (le (Reconciler.totalAvailableOf node) zero) eqn:Hle;
      [|destruct (gt (quantityRequested row) (Reconciler.totalAvailableOf node)) eqn:Hgt];
      cbn [availableQuantity fulfilledQuantity quantityRequested exist status];
      conjs; auto;
      try (intros Hnot; exfalso; exact (Hnot node Hfound)).
    + discriminate.
    + apply lt_le, not_le_lt; auto.
    + now apply lt_le.
    + intros _. now apply le_refl_finite.
    + now apply le_refl_finite.
    + intros _. apply not_lt_le; auto.
  - subst r. rewrite Hst.
    cbn [Reconciler.unresolved availableQuantity fulfilledQuantity
         quantityRequested exist status].
    conjs; auto.
    + now left.
    + intros node Hfound. exfalso.
      rewrite (enrichRow_found _ _ _ _ Hfound) in Hst.
      apply (f_equal exist) in Hst. unfold Reconciler.matched in Hst.
      destruct (Reconciler.classify _ _). discriminate.
    + discriminate.
Qed.

Lemma reconciled_row_invariant_witness :
  candidate sampleRow
  /\ wholeQuantities sampleNode
  /\ availableQuantity
       (Reconciler.enrichRow Rev2 sampleRow (CatalogBody [] [Some sampleNode]))
     = ofZ 3
  /\ le (fulfilledQuantity
           (Reconciler.enrichRow Rev2 sampleRow (CatalogBody [] [Some sampleNode])))
        (quantityRequested
           (Reconciler.enrichRow Rev2 sampleRow (CatalogBody [] [Some sampleNode])))
     = true.
Proof.
  assert (Hc : candidate sampleRow) by (split; reflexivity).
  assert (Hw : wholeQuantities sampleNode)
    by (repeat constructor; simpl; lia).
  assert (Hall : forall node,
             foundIn Rev2 (CatalogBody [] [Some sampleNode]) node ->
             wholeQuantities node).
  { intros node (errors & rest & E & _). inversion E; subst. exact Hw. }
  destruct (reconciled_row_invariant Rev2 sampleRow _ Hc Hall)
    as (_ & Hsum & _ & _ & Hle & _).
  split; [exact Hc|]. split; [exact Hw|]. split; [|exact Hle].
  rewrite (Hsum sampleNode (sampleNode_found Rev2)). reflexivity.
Defined.

(* ================================================================== *)
(** ** The parser *)

Lemma quantity_decision c :
  (negb (isFinite (Parser.quantityOf c)) || le (Parser.quantityOf c) zero)
  = negb (isFinite (toNumber c) && gt (toNumber c) zero)
  /\ (isFinite (toNumber c) && gt (toNumber c) zero = true ->
      Parser.quantityOf c = toNumber c).
Proof.
  unfold Parser.quantityOf, or.
  destruct (truthy c) eqn:Ht.
  - split; [|reflexivity].
    destruct (toNumber c) as [| | |m e] eqn:E; try reflexivity.
    cbn [isFinite negb orb andb]. unfold gt.
    destruct (le (Fin m e) zero) eqn:Hle.
    + destruct (lt zero (Fin m e)) eqn:Hlt; [|reflexivity].
      exfalso. revert Hle Hlt. simpl. rewrite (cmpFin_antisym m e 0 0).
      destruct (cmpFin m e 0 0); simpl; congruence.
    + now rewrite (not_le_lt (Fin m e) zero).
  - assert (Hz : isFinite (toNumber c) && gt (toNumber c) zero = false).
    { destruct c as [| |b|n|s|l|f]; try discriminate; try reflexivity.
      - destruct b; [discriminate|reflexivity].
      - cbn [truthy] in Ht. cbn [toNumber]. rewrite (falsy_not_gt_zero n Ht).
        apply andb_false_r.
      - destruct s; [reflexivity|discriminate]. }
    rewrite Hz. split; [reflexivity|discriminate].
Qed.

Lemma sku_kept c : keepsText c = true -> Parser.skuOf c = JsString.trim (cellText c).
Proof.
  unfold Parser.skuOf, or.
  destruct c as [| |b|n|s|l|f]; simpl; try reflexivity.
  - intros ->. reflexivity.
  - intros ->. reflexivity.
  - destruct s; reflexivity.
Qed.

(** On sheets whose sku cells keep their text, the parser gives one
    candidate row per data row with a non-blank sku and a positive finite
    quantity, in input order. *)
Lemma parseLoop_spec skuIndex qtyIndex dataRows : forall parsedRows,
  Forall (fun row => keepsText (Parser.cell row skuIndex) = true) dataRows ->
  Parser.parseLoop skuIndex qtyIndex dataRows parsedRows
  = parsedRows ++ specCandidates skuIndex qtyIndex dataRows.
Proof.
  induction dataRows as [|row rest IH]; intros acc Hall.
  - simpl. now rewrite app_nil_r.
  - inversion Hall as [|? ? Hrow Hrest]; subst.
    cbn [Parser.parseLoop specCandidates flat_map].
    unfold specCandidate. rewrite (sku_kept _ Hrow).
    destruct (quantity_decision (Parser.cell row qtyIndex)) as [Hdec Hval].
    rewrite Hdec.
    destruct (JsString.nonEmpty _) eqn:Hsku; cbn [negb andb].
    + destruct (isFinite _ && gt _ zero) eqn:Hq; cbn [negb].
      * rewrite (Hval eq_refl), (IH _ Hrest), <- app_assoc. reflexivity.
      * now rewrite (IH _ Hrest).
    + now rewrite (IH _ Hrest).
Qed.

(** The specification's example: of the five data rows, the first and the
    last survive, in that order. *)
Lemma parse_example :
  Parser.parse exampleGrid
  = Parser.Parsed [ Parser.parsedRow "ABC123" (ofZ 5);
                    Parser.parsedRow "GHI111" (ofZ 2) ].
Proof. reflexivity. Qed.

(** C3. A data row whose sku cell holds the number 0 is dropped although
    the cell is not blank (its text is "0") and its quantity, 5, is a
    positive finite number: [rawSku || ""] takes the falsy 0 for a missing
    cell.  The row after it is parsed. *)
Theorem parse_drops_sku_zero :
  JsString.trim (cellText (Num (ofZ 0))) = "0"%string
  /\ specCandidates 0 1 (tl zeroSkuGrid)
     = [ Parser.parsedRow "0" (ofZ 5); Parser.parsedRow "ABC123" (ofZ 5) ]
  /\ Parser.parse zeroSkuGrid = Parser.Parsed [ Parser.parsedRow "ABC123" (ofZ 5) ].
Proof. repeat split. Qed.

(* ================================================================== *)
(** ** The "create" intent *)

Lemma prop_exist r : prop (rowValue r) "exist" = Bool (exist r).
Proof. destruct r as [? ? ? ? ? ? ? [v|]]; reflexivity. Qed.

Lemma prop_variantId r : prop (rowValue r) "variantId" = ofOption (variantId r).
Proof. destruct r as [? ? ? ? ? ? ? [v|]]; reflexivity. Qed.

Lemma prop_fulfilledQuantity r :
  prop (rowValue r) "fulfilledQuantity" = Num (fulfilledQuantity r).
Proof. destruct r as [? ? ? ? ? ? ? [v|]]; reflexivity. Qed.

Lemma fulfilledOf_rowValue r :
  gt (fulfilledOf (rowValue r)) zero = gt (fulfilledQuantity r) zero
  /\ (gt (fulfilledQuantity r) zero = true ->
      fulfilledOf (rowValue r) = fulfilledQuantity r).
Proof.
  unfold fulfilledOf. rewrite prop_fulfilledQuantity. unfold or.
  cbn [truthy]. destruct (JsNumber.truthy (fulfilledQuantity r)) eqn:Ht;
    cbn [toNumber].
  - now split.
  - rewrite (falsy_not_gt_zero _ Ht). split; [reflexivity|discriminate].
Qed.

Lemma includable_rowValue r : includable (rowValue r) = includableRow r.
Proof.
  unfold includable, includableRow.
  rewrite prop_exist, prop_variantId.
  destruct (fulfilledOf_rowValue r) as [-> _].
  destruct (variantId r); reflexivity.
Qed.

Lemma filterRows_rowValues rows :
  filterRows (map rowValue rows) = Some (map rowValue (filter includableRow rows)).
Proof.
  induction rows as [|r rest IH]; [reflexivity|].
  cbn [map filterRows filter]. rewrite IH, includable_rowValue.
  replace (isNullish (rowValue r)) with false by reflexivity.
  now destruct (includableRow r).
Qed.

Lemma filter_includable rows :
  Forall (fun r => gt (fulfilledQuantity r) zero = true) (filter includableRow rows).
Proof.
  apply Forall_forall. intros r Hin. apply filter_In in Hin as [_ H].
  unfold includableRow in H. now apply andb_prop in H as [_ H].
Qed.

Lemma totalQuantity_rowValues l : forall acc,
  Forall (fun r => gt (fulfilledQuantity r) zero = true) l ->
  fold_left (fun sum row => add sum (fulfilledOf row)) (map rowValue l) acc
  = fold_left add (map fulfilledQuantity l) acc.
Proof.
  induction l as [|r rest IH]; intros acc Hall; [reflexivity|].
  inversion Hall as [|? ? Hr Hrest]; subst. cbn [map fold_left].
  destruct (fulfilledOf_rowValue r) as [_ ->]; auto.
Qed.

Lemma lineItems_rowValues l : lineItemsOf (map rowValue l) = map lineOf l.
Proof.
  induction l as [|r rest IH]; [reflexivity|].
  cbn [map lineItemsOf]. unfold lineOf at 1.
  rewrite prop_fulfilledQuantity, prop_variantId.
  cbn [toNumber]. f_equal. exact IH.
Qed.

Section CreateFacts.

Variable JSON_parse : string -> option value.
Variable encodeURIComponent : string -> string.

Lemma getShopNumericId_trace env : snd (getShopNumericId env) = [ShopQuery].
Proof. reflexivity. Qed.

Lemma contextOf_trace rev env customerGid :
  snd (contextOf rev env customerGid) ++ [ShopQuery] = lookupsBefore rev customerGid.
Proof.
  unfold lookupsBefore, contextOf, getB2BContext. destruct rev; [reflexivity|].
  destruct (JsString.nonEmpty customerGid); reflexivity.
Qed.

(** The "create" intent is the two lookups followed by [confirmRows]. *)
Lemma createIntent_run rev env form :
  exists context shopNumericId,
    createIntent JSON_parse encodeURIComponent rev env form
    = (fst (confirmRows encodeURIComponent rev env (createName form)
              (createCustomerId form) context shopNumericId
              (previewRowsOf JSON_parse form)),
       lookupsBefore rev (createCustomerId form)
       ++ snd (confirmRows encodeURIComponent rev env (createName form)
                 (createCustomerId form) context shopNumericId
                 (previewRowsOf JSON_parse form))).
Proof.
  exists (fst (contextOf rev env (createCustomerId form))),
         (fst (getShopNumericId env)).
  rewrite <- (contextOf_trace rev env).
  unfold createIntent, bind. fold (createName form). fold (createCustomerId form).
  destruct (contextOf rev env (createCustomerId form)) as [context t1].
  destruct (getShopNumericId env) as [shopNumericId t2] eqn:Eshop.
  assert (t2 = [ShopQuery]) as ->
    by (now rewrite <- (getShopNumericId_trace env), Eshop).
  cbn [fst snd].
  destruct (confirmRows _ _ _ _ _ _ _ _) as [c t3].
  cbn [fst snd]. now rewrite <- app_assoc.
Qed.

Lemma lookupsBefore_orders rev customerGid :
  orderRequests (lookupsBefore rev customerGid) = []
  /\ historyWrites (lookupsBefore rev customerGid) = [].
Proof.
  unfold lookupsBefore. destruct rev; [now split|].
  destruct (JsString.nonEmpty customerGid); now split.
Qed.

(** What [confirmRows] does, by the rows it may include and the reply of
    the order service. *)
Lemma confirmRows_cases rev env customerName customerIdRaw context shopNumericId previewRows :
  let run := confirmRows encodeURIComponent rev env customerName customerIdRaw
               context shopNumericId previewRows in
  (includedRowsOf previewRows = None /\ run = (Throw, []))
  \/ (includedRowsOf previewRows = Some []
      /\ run = (Return (ErrorResult msgNothingToOrder customerName customerIdRaw
                          previewRows), []))
  \/ (exists includedRows body,
        includedRowsOf previewRows = Some includedRows
        /\ includedRows <> []
        /\ body = orderBody customerName customerIdRaw (numericPart customerIdRaw)
                    context shopNumericId includedRows
        /\ ((exists message,
               draftOrderOf rev (draftOrderCreate env body) = inl message
               /\ run = (Return (ErrorResult
                                   (String.append msgOrderFailed
                                      (orText (Some message) msgCheckData))
                                   customerName customerIdRaw previewRows),
                         [DraftOrderCreate body]))
            \/ (exists draftOrder,
                  draftOrderOf rev (draftOrderCreate env body) = inr draftOrder
                  /\ truthy draftOrder = false
                  /\ run = (Return (ErrorResult
                                      (String.append msgOrderFailed msgCheckData)
                                      customerName customerIdRaw previewRows),
                            [DraftOrderCreate body]))
            \/ (exists draftOrder,
                  draftOrderOf rev (draftOrderCreate env body) = inr draftOrder
                  /\ truthy draftOrder = true
                  /\ run = (Return (Redirect
                                      (String.append "/app?createdOrderName="
                                         (encodeURIComponent (orderLabel draftOrder)))),
                            [DraftOrderCreate body;
                             HistoryCreate
                               (historyData customerName (numericPart customerIdRaw)
                                  shopNumericId draftOrder (totalQuantity body))])))).
Proof.
  intros run. subst run. unfold confirmRows.
  destruct (includedRowsOf previewRows) as [[|row rest]|] eqn:Hinc.
  - right; left. now split.
  - right; right. eexists (row :: rest), _.
    split; [reflexivity|]. split; [discriminate|]. split; [reflexivity|].
    unfold bind, emit, ret.
    destruct (draftOrderOf rev _) as [message|draftOrder] eqn:Hd.
    + left. exists message. now split.
    + destruct (truthy draftOrder) eqn:Ht; cbn [negb].
      * right; right. exists draftOrder. now repeat split.
      * right; left. exists draftOrder. now repeat split.
  - left. now split.
Qed.

End CreateFacts.

Lemma includableRow_spec r :
  includableRow r = true
  <-> exist r = true
      /\ (exists s, variantId r = Some s /\ s <> EmptyString)
      /\ gt (fulfilledQuantity r) zero = true.
Proof.
  unfold includableRow. rewrite !andb_true_iff.
  split.
  - intros [[He Hv] Hq]. repeat split; auto.
    destruct (variantId r) as [s|]; [|discriminate].
    exists s. split; [reflexivity|]. now destruct s.
  - intros (He & (s & -> & Hs) & Hq). repeat split; auto.
    destruct s; [contradiction|reflexivity].
Qed.

Lemma orderRequests_app a b :
  orderRequests (a ++ b) = orderRequests a ++ orderRequests b.
Proof. apply flat_map_app. Qed.

Lemma historyWrites_app a b :
  historyWrites (a ++ b) = historyWrites a ++ historyWrites b.
Proof. apply flat_map_app. Qed.

Lemma includedRows_rowValues rows :
  includedRowsOf (Arr (map rowValue rows))
  = Some (map rowValue (filter includableRow rows)).
Proof. apply filterRows_rowValues. Qed.

(** C2. In the "create" step, for a preview that parses to a sequence of
    rows: a row goes on the order iff exist is true, variantId is neither
    null nor empty, and fulfilledQuantity > 0; when there is such a row, one
    request is sent whose lineItems are exactly the (variantId,
    fulfilledQuantity) of those rows, in order, and whose totalQuantity is
    the sum of their fulfilledQuantity; when there is none, no request is
    sent. *)
Theorem order_built_from_includable_rows :
  forall JSON_parse encodeURIComponent rev env form rows,
    previewRowsOf JSON_parse form = Arr (map rowValue rows) ->
    let included := filter includableRow rows in
    let run := createIntent JSON_parse encodeURIComponent rev env form in
    (forall r,
       In r included
       <-> In r rows
           /\ exist r = true
           /\ (exists s, variantId r = Some s /\ s <> EmptyString)
           /\ gt (fulfilledQuantity r) zero = true)
    /\ (included = [] -> orderRequests (snd run) = [])
    /\ (included <> [] ->
        exists body,
          orderRequests (snd run) = [body]
          /\ lineItems body = map lineOf included
          /\ totalQuantity body = sumOf (map fulfilledQuantity included)).
Proof.
  intros JSON_parse enc rev env form rows Hrows included run.
  split.
  { intros r. subst included. rewrite filter_In, includableRow_spec. tauto. }
  destruct (createIntent_run JSON_parse enc rev env form)
    as (context & shopNumericId & Hrun).
  subst run. rewrite Hrun. cbn [snd].
  rewrite Hrows in *. rewrite orderRequests_app.
  destruct (lookupsBefore_orders rev (createCustomerId form)) as [-> _].
  cbn [app].
  pose proof (confirmRows_cases enc rev env (createName form)
                (createCustomerId form) context shopNumericId
                (Arr (map rowValue rows))) as Hcases.
  cbv zeta in Hcases. rewrite includedRows_rowValues in Hcases.
  fold included in Hcases.
  destruct Hcases as [[Habs _]|[[Hnone ->]|Hsome]].
  - discriminate.
  - cbn [snd]. split; [reflexivity|].
    intros Hne. exfalso. apply Hne.
    inversion Hnone as [H0]. now destruct included.
  - destruct Hsome as (includedRows & body & Hinc & Hne & Hbody & Hrest).
    inversion Hinc; subst includedRows. clear Hinc.
    assert (Hreq : orderRequests
                     (snd (confirmRows enc rev env (createName form)
                             (createCustomerId form) context shopNumericId
                             (Arr (map rowValue rows)))) = [body]).
    { destruct Hrest as [(m & _ & ->)|[(d & _ & _ & ->)|(d & _ & _ & ->)]];
        reflexivity. }
    rewrite Hreq. split.
    + intros Hempty. rewrite Hempty in Hne. now contradiction Hne.
    + intros _. exists body. split; [reflexivity|].
      rewrite Hbody. cbn [lineItems totalQuantity orderBody]. split.
      * apply lineItems_rowValues.
      * unfold totalQuantityOf, sumOf.
        apply totalQuantity_rowValues, filter_includable.
Qed.

Lemma order_built_from_includable_rows_witness :
  previewRowsOf sampleParse (sampleForm (Text "rows"))
  = Arr (map rowValue samplePreview)
  /\ exists body,
       orderRequests
         (snd (createIntent sampleParse (fun s => s) Rev2 creatingServices
                 (sampleForm (Text "rows")))) = [body]
       /\ lineItems body = [ {| itemQuantity := ofZ 3; itemVariantId := Str "v1" |} ]
       /\ totalQuantity body = ofZ 3.
Proof.
  assert (H : previewRowsOf sampleParse (sampleForm (Text "rows"))
              = Arr (map rowValue samplePreview)) by reflexivity.
  split; [exact H|].
  destruct (order_built_from_includable_rows sampleParse (fun s => s) Rev2
              creatingServices (sampleForm (Text "rows")) samplePreview H)
    as (_ & _ & Hsome).
  apply Hsome. discriminate.
Defined.

(** C6, as stated, fails: a confirm without an includable row is answered
    with the nothing-to-order error only after the shop query has gone to
    the Admin API (Rev1), and after the B2B query too (Rev2). *)
Lemma lookups_precede_nothing_to_order :
  createIntent sampleParse (fun s => s) Rev1 creatingServices (sampleForm (Text "[]"))
  = (Return (ErrorResult msgNothingToOrder "Acme" "gid://shopify/Customer/42" (Arr [])),
     [ShopQuery])
  /\ createIntent sampleParse (fun s => s) Rev2 creatingServices (sampleForm (Text "[]"))
     = (Return (ErrorResult msgNothingToOrder "Acme" "gid://shopify/Customer/42" (Arr [])),
        [B2BQuery "gid://shopify/Customer/42"; ShopQuery]).
Proof. split; reflexivity. Qed.

(** A confirm whose preview holds row objects of which none is includable. *)
Lemma confirm_without_includable_rows JSON_parse encodeURIComponent rev env form rows :
  previewRowsOf JSON_parse form = Arr (map rowValue rows) ->
  filter includableRow rows = [] ->
  createIntent JSON_parse encodeURIComponent rev env form
  = (Return (ErrorResult msgNothingToOrder (createName form)
               (createCustomerId form) (Arr (map rowValue rows))),
     lookupsBefore rev (createCustomerId form)).
Proof.
  intros Hrows Hnone.
  destruct (createIntent_run JSON_parse encodeURIComponent rev env form)
    as (context & shopNumericId & Hrun).
  rewrite Hrun, Hrows.
  pose proof (confirmRows_cases encodeURIComponent rev env (createName form)
                (createCustomerId form) context shopNumericId
                (Arr (map rowValue rows))) as Hcases.
  cbv zeta in Hcases. rewrite includedRows_rowValues, Hnone in Hcases.
  destruct Hcases as [[Habs _]|[[_ ->]|(l & b & Hinc & Hne & _)]].
  - discriminate.
  - cbn [fst snd]. now rewrite app_nil_r.
  - inversion Hinc; subst. now contradiction Hne.
Qed.

(** C6, amended. A confirm whose preview parses to rows none of which is
    includable returns the nothing-to-order error, carrying the preview;
    no call to the order-creation service and no history write is made.
    The calls made before the check are the lookups of the shop id and, in
    Rev2 for a non-empty customer id, of the B2B context, and nothing else. *)
Theorem nothing_to_order_before_order_call :
  forall JSON_parse encodeURIComponent rev env form rows,
    previewRowsOf JSON_parse form = Arr (map rowValue rows) ->
    filter includableRow rows = [] ->
    let run := createIntent JSON_parse encodeURIComponent rev env form in
    fst run = Return (ErrorResult msgNothingToOrder (createName form)
                        (createCustomerId form) (Arr (map rowValue rows)))
    /\ orderRequests (snd run) = []
    /\ historyWrites (snd run) = []
    /\ snd run = lookupsBefore rev (createCustomerId form).
Proof.
  intros JSON_parse enc rev env form rows Hrows Hnone run. subst run.
  rewrite (confirm_without_includable_rows _ enc rev env _ _ Hrows Hnone).
  cbn [fst snd].
  destruct (lookupsBefore_orders rev (createCustomerId form)) as [-> ->].
  now repeat split.
Qed.

Lemma nothing_to_order_before_order_call_witness :
  previewRowsOf sampleParse (sampleForm (Text "unavailable"))
  = Arr (map rowValue (tl samplePreview))
  /\ filter includableRow (tl samplePreview) = []
  /\ orderRequests
       (snd (createIntent sampleParse (fun s => s) Rev2 creatingServices
               (sampleForm (Text "unavailable")))) = []
  /\ historyWrites
       (snd (createIntent sampleParse (fun s => s) Rev2 creatingServices
               (sampleForm (Text "unavailable")))) = [].
Proof.
  assert (H : previewRowsOf sampleParse (sampleForm (Text "unavailable"))
              = Arr (map rowValue (tl samplePreview))) by reflexivity.
  assert (Hnone : filter includableRow (tl samplePreview) = []) by reflexivity.
  split; [exact H|]. split; [exact Hnone|].
  destruct (nothing_to_order_before_order_call sampleParse (fun s => s) Rev2
              creatingServices (sampleForm (Text "unavailable"))
              (tl samplePreview) H Hnone)
    as (_ & Hno & Hhist & _).
  split; [exact Hno|exact Hhist].
Defined.

(** A request found in the trace of a confirm was built by [confirmRows]
    from a non-empty selection, and the run then went one of three ways. *)
Lemma order_call_inversion JSON_parse encodeURIComponent rev env form body :
  In (DraftOrderCreate body)
     (snd (createIntent JSON_parse encodeURIComponent rev env form)) ->
  exists shopNumericId : option string,
    let customerNumericId := numericPart (createCustomerId form) in
    let failed (detail : string) :=
      (Return (ErrorResult (String.append msgOrderFailed detail)
                 (createName form) (createCustomerId form)
                 (previewRowsOf JSON_parse form)),
       lookupsBefore rev (createCustomerId form) ++ [DraftOrderCreate body]) in
    (exists message,
       draftOrderOf rev (draftOrderCreate env body) = inl message
       /\ createIntent JSON_parse encodeURIComponent rev env form
          = failed (orText (Some message) msgCheckData))
    \/ (exists draftOrder,
          draftOrderOf rev (draftOrderCreate env body) = inr draftOrder
          /\ truthy draftOrder = false
          /\ createIntent JSON_parse encodeURIComponent rev env form
             = failed msgCheckData)
    \/ (exists draftOrder,
          draftOrderOf rev (draftOrderCreate env body) = inr draftOrder
          /\ truthy draftOrder = true
          /\ createIntent JSON_parse encodeURIComponent rev env form
             = (Return (Redirect
                          (String.append "/app?createdOrderName="
                             (encodeURIComponent (orderLabel draftOrder)))),
                lookupsBefore rev (createCustomerId form)
                ++ [DraftOrderCreate body;
                    HistoryCreate
                      (historyData (createName form) customerNumericId
                         shopNumericId draftOrder (totalQuantity body))])).
Proof.
  intros Hin.
  destruct (createIntent_run JSON_parse encodeURIComponent rev env form)
    as (context & shopNumericId & Hrun).
  exists shopNumericId. cbv zeta.
  rewrite Hrun in *. cbn [snd] in Hin.
  apply in_app_or in Hin as [Hin|Hin].
  { exfalso. unfold lookupsBefore in Hin.
    destruct rev; [|destruct (JsString.nonEmpty _)];
      simpl in Hin; intuition discriminate. }
  pose proof (confirmRows_cases encodeURIComponent rev env (createName form)
                (createCustomerId form) context shopNumericId
                (previewRowsOf JSON_parse form)) as Hcases.
  cbv zeta in Hcases.
  destruct Hcases as [[_ E]|[[_ E]|(l & b & _ & _ & Hb & Hrest)]].
  - rewrite E in Hin. contradiction.
  - rewrite E in Hin. contradiction.
  - assert (b = body) as Heq.
    { destruct Hrest as [(m & _ & E)|[(d & _ & _ & E)|(d & _ & _ & E)]];
        rewrite E in Hin; simpl in Hin; intuition congruence. }
    rewrite Heq in *. clear Heq Hb.
    destruct Hrest as [(m & Hd & E)|[(d & Hd & Ht & E)|(d & Hd & Ht & E)]];
      rewrite E; cbn [fst snd].
    + left. exists m. now split.
    + right; left. exists d. now repeat split.
    + right; right. exists d. now repeat split.
Qed.

Lemma draftOrderOf_success rev reply draftOrder :
  orderSucceeded reply draftOrder ->
  draftOrderOf rev reply = inr draftOrder /\ truthy draftOrder = true.
Proof.
  intros (ocJson & -> & H1 & H2 & H3 & H4). unfold draftOrderOf.
  rewrite H1, H2, H3, H4. now split.
Qed.

Lemma draftOrderOf_failure rev reply :
  orderFailed reply ->
  exists message, draftOrderOf rev reply = inl message.
Proof.
  destruct reply as [m|st txt|m|ocJson]; simpl; intros H.
  - now exists m.
  - eexists. reflexivity.
  - destruct rev; eexists; reflexivity.
  - assert (negb (truthy ocJson) || negb (truthy (prop ocJson "success"))
            || negb (truthy (prop ocJson "draftOrder")) = true) as ->.
    { destruct H as [ -> | [ -> | -> ] ]; simpl;
        rewrite ?orb_true_r; reflexivity. }
    eexists. reflexivity.
Qed.

(** C7. When the order-creation call of a confirm succeeds, exactly one
    write to the history store is attempted, and the confirm returns the
    redirect that carries the created order's label; the outcome of the
    write (the theorem holds for every [historyCreate], also one that always
    throws) does not enter the result. *)
Theorem history_write_failure_swallowed :
  forall JSON_parse encodeURIComponent rev env form body draftOrder,
    let run := createIntent JSON_parse encodeURIComponent rev env form in
    In (DraftOrderCreate body) (snd run) ->
    orderSucceeded (draftOrderCreate env body) draftOrder ->
    List.length (historyWrites (snd run)) = 1%nat
    /\ fst run
       = Return (Redirect (String.append "/app?createdOrderName="
                             (encodeURIComponent (orderLabel draftOrder)))).
Proof.
  intros JSON_parse enc rev env form body draftOrder run Hin Hok.
  subst run.
  destruct (draftOrderOf_success rev _ _ Hok) as [Hd Ht].
  destruct (order_call_inversion _ _ _ _ _ _ Hin) as (shopId & Hcases).
  cbv zeta in Hcases.
  destruct Hcases as [(m & Hd' & _)|[(d & Hd' & Ht' & _)|(d & Hd' & _ & E)]];
    rewrite Hd in Hd'; try discriminate.
  - inversion Hd'; subst d. congruence.
  - inversion Hd'; subst d. rewrite E. cbn [fst snd].
    rewrite historyWrites_app.
    destruct (lookupsBefore_orders rev (createCustomerId form)) as [_ ->].
    now split.
Qed.

Lemma history_write_failure_swallowed_witness :
  let run := createIntent sampleParse (fun s => s) Rev2 creatingServices
               (sampleForm (Text "rows")) in
  (exists body,
     In (DraftOrderCreate body) (snd run)
     /\ orderSucceeded (draftOrderCreate creatingServices body) sampleDraftOrder
     /\ historyCreate creatingServices
          (historyData "Acme" "42" (Some "77"%string) sampleDraftOrder
             (totalQuantity body)) = false)
  /\ List.length (historyWrites (snd run)) = 1%nat
  /\ fst run = Return (Redirect "/app?createdOrderName=#24").
Proof.
  cbv zeta.
  set (body := orderBody "Acme" "gid://shopify/Customer/42" "42"
                 (Some noContext) (Some "77"%string)
                 (map rowValue (filter includableRow samplePreview))).
  assert (Hin : In (DraftOrderCreate body)
                  (snd (createIntent sampleParse (fun s => s) Rev2 creatingServices
                          (sampleForm (Text "rows")))))
    by (right; right; left; reflexivity).
  assert (Hok : orderSucceeded (draftOrderCreate creatingServices body)
                  sampleDraftOrder).
  { eexists. split; [reflexivity|]. repeat split. }
  split.
  - exists body. split; [exact Hin|]. split; [exact Hok|reflexivity].
  - exact (history_write_failure_swallowed sampleParse (fun s => s) Rev2
             creatingServices (sampleForm (Text "rows")) body sampleDraftOrder
             Hin Hok).
Defined.

(** C8. When the order-creation call of a confirm fails (the fetch throws,
    the response is not 2xx, its body is not JSON, or the body lacks a truthy
    success flag or draft order), the confirm returns the external-service
    error carrying the preview rows exactly as they were read from the form,
    and no history record is written. *)
Theorem failed_order_returns_rows :
  forall JSON_parse encodeURIComponent rev env form body,
    let run := createIntent JSON_parse encodeURIComponent rev env form in
    In (DraftOrderCreate body) (snd run) ->
    orderFailed (draftOrderCreate env body) ->
    (exists detail,
       fst run = Return (ErrorResult (String.append msgOrderFailed detail)
                           (createName form) (createCustomerId form)
                           (previewRowsOf JSON_parse form)))
    /\ historyWrites (snd run) = []
    /\ orderRequests (snd run) = [body].
Proof.
  intros JSON_parse enc rev env form body run Hin Hfail. subst run.
  destruct (draftOrderOf_failure rev _ Hfail) as (message & Hd).
  destruct (order_call_inversion _ _ _ _ _ _ Hin) as (shopId & Hcases).
  cbv zeta in Hcases.
  destruct Hcases as [(m & _ & E)|[(d & Hd' & _)|(d & Hd' & _)]];
    try (rewrite Hd in Hd'; discriminate).
  rewrite E. cbn [fst snd].
  rewrite historyWrites_app, orderRequests_app.
  destruct (lookupsBefore_orders rev (createCustomerId form)) as [-> ->].
  split; [eexists; reflexivity|now split].
Qed.

Lemma failed_order_returns_rows_witness :
  let env := {| shop := ShopThrows;
                b2b := fun _ => B2BThrows;
                catalog := fun _ _ => CatalogThrows;
                draftOrderCreate := fun _ => HttpError 502 "Bad Gateway";
                historyCreate := fun _ => true |} in
  let run := createIntent sampleParse (fun s => s) Rev1 env
               (sampleForm (Text "rows")) in
  (exists body,
     In (DraftOrderCreate body) (snd run)
     /\ orderFailed (draftOrderCreate env body))
  /\ fst run
     = Return (ErrorResult
                 "Failed to create draft order via external service. OC HTTP error 502 Bad Gateway"
                 "Acme" "gid://shopify/Customer/42"
                 (Arr (map rowValue samplePreview)))
  /\ historyWrites (snd run) = [].
Proof.
  cbv zeta.
  set (env := {| shop := ShopThrows;
                 b2b := fun _ => B2BThrows;
                 catalog := fun _ _ => CatalogThrows;
                 draftOrderCreate := fun _ => HttpError 502 "Bad Gateway";
                 historyCreate := fun _ => true |}).
  set (body := orderBody "Acme" "gid://shopify/Customer/42" "42" None None
                 (map rowValue (filter includableRow samplePreview))).
  assert (Hin : In (DraftOrderCreate body)
                  (snd (createIntent sampleParse (fun s => s) Rev1 env
                          (sampleForm (Text "rows")))))
    by (right; left; reflexivity).
  assert (Hfail : orderFailed (draftOrderCreate env body)) by exact I.
  split; [exists body; split; [exact Hin|exact Hfail]|].
  destruct (failed_order_returns_rows sampleParse (fun s => s) Rev1 env
              (sampleForm (Text "rows")) body Hin Hfail) as (_ & Hhist & _).
  split; [reflexivity|exact Hhist].
Defined.

(** C10. A confirm whose previewJson is absent, empty, or not valid JSON
    does not throw: the preview is taken to be the empty sequence and the
    confirm returns the nothing-to-order error; the order-creation service
    is not called and no history record is written. *)
Theorem unreadable_preview_is_nothing_to_order :
  forall JSON_parse encodeURIComponent rev env form,
    (previewJson form = NoEntry
     \/ previewJson form = Text EmptyString
     \/ exists s, previewJson form = Text s /\ JSON_parse s = None) ->
    let run := createIntent JSON_parse encodeURIComponent rev env form in
    previewRowsOf JSON_parse form = Arr []
    /\ fst run = Return (ErrorResult msgNothingToOrder (createName form)
                           (createCustomerId form) (Arr []))
    /\ orderRequests (snd run) = []
    /\ historyWrites (snd run) = [].
Proof.
  intros JSON_parse enc rev env form Hjson run.
  assert (Hrows : previewRowsOf JSON_parse form = Arr (map rowValue [])).
  { unfold previewRowsOf.
    destruct Hjson as [ -> | [ -> | (s & -> & Hs) ] ]; try reflexivity.
    rewrite Hs. now destruct (Nat.ltb 0 (String.length s)). }
  subst run.
  rewrite (confirm_without_includable_rows _ enc rev env _ [] Hrows eq_refl).
  cbn [fst snd].
  destruct (lookupsBefore_orders rev (createCustomerId form)) as [-> ->].
  now repeat split.
Qed.

Lemma unreadable_preview_is_nothing_to_order_witness :
  sampleParse "{not json" = None
  /\ fst (createIntent sampleParse (fun s => s) Rev2 creatingServices
            (sampleForm (Text "{not json")))
     = Return (ErrorResult msgNothingToOrder "Acme" "gid://shopify/Customer/42"
                 (Arr []))
  /\ orderRequests
       (snd (createIntent sampleParse (fun s => s) Rev2 creatingServices
               (sampleForm (Text "{not json")))) = [].
Proof.
  assert (Hs : sampleParse "{not json" = None) by reflexivity.
  split; [exact Hs|].
  destruct (unreadable_preview_is_nothing_to_order sampleParse (fun s => s) Rev2
              creatingServices (sampleForm (Text "{not json")))
    as (_ & Hres & Hord & _).
  - right; right. exists "{not json"%string. split; [reflexivity|exact Hs].
  - split; [exact Hres|exact Hord].
Defined.

(* ================================================================== *)
(** ** The "process" intent, end to end *)

(** X3. With a customer and a readable sheet that parses to rows, the action
    returns a preview whose rows are the parsed rows reconciled one by one,
    and its calls are exactly one variant lookup per parsed row, in row
    order, whatever the lookups reply. *)
Lemma process_returns_preview rev env form rows parsedRows :
  JsString.nonEmpty (JsString.trim (orText (formCustomerName form) "")) = true ->
  JsString.nonEmpty (JsString.trim (orText (formCustomerId form) "")) = true ->
  file form = Upload (Some rows) ->
  Parser.parse rows = Parser.Parsed parsedRows ->
  processIntent rev env form
  = (Return (PreviewResult (JsString.trim (orText (formCustomerName form) ""))
               (JsString.trim (orText (formCustomerId form) ""))
               (reconciled rev env O parsedRows)),
     map (fun row => VariantQuery (sku row)) parsedRows).
Proof.
  intros Hname Hid Hfile Hparse. unfold processIntent.
  rewrite Hname, Hid, Hfile, Hparse. cbn [negb orb]. unfold bind, ret.
  pose proof (enrichLoop_rows rev env parsedRows O []) as Hrows.
  pose proof (enrichLoop_trace rev env parsedRows O []) as Htrace.
  destruct (Reconciler.enrichLoop rev env O parsedRows []) as [out t].
  cbn [fst snd] in *. subst. now rewrite app_nil_r.
Qed.

(** A preview that is valid JSON but not an array (or an array with a null
    element) makes the "create" branch throw: only arrays have [filter], and
    reading [exist] of null throws. *)
Lemma non_array_preview_throws JSON_parse encodeURIComponent rev env form s v :
  previewJson form = Text s ->
  Nat.ltb 0 (String.length s) = true ->
  JSON_parse s = Some v ->
  includedRowsOf v = None ->
  fst (createIntent JSON_parse encodeURIComponent rev env form) = Throw.
Proof.
  intros Hs Hlen Hparse Hnone.
  destruct (createIntent_run JSON_parse encodeURIComponent rev env form)
    as (context & shopNumericId & ->).
  cbn [fst]. unfold confirmRows, previewRowsOf.
  rewrite Hs, Hlen, Hparse, Hnone. reflexivity.
Qed.

(* ================================================================== *)
(** ** Further properties of the "process" intent *)

Lemma lookups_reach_no_order (rows : list Row) :
  let t := map (fun row => VariantQuery (sku row)) rows in
  orderRequests t = [] /\ historyWrites t = []
  /\ ~ In ShopQuery t /\ (forall gid, ~ In (B2BQuery gid) t).
Proof.
  cbv zeta. induction rows as [|r rest (H1 & H2 & H3 & H4)]; simpl.
  - repeat split; auto.
  - repeat split; auto.
    + intros [H|H]; [discriminate|auto].
    + intros gid [H|H]; [discriminate|exact (H4 gid H)].
Qed.

(** What the "process" intent can do: fail without a call, or return a
    preview after one lookup per parsed row. *)
Lemma processIntent_cases rev env form :
  (exists e,
     processIntent rev env form
     = (Return (ErrorResult e (JsString.trim (orText (formCustomerName form) ""))
                  (JsString.trim (orText (formCustomerId form) "")) (Arr [])), []))
  \/ (exists rows parsedRows,
        file form = Upload (Some rows)
        /\ Parser.parse rows = Parser.Parsed parsedRows
        /\ processIntent rev env form
           = (Return (PreviewResult
                        (JsString.trim (orText (formCustomerName form) ""))
                        (JsString.trim (orText (formCustomerId form) ""))
                        (reconciled rev env O parsedRows)),
              map (fun row => VariantQuery (sku row)) parsedRows)).
Proof.
  unfold processIntent.
  destruct (negb (JsString.nonEmpty (JsString.trim (orText (formCustomerName form) "")))
            || negb (JsString.nonEmpty (JsString.trim (orText (formCustomerId form) ""))))
    eqn:Hmissing; cbn [orb].
  { left. eexists. reflexivity. }
  destruct (file form) as [| |[rows|]] eqn:Hfile; cbn [orb];
    try (left; eexists; reflexivity).
  destruct (Parser.parse rows) as [| | |parsedRows] eqn:Hparse;
    try (left; eexists; reflexivity).
  right. exists rows, parsedRows. split; [reflexivity|]. split; [exact Hparse|].
  unfold bind, ret.
  pose proof (enrichLoop_rows rev env parsedRows O []) as Hrows.
  pose proof (enrichLoop_trace rev env parsedRows O []) as Htrace.
  destruct (Reconciler.enrichLoop rev env O parsedRows []) as [out t].
  cbn [fst snd] in *. subst. now rewrite app_nil_r.
Qed.

(** X1. Whenever the "process" intent answers with an error (customer or
    file missing, unreadable or empty file, missing columns, no valid row), it
    has made no outside call at all, and the error carries the trimmed
    customer name and id and an empty preview. *)
Theorem process_error_without_calls :
  forall rev env form e customerName customerId previewRows,
    fst (processIntent rev env form)
    = Return (ErrorResult e customerName customerId previewRows) ->
    snd (processIntent rev env form) = []
    /\ previewRows = Arr []
    /\ customerName = JsString.trim (orText (formCustomerName form) "")
    /\ customerId = JsString.trim (orText (formCustomerId form) "").
Proof.
  intros rev env form e cn cid pv H.
  destruct (processIntent_cases rev env form) as [(e' & E)|(rows & parsed & _ & _ & E)];
    rewrite E in *; cbn [fst snd] in *.
  - inversion H; subst. now repeat split.
  - discriminate.
Qed.

Lemma process_error_without_calls_witness :
  fst (processIntent Rev2 sampleServices (uploadForm (Some [[Str "name"; Str "qty"]])))
  = Return (ErrorResult msgColumns "Acme" "gid://shopify/Customer/42" (Arr []))
  /\ snd (processIntent Rev2 sampleServices (uploadForm (Some [[Str "name"; Str "qty"]])))
     = [].
Proof.
  assert (H : fst (processIntent Rev2 sampleServices
                     (uploadForm (Some [[Str "name"; Str "qty"]])))
              = Return (ErrorResult msgColumns "Acme" "gid://shopify/Customer/42"
                          (Arr []))) by reflexivity.
  split; [exact H|].
  exact (proj1 (process_error_without_calls Rev2 sampleServices _ _ _ _ _ H)).
Defined.

(** X2. Only the "create" intent reaches the order-creation service, the
    history store, the shop query or the B2B query: for any other intent the
    action makes none of these calls. *)
Theorem only_create_reaches_order_service :
  forall JSON_parse encodeURIComponent rev env form,
    intent form <> Some "create"%string ->
    let t := snd (action JSON_parse encodeURIComponent rev env form) in
    orderRequests t = [] /\ historyWrites t = []
    /\ ~ In ShopQuery t /\ (forall gid, ~ In (B2BQuery gid) t).
Proof.
  intros JSON_parse enc rev env form Hintent t. subst t. unfold action.
  destruct (intent form) as [i|]; [|simpl; repeat split; auto].
  destruct (String.eqb i "process") eqn:Hp.
  - destruct (processIntent_cases rev env form)
      as [(e & ->)|(rows & parsed & _ & _ & ->)]; cbn [snd].
    + simpl; repeat split; auto.
    + apply lookups_reach_no_order.
  - destruct (String.eqb_spec i "create") as [->|_].
    + now contradiction Hintent.
    + simpl; repeat split; auto.
Qed.

Lemma only_create_reaches_order_service_witness :
  intent (uploadForm (Some exampleGrid)) <> Some "create"%string
  /\ orderRequests
       (snd (action sampleParse (fun s => s) Rev2 creatingServices
               (uploadForm (Some exampleGrid)))) = []
  /\ List.length
       (snd (action sampleParse (fun s => s) Rev2 creatingServices
               (uploadForm (Some exampleGrid)))) = 2%nat.
Proof.
  assert (H : intent (uploadForm (Some exampleGrid)) <> Some "create"%string)
    by discriminate.
  split; [exact H|]. split; [|reflexivity].
  exact (proj1 (only_create_reaches_order_service sampleParse (fun s => s) Rev2
                  creatingServices (uploadForm (Some exampleGrid)) H)).
Defined.

Lemma process_returns_preview_witness :
  processIntent Rev2 sampleServices (uploadForm (Some exampleGrid))
  = (Return (PreviewResult "Acme" "gid://shopify/Customer/42"
               (reconciled Rev2 sampleServices O
                  [Parser.parsedRow "ABC123" (ofZ 5); Parser.parsedRow "GHI111" (ofZ 2)])),
     [VariantQuery "ABC123"; VariantQuery "GHI111"]).
Proof.
  exact (process_returns_preview Rev2 sampleServices (uploadForm (Some exampleGrid))
           exampleGrid _ eq_refl eq_refl eq_refl parse_example).
Defined.

(* ================================================================== *)
(** ** Further properties of the parser *)

Lemma trimStart_head s : headIsText (JsString.trimStart s).
Proof.
  induction s as [|c r IH]; simpl; [exact I|].
  destruct (JsString.isWhiteSpace c) eqn:E; [exact IH|exact E].
Qed.

Lemma trimStart_fixed s : headIsText s -> JsString.trimStart s = s.
Proof. destruct s as [|c r]; simpl; [reflexivity|]. now intros ->. Qed.

Lemma trimEnd_idempotent s :
  JsString.trimEnd (JsString.trimEnd s) = JsString.trimEnd s.
Proof.
  induction s as [|c r IH]; [reflexivity|].
  cbn [JsString.trimEnd].
  destruct (JsString.trimEnd r) as [|c' r'] eqn:E.
  - destruct (JsString.isWhiteSpace c) eqn:Hc; [reflexivity|].
    cbn [JsString.trimEnd]. now rewrite Hc.
  - cbn [JsString.trimEnd]. cbn [JsString.trimEnd] in IH.
    destruct (JsString.trimEnd r') as [|c'' r''] eqn:E'.
    + destruct (JsString.isWhiteSpace c'); [discriminate|].
      now inversion IH.
    + now inversion IH.
Qed.

Lemma trimEnd_head s : headIsText s -> headIsText (JsString.trimEnd s).
Proof.
  destruct s as [|c r]; [trivial|]. cbn [JsString.trimEnd headIsText].
  intros Hc. destruct (JsString.trimEnd r); [now rewrite Hc|exact Hc].
Qed.

Lemma trim_idempotent s : JsString.trim (JsString.trim s) = JsString.trim s.
Proof.
  unfold JsString.trim.
  rewrite (trimStart_fixed (JsString.trimEnd (JsString.trimStart s))).
  - apply trimEnd_idempotent.
  - apply trimEnd_head, trimStart_head.
Qed.

Lemma parseLoop_wellformed skuIndex qtyIndex dataRows : forall parsedRows,
  Forall wellFormedParsedRow parsedRows ->
  Forall wellFormedParsedRow (Parser.parseLoop skuIndex qtyIndex dataRows parsedRows)
  /\ (List.length (Parser.parseLoop skuIndex qtyIndex dataRows parsedRows)
      <= List.length parsedRows + List.length dataRows)%nat.
Proof.
  induction dataRows as [|row rest IH]; intros acc Hacc.
  - simpl. split; [assumption|lia].
  - cbn [Parser.parseLoop List.length].
    destruct (JsString.nonEmpty (Parser.skuOf _)) eqn:Hsku; cbn [negb].
    2:{ destruct (IH acc Hacc) as [H1 H2]. split; [exact H1|lia]. }
    destruct (isFinite _) eqn:Hfin; cbn [negb orb].
    2:{ destruct (IH acc Hacc) as [H1 H2]. split; [exact H1|lia]. }
    destruct (le _ zero) eqn:Hle.
    { destruct (IH acc Hacc) as [H1 H2]. split; [exact H1|lia]. }
    match goal with |- context [Parser.parseLoop _ _ rest ?a] =>
      destruct (IH a) as [H1 H2] end.
    + apply Forall_app. split; [assumption|]. constructor; [|constructor].
      unfold wellFormedParsedRow, Parser.parsedRow;
        cbn [sku quantityRequested status exist variantId fulfilledQuantity
             availableQuantity].
      repeat split; auto.
      * apply trim_idempotent.
      * apply not_le_lt; auto.
    + split; [exact H1|]. rewrite length_app in H2. simpl in H2. lia.
Qed.

(** X4. Every row the parser emits has a non-empty sku without surrounding
    white space and a finite quantity above 0, and is still unresolved
    (status pending, exist false, no variant, nothing fulfilled); a parse
    never succeeds with zero rows, nor with more rows than the sheet has data
    rows. *)
Theorem parsed_rows_wellformed :
  forall rows parsedRows,
    Parser.parse rows = Parser.Parsed parsedRows ->
    Forall wellFormedParsedRow parsedRows
    /\ parsedRows <> []
    /\ (List.length parsedRows < List.length rows)%nat.
Proof.
  intros rows parsedRows. unfold Parser.parse.
  destruct rows as [|row0 dataRows]; [discriminate|].
  destruct (Parser.findIndex _ _) as [skuIndex|]; [|discriminate].
  destruct (Parser.findIndex _ _) as [qtyIndex|]; [|discriminate].
  destruct (parseLoop_wellformed skuIndex qtyIndex dataRows [] (Forall_nil _))
    as [H1 H2].
  destruct (Parser.parseLoop _ _ _ _) as [|r l]; [discriminate|].
  intros E. inversion E; subst. split; [exact H1|]. split; [discriminate|].
  simpl in *. lia.
Qed.

Lemma parsed_rows_wellformed_witness :
  Parser.parse exampleGrid
  = Parser.Parsed [ Parser.parsedRow "ABC123" (ofZ 5);
                    Parser.parsedRow "GHI111" (ofZ 2) ]
  /\ Forall wellFormedParsedRow
       [ Parser.parsedRow "ABC123" (ofZ 5); Parser.parsedRow "GHI111" (ofZ 2) ].
Proof.
  split; [exact parse_example|].
  exact (proj1 (parsed_rows_wellformed exampleGrid _ parse_example)).
Defined.

Lemma findIndex_none {A : Type} (p : A -> bool) (l : list A) :
  Parser.findIndex p l = None <-> Forall (fun x => p x = false) l.
Proof.
  induction l as [|x rest IH]; simpl.
  - split; [constructor|reflexivity].
  - destruct (p x) eqn:Hp.
    + split; [discriminate|]. intros H. inversion H; congruence.
    + destruct (Parser.findIndex p rest) as [i|].
      * split; [discriminate|]. intros H. inversion H; subst.
        destruct IH as [_ IH]. now specialize (IH H3).
      * split; [|reflexivity]. intros _. constructor; [exact Hp|now apply IH].
Qed.

(** The first match: [findIndex] points at an element that satisfies the
    test, and no earlier element does. *)
Lemma findIndex_first {A : Type} (p : A -> bool) (l : list A) (d : A) : forall i,
  Parser.findIndex p l = Some i ->
  (i < List.length l)%nat /\ p (nth i l d) = true
  /\ forall j, (j < i)%nat -> p (nth j l d) = false.
Proof.
  induction l as [|x rest IH]; intros i; simpl; [discriminate|].
  destruct (p x) eqn:Hp.
  - intros E; inversion E; subst. split; [lia|]. split; [exact Hp|]. intros j Hj; lia.
  - destruct (Parser.findIndex p rest) as [k|]; [|discriminate].
    intros E; inversion E; subst.
    destruct (IH k eq_refl) as (H1 & H2 & H3).
    split; [lia|]. split; [exact H2|].
    intros [|j] Hj; [exact Hp|]. apply H3. lia.
Qed.

(** X5. A sheet with a header row of plain cells (ASCII texts, numbers,
    booleans, blanks) is refused for missing columns exactly when no header
    cell, converted to text, trimmed and lower-cased, is the word "sku", or
    none is the word "quantity" or the word "qty".  The names are compared
    whole: a header "sku code" names no column.  The data rows play no part
    in it. *)
Theorem missing_columns_iff :
  forall row0 dataRows,
    Forall plainHeaderCell row0 ->
    Parser.parse (row0 :: dataRows) = Parser.MissingColumns
    <-> ((forall c, In c row0 ->
            JsString.toLowerCase (JsString.trim (toString c)) <> "sku"%string)
         \/ (forall c, In c row0 ->
               JsString.toLowerCase (JsString.trim (toString c)) <> "quantity"%string
               /\ JsString.toLowerCase (JsString.trim (toString c)) <> "qty"%string)).
Proof.
  intros row0 dataRows _.
  assert (Hsku : Parser.findIndex Parser.isSku (Parser.headerRow row0) = None
                 <-> forall c, In c row0 ->
                       JsString.toLowerCase (JsString.trim (toString c)) <> "sku"%string).
  { rewrite findIndex_none. unfold Parser.headerRow, Parser.isSku.
    rewrite Forall_map, Forall_forall.
    split; intros H c Hc; specialize (H c Hc).
    - now apply String.eqb_neq.
    - now apply String.eqb_neq. }
  assert (Hqty : Parser.findIndex Parser.isQty (Parser.headerRow row0) = None
                 <-> forall c, In c row0 ->
                       JsString.toLowerCase (JsString.trim (toString c)) <> "quantity"%string
                       /\ JsString.toLowerCase (JsString.trim (toString c)) <> "qty"%string).
  { rewrite findIndex_none. unfold Parser.headerRow, Parser.isQty.
    rewrite Forall_map, Forall_forall.
    split; intros H c Hc; specialize (H c Hc).
    - apply orb_false_iff in H as [H1 H2]. split; now apply String.eqb_neq.
    - destruct H as [H1 H2]. apply orb_false_iff. split; now apply String.eqb_neq. }
  rewrite <- Hsku, <- Hqty. unfold Parser.parse.
  destruct (Parser.findIndex Parser.isSku _) as [i|];
    destruct (Parser.findIndex Parser.isQty _) as [j|].
  - split.
    + destruct (Parser.parseLoop _ _ _ _); discriminate.
    + intros [H|H]; discriminate.
  - split; auto.
  - split; auto.
  - split; auto.
Qed.

Lemma missing_columns_iff_witness :
  Forall plainHeaderCell [Str " SKU "; Str "Qty "; Num (ofZ 7)]
  /\ Parser.parse [ [Str " SKU "; Str "Qty "; Num (ofZ 7)]; [Str "A"; Str "1"] ]
     <> Parser.MissingColumns
  /\ Forall plainHeaderCell [Str "sku code"; Str "quantity"]
  /\ Parser.parse [ [Str "sku code"; Str "quantity"]; [Str "A"; Str "1"] ]
     = Parser.MissingColumns.
Proof.
  assert (H1 : Forall plainHeaderCell [Str " SKU "; Str "Qty "; Num (ofZ 7)])
    by (repeat constructor).
  assert (H2 : Forall plainHeaderCell [Str "sku code"; Str "quantity"])
    by (repeat constructor).
  split; [exact H1|]. split; [|split; [exact H2|]].
  - intros E.
    apply (proj1 (missing_columns_iff _ [ [Str "A"; Str "1"] ] H1)) in E.
    destruct E as [E|E].
    + apply (E (Str " SKU ")); [now left|reflexivity].
    + apply (E (Str "Qty ")); [right; now left|reflexivity].
  - apply (proj2 (missing_columns_iff _ [ [Str "A"; Str "1"] ] H2)).
    left. intros c [<-|[<-|[]]]; vm_compute; discriminate.
Defined.

(** X6. When the header has both columns, the columns read are the first
    one named "sku" and the first one named "quantity" or "qty"; on a sheet
    whose sku cells are not the number 0, not-a-number or false, the parse
    gives one row per data row with a non-blank sku and a positive finite
    quantity, in input order, and fails with no-valid-rows when there is
    none. *)
Theorem parse_matches_specification :
  forall row0 dataRows skuIndex qtyIndex,
    Parser.findIndex Parser.isSku (Parser.headerRow row0) = Some skuIndex ->
    Parser.findIndex Parser.isQty (Parser.headerRow row0) = Some qtyIndex ->
    Forall (fun row => keepsText (Parser.cell row skuIndex) = true) dataRows ->
    Parser.parse (row0 :: dataRows)
    = match specCandidates skuIndex qtyIndex dataRows with
      | [] => Parser.NoValidRows
      | parsedRows => Parser.Parsed parsedRows
      end
    /\ Parser.isSku (nth skuIndex (Parser.headerRow row0) EmptyString) = true
    /\ (forall j, (j < skuIndex)%nat ->
          Parser.isSku (nth j (Parser.headerRow row0) EmptyString) = false)
    /\ Parser.isQty (nth qtyIndex (Parser.headerRow row0) EmptyString) = true
    /\ (forall j, (j < qtyIndex)%nat ->
          Parser.isQty (nth j (Parser.headerRow row0) EmptyString) = false).
Proof.
  intros row0 dataRows skuIndex qtyIndex Hs Hq Hall.
  destruct (findIndex_first _ _ EmptyString _ Hs) as (_ & Hs1 & Hs2).
  destruct (findIndex_first _ _ EmptyString _ Hq) as (_ & Hq1 & Hq2).
  split; [|now repeat split].
  unfold Parser.parse. rewrite Hs, Hq.
  now rewrite (parseLoop_spec skuIndex qtyIndex dataRows [] Hall).
Qed.

Lemma parse_matches_specification_witness :
  Parser.parse exampleGrid
  = match specCandidates 0 1 (tl exampleGrid) with
    | [] => Parser.NoValidRows
    | parsedRows => Parser.Parsed parsedRows
    end.
Proof.
  refine (proj1 (parse_matches_specification (hd [] exampleGrid) (tl exampleGrid)
                   0 1 eq_refl eq_refl _)).
  repeat constructor.
Defined.

(* ================================================================== *)
(** ** Further properties of the reconciler *)

(** X7. Every reconciled row is consistent: it exists iff it has a variant
    id iff its status is ok, partial or no stock; it does not exist iff its
    status is "sku not found" or "error", and then it shows the placeholder
    name with nothing available and nothing fulfilled; no reconciled row is
    left pending; sku and requested quantity are those of the parsed row. *)
Theorem enriched_row_consistency :
  forall rev row reply,
    let r := Reconciler.enrichRow rev row reply in
    (exist r = true <-> variantId r <> None)
    /\ (exist r = true <-> (status r = Ok \/ status r = Partial \/ status r = NoStock))
    /\ (exist r = false <-> (status r = SkuNotFound \/ status r = LookupError))
    /\ (exist r = false ->
        productName r = "* * * * * * *"%string
        /\ availableQuantity r = zero /\ fulfilledQuantity r = zero)
    /\ status r <> Pending
    /\ sku r = sku row /\ quantityRequested r = quantityRequested row.
Proof.
  intros rev row reply r.
  destruct (enrichRow_keeps rev row reply) as [Hsku Hq].
  subst r.
  destruct (enrichRow_cases rev row reply) as [[node Hfound]|(st & Hst & Hcase)].
  - rewrite (enrichRow_found _ _ _ _ Hfound) in *.
    unfold Reconciler.matched, Reconciler.classify in *.
    destruct (le _ zero); [|destruct (gt _ _)];
      cbn [exist variantId status productName availableQuantity fulfilledQuantity
           sku quantityRequested] in *;
      (conjs; [split; intros; [discriminate|reflexivity]
              |split; intros; [tauto|reflexivity]
              |split; [discriminate|intros [H|H]; discriminate]
              |discriminate|discriminate|reflexivity|reflexivity]).
  - rewrite Hst in *.
    cbn [Reconciler.unresolved exist variantId status productName
         availableQuantity fulfilledQuantity sku quantityRequested] in *.
    conjs.
    + split; [discriminate|intros H; now contradiction H].
    + split; [discriminate|].
      destruct Hcase as [-> | ->]; intros [H|[H|H]]; discriminate.
    + split; [intros _; destruct Hcase; auto|reflexivity].
    + intros _. now repeat split.
    + destruct Hcase as [-> | ->]; discriminate.
    + reflexivity.
    + reflexivity.
Qed.

(** X8. A row reconciled from a parsed row is includable in the order
    exactly when its status is ok or partial (variant ids being non-empty):
    what the preview shows as ok or partial is what a confirm orders. *)
Theorem includable_iff_ok_or_partial :
  forall rev row reply,
    candidate row ->
    (forall node, foundIn rev reply node -> JsString.nonEmpty (id node) = true) ->
    let r := Reconciler.enrichRow rev row reply in
    includableRow r = true <-> (status r = Ok \/ status r = Partial).
Proof.
  intros rev row reply [Hfin Hpos] Hid r. subst r.
  destruct (enrichRow_cases rev row reply) as [[node Hfound]|(st & Hst & Hcase)].
  - rewrite (enrichRow_found _ _ _ _ Hfound).
    pose proof (Hid node Hfound) as Hnode.
    unfold Reconciler.matched, Reconciler.classify, includableRow.
    destruct (le (Reconciler.totalAvailableOf node) zero) eqn:Hle;
      [|destruct (gt (quantityRequested row) (Reconciler.totalAvailableOf node)) eqn:Hgt];
      cbn [exist variantId status fulfilledQuantity]; rewrite Hnode; cbn [andb].
    + split; [discriminate|intros [H|H]; discriminate].
    + split; [now right|intros _].
      unfold gt in *.
      destruct (Reconciler.totalAvailableOf node) as [| | |m e];
        try discriminate.
      * destruct (quantityRequested row); discriminate.
      * apply not_le_lt; auto.
    + split; [now left|intros _; exact Hpos].
  - rewrite Hst. unfold includableRow.
    cbn [Reconciler.unresolved exist status andb].
    split; [discriminate|].
    destruct Hcase as [-> | ->]; intros [H|H]; discriminate.
Qed.

Lemma includable_iff_ok_or_partial_witness :
  candidate sampleRow
  /\ includableRow
       (Reconciler.enrichRow Rev1 sampleRow (CatalogBody [] [Some sampleNode])) = true
  /\ status (Reconciler.enrichRow Rev1 sampleRow (CatalogBody [] [Some sampleNode]))
     = Partial.
Proof.
  assert (Hc : candidate sampleRow) by (split; reflexivity).
  assert (Hid : forall node,
            foundIn Rev1 (CatalogBody [] [Some sampleNode]) node ->
            JsString.nonEmpty (id node) = true).
  { intros node (errors & rest & E & _). inversion E; subst. reflexivity. }
  split; [exact Hc|]. split; [|reflexivity].
  apply (includable_iff_ok_or_partial Rev1 sampleRow _ Hc Hid). now right.
Defined.

(* ================================================================== *)
(** ** Further properties of the "create" intent *)

Section CreateMore.

Variable JSON_parse : string -> option value.
Variable encodeURIComponent : string -> string.

Lemma createIntent_unfold rev env form :
  let confirmed :=
    confirmRows encodeURIComponent rev env (createName form)
      (createCustomerId form)
      (fst (contextOf rev env (createCustomerId form)))
      (fst (getShopNumericId env))
      (previewRowsOf JSON_parse form) in
  createIntent JSON_parse encodeURIComponent rev env form
  = (fst confirmed, lookupsBefore rev (createCustomerId form) ++ snd confirmed).
Proof.
  cbv zeta. rewrite <- (contextOf_trace rev env).
  unfold createIntent, bind. fold (createName form). fold (createCustomerId form).
  destruct (contextOf rev env (createCustomerId form)) as [context t1].
  destruct (getShopNumericId env) as [shopNumericId t2] eqn:Eshop.
  assert (t2 = [ShopQuery]) as ->
    by (now rewrite <- (getShopNumericId_trace env), Eshop).
  cbn [fst snd].
  destruct (confirmRows _ _ _ _ _ _ _ _) as [c t3].
  cbn [fst snd]. now rewrite <- app_assoc.
Qed.

(** The trace of a confirm, by cases: the lookups, then nothing, or the
    order call, or the order call and the history write. *)
Lemma createIntent_trace rev env form :
  let context := fst (contextOf rev env (createCustomerId form)) in
  let shopNumericId := fst (getShopNumericId env) in
  let before := lookupsBefore rev (createCustomerId form) in
  let run := createIntent JSON_parse encodeURIComponent rev env form in
  snd run = before
  \/ exists includedRows,
       includedRowsOf (previewRowsOf JSON_parse form) = Some includedRows
       /\ includedRows <> []
       /\ let body := orderBody (createName form) (createCustomerId form)
                        (numericPart (createCustomerId form)) context
                        shopNumericId includedRows in
          (snd run = before ++ [DraftOrderCreate body]
           /\ exists e, fst run = Return (ErrorResult e (createName form)
                                            (createCustomerId form)
                                            (previewRowsOf JSON_parse form)))
          \/ (exists draftOrder,
                draftOrderOf rev (draftOrderCreate env body) = inr draftOrder
                /\ truthy draftOrder = true
                /\ snd run
                   = before
                     ++ [DraftOrderCreate body;
                         HistoryCreate
                           (historyData (createName form)
                              (numericPart (createCustomerId form))
                              shopNumericId draftOrder (totalQuantity body))]
                /\ fst run
                   = Return (Redirect
                               (String.append "/app?createdOrderName="
                                  (encodeURIComponent (orderLabel draftOrder))))).
Proof.
  cbv zeta. rewrite (createIntent_unfold rev env form). cbn [fst snd].
  pose proof (confirmRows_cases encodeURIComponent rev env (createName form)
                (createCustomerId form)
                (fst (contextOf rev env (createCustomerId form)))
                (fst (getShopNumericId env))
                (previewRowsOf JSON_parse form)) as Hcases.
  cbv zeta in Hcases.
  destruct Hcases as [[_ ->]|[[_ ->]|(l & b & Hinc & Hne & Hb & Hrest)]].
  - left. cbn [snd]. apply app_nil_r.
  - left. cbn [snd]. apply app_nil_r.
  - right. exists l. split; [exact Hinc|]. split; [exact Hne|].
    rewrite <- Hb.
    destruct Hrest as [(m & _ & ->)|[(d & _ & _ & ->)|(d & Hd & Ht & ->)]];
      cbn [fst snd].
    + left. split; [reflexivity|eexists; reflexivity].
    + left. split; [reflexivity|eexists; reflexivity].
    + right. exists d. now repeat split.
Qed.

End CreateMore.

Lemma filterRows_kept items : forall kept,
  filterRows items = Some kept -> Forall (fun row => includable row = true) kept.
Proof.
  induction items as [|row rest IH]; intros kept; simpl.
  - intros E; inversion E. constructor.
  - destruct (isNullish row); [discriminate|].
    destruct (filterRows rest) as [l|]; [|discriminate].
    destruct (includable row) eqn:Hi; intros E; inversion E; subst.
    + constructor; [exact Hi|now apply IH].
    + now apply IH.
Qed.

Lemma includedRows_kept previewRows kept :
  includedRowsOf previewRows = Some kept ->
  Forall (fun row => includable row = true) kept.
Proof.
  destruct previewRows; simpl; try discriminate. apply filterRows_kept.
Qed.

(** For a row that passes the filter, [Number(row.fulfilledQuantity || 0)]
    and [Number(row.fulfilledQuantity)] are one number, above 0. *)
Lemma includable_quantity row :
  includable row = true ->
  fulfilledOf row = toNumber (prop row "fulfilledQuantity")
  /\ gt (toNumber (prop row "fulfilledQuantity")) zero = true
  /\ truthy (prop row "variantId") = true
  /\ truthy (prop row "exist") = true.
Proof.
  unfold includable, fulfilledOf, or. rewrite !andb_true_iff.
  intros [[He Hv] Hq].
  destruct (truthy (prop row "fulfilledQuantity")); [now repeat split|].
  discriminate.
Qed.

Lemma totalQuantity_of_lines rows : forall acc,
  Forall (fun row => includable row = true) rows ->
  fold_left (fun sum row => add sum (fulfilledOf row)) rows acc
  = fold_left add (map itemQuantity (lineItemsOf rows)) acc.
Proof.
  induction rows as [|row rest IH]; intros acc Hall; [reflexivity|].
  inversion Hall as [|? ? Hrow Hrest]; subst. cbn [fold_left lineItemsOf map itemQuantity].
  destruct (includable_quantity row Hrow) as (-> & _). now apply IH.
Qed.

Lemma gt_zero_fin m e : gt (Fin m e) zero = true <-> 0 < m.
Proof.
  unfold gt, lt, zero, cmpFin. rewrite Z.mul_0_l.
  assert (Hp : 0 < 10 ^ (e - Z.min 0 e)) by (apply Z.pow_pos_nonneg; lia).
  destruct (Z.compare_spec 0 (m * 10 ^ (e - Z.min 0 e))) as [H|H|H];
    split; intros G; try discriminate; try reflexivity; nia.
Qed.

(** A number above 0 is a finite number or Infinity. *)
Lemma gt_zero_cases n :
  gt n zero = true -> isFinite n = true \/ n = PosInf.
Proof. destruct n; try discriminate; auto. Qed.

Lemma add_positive a b :
  a = zero \/ gt a zero = true -> gt b zero = true -> gt (add a b) zero = true.
Proof.
  intros Ha Hb.
  assert (Ha' : a = PosInf \/ exists m e, a = Fin m e /\ 0 <= m).
  { destruct Ha as [->|Ha]; [right; exists 0, 0; split; [reflexivity|lia]|].
    destruct a as [| | |m e]; try discriminate; [now left|].
    right. exists m, e. split; [reflexivity|]. apply gt_zero_fin in Ha. lia. }
  destruct b as [| | |m2 e2]; try discriminate.
  - destruct Ha' as [->|(m & e & -> & _)]; reflexivity.
  - apply gt_zero_fin in Hb.
    destruct Ha' as [->|(m1 & e1 & -> & Hm1)]; [reflexivity|].
    cbn [add]. apply gt_zero_fin.
    assert (H1 : 0 < 10 ^ (e1 - Z.min e1 e2)) by (apply Z.pow_pos_nonneg; lia).
    assert (H2 : 0 < 10 ^ (e2 - Z.min e1 e2)) by (apply Z.pow_pos_nonneg; lia).
    nia.
Qed.

Lemma sum_positive l : forall acc,
  (acc = zero \/ gt acc zero = true) ->
  Forall (fun q => gt q zero = true) l ->
  l <> [] \/ gt acc zero = true ->
  gt (fold_left add l acc) zero = true.
Proof.
  induction l as [|q rest IH]; intros acc Hacc Hall Hne; cbn [fold_left].
  - destruct Hne as [Hne|Hne]; [now contradiction Hne|exact Hne].
  - inversion Hall as [|? ? Hq Hrest]; subst.
    pose proof (add_positive acc q Hacc Hq) as Hsum.
    apply IH; [now right|exact Hrest|now right].
Qed.

(** X9. Whatever the preview parses to, the order request that a confirm
    builds has at least one line; every line has a truthy variant id and a
    quantity above 0; its totalQuantity is the sum of the quantities of its
    lines, and is above 0.  A quantity above 0 is finite or Infinity (a
    preview that carries 1e400): [JSON.stringify] writes the finite one as
    that number and Infinity as null, so in the body that is posted a line's
    quantity, and the totalQuantity, is a number above 0 or null, and null
    only for Infinity. *)
Theorem order_request_wellformed :
  forall JSON_parse encodeURIComponent rev env form body,
    In (DraftOrderCreate body)
       (snd (createIntent JSON_parse encodeURIComponent rev env form)) ->
    lineItems body <> []
    /\ Forall (fun line =>
                 truthy (itemVariantId line) = true
                 /\ gt (itemQuantity line) zero = true
                 /\ (isFinite (itemQuantity line) = true
                       /\ jsonNumber (itemQuantity line) = Num (itemQuantity line)
                     \/ itemQuantity line = PosInf
                        /\ jsonNumber (itemQuantity line) = Null))
         (lineItems body)
    /\ totalQuantity body = sumOf (map itemQuantity (lineItems body))
    /\ gt (totalQuantity body) zero = true
    /\ (isFinite (totalQuantity body) = true
          /\ jsonNumber (totalQuantity body) = Num (totalQuantity body)
        \/ totalQuantity body = PosInf
           /\ jsonNumber (totalQuantity body) = Null).
Proof.
  intros JSON_parse enc rev env form body Hin.
  pose proof (createIntent_trace JSON_parse enc rev env form) as Hcases.
  cbv zeta in Hcases.
  assert (Hbefore : ~ In (DraftOrderCreate body)
                      (lookupsBefore rev (createCustomerId form))).
  { unfold lookupsBefore. destruct rev; [|destruct (JsString.nonEmpty _)];
      simpl; intuition discriminate. }
  destruct Hcases as [E|(rows & Hinc & Hne & Hrest)].
  { rewrite E in Hin. contradiction. }
  pose proof (includedRows_kept _ _ Hinc) as Hkept.
  assert (Hbody : body = orderBody (createName form) (createCustomerId form)
                           (numericPart (createCustomerId form))
                           (fst (contextOf rev env (createCustomerId form)))
                           (fst (getShopNumericId env)) rows).
  { destruct Hrest as [[E _]|(d & _ & _ & E & _)]; rewrite E in Hin;
      apply in_app_or in Hin as [Hin|Hin]; try contradiction;
      repeat (destruct Hin as [Hin|Hin]; [now inversion Hin|]);
      contradiction. }
  rewrite Hbody. cbn [lineItems totalQuantity orderBody].
  assert (Hposted : forall q, gt q zero = true ->
            isFinite q = true /\ jsonNumber q = Num q
            \/ q = PosInf /\ jsonNumber q = Null).
  { intros q Hq. destruct (gt_zero_cases q Hq) as [Hf| ->].
    - left. split; [exact Hf|]. unfold jsonNumber. now rewrite Hf.
    - right. split; reflexivity. }
  assert (Hlines : Forall (fun line => gt (itemQuantity line) zero = true)
                     (lineItemsOf rows)).
  { clear -Hkept. induction Hkept as [|row rest Hrow _ IH]; [constructor|].
    cbn [lineItemsOf map]. constructor; [|exact IH].
    now destruct (includable_quantity row Hrow) as (_ & Hq & _). }
  assert (Hsum : totalQuantityOf rows = sumOf (map itemQuantity (lineItemsOf rows))).
  { unfold totalQuantityOf, sumOf. now apply totalQuantity_of_lines. }
  assert (Htotal : gt (totalQuantityOf rows) zero = true).
  { rewrite Hsum. unfold sumOf. apply sum_positive.
    - now left.
    - clear -Hlines. induction Hlines as [|line rest Hq _ IH]; [constructor|].
      cbn [map]. constructor; [exact Hq|exact IH].
    - left. destruct rows; [now contradiction Hne|discriminate]. }
  split; [|split; [|split; [exact Hsum|split; [exact Htotal|now apply Hposted]]]].
  - destruct rows; [now contradiction Hne|discriminate].
  - clear -Hkept Hposted. induction Hkept as [|row rest Hrow _ IH]; [constructor|].
    cbn [lineItemsOf map]. constructor; [|exact IH].
    destruct (includable_quantity row Hrow) as (_ & Hq & Hv & _).
    cbn [itemQuantity itemVariantId].
    split; [exact Hv|]. split; [exact Hq|now apply Hposted].
Qed.

Lemma order_request_wellformed_witness :
  (exists body,
     In (DraftOrderCreate body)
        (snd (createIntent sampleParse (fun s => s) Rev2 creatingServices
                (sampleForm (Text "rows"))))
     /\ map (fun line => jsonNumber (itemQuantity line)) (lineItems body)
        = [Num (ofZ 3)]
     /\ totalQuantity body = sumOf (map itemQuantity (lineItems body))
     /\ gt (totalQuantity body) zero = true)
  /\ (exists body,
        In (DraftOrderCreate body)
           (snd (createIntent (fun _ => Some overflowedPreview) (fun s => s) Rev2
                   creatingServices (sampleForm (Text "rows"))))
        /\ map (fun line => jsonNumber (itemQuantity line)) (lineItems body)
           = [Null]
        /\ jsonNumber (totalQuantity body) = Null
        /\ gt (totalQuantity body) zero = true).
Proof.
  split.
  - set (body := orderBody "Acme" "gid://shopify/Customer/42" "42"
                   (Some noContext) (Some "77"%string)
                   (map rowValue (filter includableRow samplePreview))).
    assert (Hin : In (DraftOrderCreate body)
                    (snd (createIntent sampleParse (fun s => s) Rev2 creatingServices
                            (sampleForm (Text "rows")))))
      by (right; right; left; reflexivity).
    exists body. split; [exact Hin|].
    destruct (order_request_wellformed sampleParse (fun s => s) Rev2 creatingServices
                (sampleForm (Text "rows")) body Hin) as (_ & _ & H3 & H4 & _).
    split; [reflexivity|]. split; [exact H3|exact H4].
  - set (body := orderBody "Acme" "gid://shopify/Customer/42" "42"
                   (Some noContext) (Some "77"%string)
                   match overflowedPreview with Arr items => items | _ => [] end).
    assert (Hin : In (DraftOrderCreate body)
                    (snd (createIntent (fun _ => Some overflowedPreview) (fun s => s)
                            Rev2 creatingServices (sampleForm (Text "rows")))))
      by (right; right; left; reflexivity).
    exists body. split; [exact Hin|].
    destruct (order_request_wellformed (fun _ => Some overflowedPreview) (fun s => s)
                Rev2 creatingServices (sampleForm (Text "rows")) body Hin)
      as (_ & _ & _ & H4 & _).
    split; [reflexivity|]. split; [reflexivity|exact H4].
Defined.

(** X10. A confirm calls the order-creation service at most once and writes
    to the history store at most once, and never writes more history
    records than it sent order requests. *)
Theorem at_most_one_order_call :
  forall JSON_parse encodeURIComponent rev env form,
    let t := snd (createIntent JSON_parse encodeURIComponent rev env form) in
    (List.length (orderRequests t) <= 1)%nat
    /\ (List.length (historyWrites t) <= List.length (orderRequests t))%nat.
Proof.
  intros JSON_parse enc rev env form t. subst t.
  pose proof (createIntent_trace JSON_parse enc rev env form) as Hcases.
  cbv zeta in Hcases.
  destruct (lookupsBefore_orders rev (createCustomerId form)) as [Ho Hh].
  destruct Hcases as [E|(rows & _ & _ & [[E _]|(d & _ & _ & E & _)])];
    rewrite E, ?orderRequests_app, ?historyWrites_app, Ho, Hh; simpl; lia.
Qed.

(** X11. A history record is written only after the order-creation service
    reported a created draft order: then exactly one request was sent and
    answered with a truthy draft order, the confirm redirects, and the record
    carries the request's customer name, shop id and totalQuantity and the
    numeric part of its customer id. *)
Theorem history_only_after_created_order :
  forall JSON_parse encodeURIComponent rev env form data,
    let run := createIntent JSON_parse encodeURIComponent rev env form in
    In (HistoryCreate data) (snd run) ->
    exists body draftOrder,
      orderRequests (snd run) = [body]
      /\ historyWrites (snd run) = [data]
      /\ draftOrderOf rev (draftOrderCreate env body) = inr draftOrder
      /\ truthy draftOrder = true
      /\ fst run = Return (Redirect
                             (String.append "/app?createdOrderName="
                                (encodeURIComponent (orderLabel draftOrder))))
      /\ histTotalQuantity data = totalQuantity body
      /\ histCustomerName data = reqCustomerName body
      /\ histShopId data = shop_id body
      /\ histCustomerId data = numericPart (reqCustomerId body)
      /\ orderId data = prop draftOrder "id".
Proof.
  intros JSON_parse enc rev env form data run Hin. subst run.
  pose proof (createIntent_trace JSON_parse enc rev env form) as Hcases.
  cbv zeta in Hcases.
  destruct (lookupsBefore_orders rev (createCustomerId form)) as [Ho Hh].
  assert (Hbefore : ~ In (HistoryCreate data)
                      (lookupsBefore rev (createCustomerId form))).
  { unfold lookupsBefore. destruct rev; [|destruct (JsString.nonEmpty _)];
      simpl; intuition discriminate. }
  destruct Hcases as [E|(rows & _ & _ & [[E _]|(d & Hd & Ht & E & Hres)])].
  - rewrite E in Hin. contradiction.
  - rewrite E in Hin. apply in_app_or in Hin as [Hin|Hin]; [contradiction|].
    repeat (destruct Hin as [Hin|Hin]; [now inversion Hin|]). contradiction.
  - rewrite E in Hin. apply in_app_or in Hin as [Hin|Hin]; [contradiction|].
    assert (Hdata : data = historyData (createName form)
                             (numericPart (createCustomerId form))
                             (fst (getShopNumericId env)) d
                             (totalQuantity
                                (orderBody (createName form) (createCustomerId form)
                                   (numericPart (createCustomerId form))
                                   (fst (contextOf rev env (createCustomerId form)))
                                   (fst (getShopNumericId env)) rows)))
      by (repeat (destruct Hin as [Hin|Hin]; [now inversion Hin|]);
          contradiction).
    eexists _, d. rewrite E, orderRequests_app, historyWrites_app, Ho, Hh.
    split; [reflexivity|]. split; [now rewrite Hdata|].
    split; [exact Hd|]. split; [exact Ht|]. split; [exact Hres|].
    rewrite Hdata. cbn [historyData orderBody histTotalQuantity totalQuantity
                        histCustomerName reqCustomerName histShopId shop_id
                        histCustomerId reqCustomerId orderId].
    repeat split.
    unfold getShopNumericId, bind, emit, ret. cbn [fst].
    destruct (shop env) as [| |shopId]; try reflexivity.
    unfold orNull. destruct (JsString.nonEmpty _) eqn:Hn; [now rewrite Hn|reflexivity].
Qed.

Lemma history_only_after_created_order_witness :
  let run := createIntent sampleParse (fun s => s) Rev1 creatingServices
               (sampleForm (Text "rows")) in
  exists data,
    In (HistoryCreate data) (snd run)
    /\ historyWrites (snd run) = [data]
    /\ histTotalQuantity data = ofZ 3
    /\ fst run = Return (Redirect "/app?createdOrderName=#24").
Proof.
  cbv zeta.
  set (data := historyData "Acme" "42" (Some "77"%string) sampleDraftOrder (ofZ 3)).
  assert (Hin : In (HistoryCreate data)
                  (snd (createIntent sampleParse (fun s => s) Rev1 creatingServices
                          (sampleForm (Text "rows")))))
    by (right; right; left; reflexivity).
  exists data. split; [exact Hin|].
  destruct (history_only_after_created_order sampleParse (fun s => s) Rev1
              creatingServices (sampleForm (Text "rows")) data Hin)
    as (body & d & _ & Hw & _).
  split; [exact Hw|]. split; reflexivity.
Defined.

(* ------------------------------------------------------------------ *)
(** *** Identifiers: numeric parts, the shop id, the B2B context *)

Lemma lastSegment_no_separator sep s :
  JsString.contains sep (JsString.lastSegment sep s) = false.
Proof.
  induction s as [|c r IH]; [reflexivity|].
  cbn [JsString.lastSegment].
  destruct (JsString.contains sep r) eqn:Hr; [exact IH|].
  destruct (Ascii.eqb c sep) eqn:Hc; [exact Hr|].
  cbn [JsString.contains]. now rewrite Hc, Hr.
Qed.

Lemma lastSegment_suffix sep s :
  JsString.contains sep s = true ->
  exists p, s = String.append p (String sep (JsString.lastSegment sep s)).
Proof.
  induction s as [|c r IH]; [discriminate|].
  cbn [JsString.contains JsString.lastSegment].
  destruct (JsString.contains sep r) eqn:Hr.
  - intros _. destruct (IH eq_refl) as [p Hp].
    exists (String c p). cbn [String.append]. now rewrite <- Hp.
  - rewrite orb_false_r. intros Hc. rewrite Hc.
    apply Ascii.eqb_eq in Hc. subst. now exists EmptyString.
Qed.

Lemma gid_has_slash gid :
  JsString.startsWith "gid://" gid = true -> JsString.contains "/" gid = true.
Proof.
  unfold JsString.startsWith.
  destruct gid as [|c1 [|c2 [|c3 [|c4 [|c5 r]]]]]; cbn [String.prefix];
    repeat match goal with
           | |- context [ascii_dec ?a ?b] => destruct (ascii_dec a b); try discriminate
           end; try discriminate.
  subst. intros _. reflexivity.
Qed.

(** X12. For an id that starts with "gid://", the numeric part used in the
    note, the history record and the shop id is what follows the last slash:
    it holds no slash, the id ends with "/" and it, and taking the numeric
    part again changes nothing. *)
Theorem numeric_part_of_gid :
  forall gid,
    JsString.startsWith "gid://" gid = true ->
    JsString.contains "/" (numericPart gid) = false
    /\ (exists p, gid = String.append p (String "/" (numericPart gid)))
    /\ numericPart (numericPart gid) = numericPart gid.
Proof.
  intros gid Hgid. unfold numericPart at 1 2. rewrite Hgid.
  pose proof (lastSegment_no_separator "/" gid) as Hno.
  split; [exact Hno|]. split; [now apply lastSegment_suffix, gid_has_slash|].
  unfold numericPart. rewrite Hgid.
  destruct (JsString.startsWith "gid://" (JsString.lastSegment "/" gid)) eqn:E;
    [|reflexivity].
  apply gid_has_slash in E. congruence.
Qed.

Lemma numeric_part_of_gid_witness :
  JsString.startsWith "gid://" "gid://shopify/Customer/42" = true
  /\ numericPart "gid://shopify/Customer/42" = "42"%string
  /\ JsString.contains "/" (numericPart "gid://shopify/Customer/42") = false.
Proof.
  assert (H : JsString.startsWith "gid://" "gid://shopify/Customer/42" = true)
    by reflexivity.
  split; [exact H|]. split; [reflexivity|].
  exact (proj1 (numeric_part_of_gid "gid://shopify/Customer/42" H)).
Defined.

Lemma orNull_not_empty o : orNull o <> Some EmptyString.
Proof.
  unfold orNull. destruct o as [s|]; [|discriminate].
  destruct s; simpl; discriminate.
Qed.

(** X13. The context a confirm resolves never holds an empty id: the shop id
    and each of the three company ids is either null or a non-empty string.
    The B2B lookup is skipped for an empty customer id, is made once
    otherwise, and a lookup that throws or finds no profile gives the
    all-null context instead of failing the confirm. *)
Theorem context_ids_null_or_nonempty :
  forall env customerGid,
    let shopId := fst (getShopNumericId env) in
    let context := fst (getB2BContext env customerGid) in
    let calls := snd (getB2BContext env customerGid) in
    shopId <> Some EmptyString
    /\ companyId context <> Some EmptyString
    /\ companyLocationId context <> Some EmptyString
    /\ companyContactId context <> Some EmptyString
    /\ (customerGid = EmptyString -> context = noContext /\ calls = [])
    /\ (customerGid <> EmptyString -> calls = [B2BQuery customerGid])
    /\ (b2b env customerGid = B2BThrows \/ b2b env customerGid = B2BProfiles [] ->
        context = noContext).
Proof.
  intros env gid shopId context calls. subst shopId context calls.
  split.
  { unfold getShopNumericId, bind, emit, ret. cbn [fst].
    destruct (shop env); try discriminate. apply orNull_not_empty. }
  unfold getB2BContext.
  destruct gid as [|c r]; cbn [JsString.nonEmpty negb].
  - cbn. repeat split; try discriminate. intros H. now contradiction H.
  - unfold bind, emit, ret.
    destruct (b2b env (String c r)) as [|[|profile rest]]; cbn [fst snd];
      cbn [companyId companyLocationId companyContactId noContext app];
      repeat split; try discriminate; try apply orNull_not_empty;
      try reflexivity;
      intros [H|H]; discriminate.
Qed.

(* ================================================================== *)
(** ** The customer search endpoint *)

(** X14. A search text shorter than two characters after trimming (also an
    absent one) is answered with status 200 and no customers without any
    query to the Admin API. *)
Theorem short_search_sends_no_query :
  forall qParam admin,
    (String.length (JsString.trim (orText qParam "")) < 2)%nat ->
    CustomersApi.loader qParam admin
    = ({| CustomersApi.httpStatus := 200;
          CustomersApi.customers := [];
          CustomersApi.error := None |}, []).
Proof.
  intros qParam admin Hlen. unfold CustomersApi.loader.
  apply Nat.ltb_lt in Hlen. rewrite Hlen. now rewrite orb_true_r.
Qed.

Lemma short_search_sends_no_query_witness :
  (String.length (JsString.trim (orText (Some "  a  "%string) "")) < 2)%nat
  /\ snd (CustomersApi.loader (Some "  a  "%string)
            (fun _ => CustomersApi.SearchThrows)) = [].
Proof.
  assert (H : (String.length (JsString.trim (orText (Some "  a  "%string) "")) < 2)%nat)
    by (simpl; lia).
  split; [exact H|].
  now rewrite (short_search_sends_no_query _ (fun _ => CustomersApi.SearchThrows) H).
Defined.

(** X15. The search endpoint always answers, with status 200 and no error
    text or with status 500, an error text and an empty customer list; it
    sends at most one query, whose text is the trimmed search text, and an
    answer given without a query is the empty 200. *)
Theorem search_response_shape :
  forall qParam admin,
    let r := fst (CustomersApi.loader qParam admin) in
    let sent := snd (CustomersApi.loader qParam admin) in
    ((CustomersApi.httpStatus r = 200 /\ CustomersApi.error r = None)
     \/ (CustomersApi.httpStatus r = 500 /\ CustomersApi.customers r = []
         /\ CustomersApi.error r <> None))
    /\ (sent = [] \/ sent = [JsString.trim (orText qParam "")])
    /\ (sent = [] ->
        CustomersApi.httpStatus r = 200 /\ CustomersApi.customers r = []).
Proof.
  intros qParam admin r sent. subst r sent. unfold CustomersApi.loader.
  destruct (negb _ || Nat.ltb _ 2); cbn [fst snd].
  - split; [now left|]. split; [now left|]. now split.
  - split; [|split; [now right|discriminate]].
    destruct (admin _) as [|[|e errors] edges]; cbn.
    + right. repeat split. discriminate.
    + destruct (CustomersApi.mapEdges edges); cbn;
        [now left|right; repeat split; discriminate].
    + right. repeat split. discriminate.
Qed.

Lemma mapEdges_all nodes :
  CustomersApi.mapEdges (map Some nodes)
  = Some (map (fun n => {| CustomersApi.id := CustomersApi.nodeId n;
                           CustomersApi.displayName :=
                             orText (CustomersApi.nodeDisplayName n) "";
                           CustomersApi.email :=
                             orText (CustomersApi.nodeEmail n) "" |}) nodes).
Proof.
  induction nodes as [|n rest IH]; [reflexivity|].
  cbn [map CustomersApi.mapEdges]. now rewrite IH.
Qed.

Lemma mapEdges_missing edges :
  In None edges -> CustomersApi.mapEdges edges = None.
Proof.
  induction edges as [|[n|] rest IH]; simpl; [contradiction| |reflexivity].
  intros [H|H]; [discriminate|]. now rewrite (IH H).
Qed.

(** X16. For a search text of two characters or more answered without
    GraphQL errors, the customers returned are the nodes of the reply, one
    for one and in order, with the id kept and a missing display name or
    e-mail replaced by the empty string; but if any edge lacks its node the
    whole answer is the 500 "Server error" with no customers. *)
Theorem search_maps_nodes :
  forall qParam admin edges,
    let q := JsString.trim (orText qParam "") in
    (2 <= String.length q)%nat ->
    admin q = CustomersApi.SearchBody [] edges ->
    (forall nodes, edges = map Some nodes ->
       CustomersApi.loader qParam admin
       = ({| CustomersApi.httpStatus := 200;
             CustomersApi.customers :=
               map (fun n => {| CustomersApi.id := CustomersApi.nodeId n;
                                CustomersApi.displayName :=
                                  orText (CustomersApi.nodeDisplayName n) "";
                                CustomersApi.email :=
                                  orText (CustomersApi.nodeEmail n) "" |}) nodes;
             CustomersApi.error := None |}, [q]))
    /\ (In None edges ->
        CustomersApi.loader qParam admin
        = ({| CustomersApi.httpStatus := 500;
              CustomersApi.customers := [];
              CustomersApi.error := Some "Server error"%string |}, [q])).
Proof.
  intros qParam admin edges q Hlen Hreply.
  assert (Hgo : negb (JsString.nonEmpty q) || Nat.ltb (String.length q) 2 = false).
  { apply orb_false_iff. split.
    - destruct q; [simpl in Hlen; lia|reflexivity].
    - apply Nat.ltb_ge. exact Hlen. }
  unfold CustomersApi.loader. fold q. rewrite Hgo, Hreply. split.
  - intros nodes ->. now rewrite mapEdges_all.
  - intros Hnone. now rewrite (mapEdges_missing _ Hnone).
Qed.

Lemma search_maps_nodes_witness :
  let admin := fun _ : string =>
    CustomersApi.SearchBody []
      [Some (CustomersApi.mkNode "gid://shopify/Customer/42" (Some "Acme"%string) None)] in
  (2 <= String.length (JsString.trim (orText (Some " ac "%string) "")))%nat
  /\ CustomersApi.loader (Some " ac "%string) admin
     = ({| CustomersApi.httpStatus := 200;
           CustomersApi.customers :=
             [CustomersApi.mkCustomer "gid://shopify/Customer/42" "Acme" ""];
           CustomersApi.error := None |}, ["ac"%string]).
Proof.
  cbv zeta.
  assert (H : (2 <= String.length (JsString.trim (orText (Some " ac "%string) "")))%nat)
    by (simpl; lia).
  split; [exact H|].
  exact (proj1 (search_maps_nodes (Some " ac "%string) _ _ H eq_refl)
           [CustomersApi.mkNode "gid://shopify/Customer/42" (Some "Acme"%string) None]
           eq_refl).
Defined.

(* ================================================================== *)
(** ** The page's loader *)

(** X17. When the shop id cannot be resolved (the shop query throws, its
    body cannot be read, or it carries no id), the loader returns an empty
    history and no customers and calls neither the history store nor the
    customers endpoint. *)
Theorem loader_without_shop_id :
  forall w createdParam sessionShop,
    (shop (IndexLoader.admin w) = ShopThrows
     \/ shop (IndexLoader.admin w) = ShopBodyThrows
     \/ shop (IndexLoader.admin w) = ShopBody None
     \/ shop (IndexLoader.admin w) = ShopBody (Some EmptyString)) ->
    let r := IndexLoader.loader w createdParam sessionShop in
    IndexLoader.history (fst r) = []
    /\ IndexLoader.customers (fst r) = []
    /\ snd r = [IndexLoader.CallShop].
Proof.
  intros w c s H r. subst r. unfold IndexLoader.loader.
  assert (Hnone : fst (getShopNumericId (IndexLoader.admin w)) = None).
  { unfold getShopNumericId, bind, emit, ret. cbn [fst].
    destruct H as [ -> | [ -> | [ -> | -> ] ] ]; reflexivity. }
  rewrite Hnone. now repeat split.
Qed.

Lemma loader_without_shop_id_witness :
  let w := {| IndexLoader.admin := sampleServices;
              IndexLoader.findMany := fun _ => None;
              IndexLoader.getCustomers := fun _ => IndexLoader.CustomersFetchThrows |} in
  let w0 := {| IndexLoader.admin :=
                 {| shop := ShopThrows; b2b := b2b sampleServices;
                    catalog := catalog sampleServices;
                    draftOrderCreate := draftOrderCreate sampleServices;
                    historyCreate := historyCreate sampleServices |};
               IndexLoader.findMany := fun _ => None;
               IndexLoader.getCustomers := fun _ => IndexLoader.CustomersFetchThrows |} in
  snd (IndexLoader.loader w None None)
  = [IndexLoader.CallShop; IndexLoader.CallFindMany "77";
     IndexLoader.CallGetCustomers "77"]
  /\ snd (IndexLoader.loader w0 None None) = [IndexLoader.CallShop].
Proof.
  cbv zeta. split; [reflexivity|].
  refine (proj2 (proj2 (loader_without_shop_id _ None None _))).
  now left.
Defined.

(** X18. Every query the loader sends to the history store or to the
    customers endpoint is scoped by the resolved shop id, which is not
    empty; the two loads are independent: a history query that throws
    leaves the customers as they are, and a customers call that fails leaves
    the history as it is. *)
Theorem loader_scoped_and_isolated :
  forall a find customersCall createdParam sessionShop,
    let w := IndexLoader.mkWorld a find customersCall in
    let r := IndexLoader.loader w createdParam sessionShop in
    (forall shopId,
       In (IndexLoader.CallFindMany shopId) (snd r)
       \/ In (IndexLoader.CallGetCustomers shopId) (snd r) ->
       shopId <> EmptyString /\ fst (getShopNumericId a) = Some shopId)
    /\ IndexLoader.customers
         (fst (IndexLoader.loader (IndexLoader.mkWorld a (fun _ => None) customersCall)
                 createdParam sessionShop))
       = IndexLoader.customers (fst r)
    /\ IndexLoader.history
         (fst (IndexLoader.loader
                 (IndexLoader.mkWorld a find
                    (fun _ => IndexLoader.CustomersFetchThrows))
                 createdParam sessionShop))
       = IndexLoader.history (fst r).
Proof.
  intros a find customersCall c s w r. subst r w. unfold IndexLoader.loader.
  cbn [IndexLoader.admin IndexLoader.findMany IndexLoader.getCustomers].
  assert (Hne : fst (getShopNumericId a) <> Some EmptyString).
  { unfold getShopNumericId, bind, emit, ret. cbn [fst].
    destruct (shop a); try discriminate. apply orNull_not_empty. }
  destruct (fst (getShopNumericId a)) as [shopId|]; cbn [fst snd].
  - split; [|now split].
    intros x [H|H]; simpl in H;
      destruct H as [H|[H|[H|[]]]]; try discriminate; inversion H; subst;
      (split; [intros ->; now apply Hne|reflexivity]).
  - split; [|now split].
    intros x [H|H]; simpl in H; destruct H as [H|[]]; discriminate.
Qed.

Lemma append_empty_r s : String.append s EmptyString = s.
Proof. induction s as [|c r IH]; [reflexivity|]. cbn [String.append]. now rewrite IH. Qed.

Lemma prefix_append p b : String.prefix p (String.append p b) = true.
Proof.
  induction p as [|c r IH]; simpl; [now destruct b|].
  destruct (ascii_dec c c); [exact IH|contradiction].
Qed.

Lemma drop_append p b : JsString.drop (String.length p) (String.append p b) = b.
Proof. induction p as [|c r IH]; simpl; [now destruct b|exact IH]. Qed.

Lemma replace_after_clean_prefix c pat rep a b :
  JsString.contains c a = false ->
  JsString.replace (String c pat) rep
    (String.append a (String c (String.append pat b)))
  = String.append a (String.append rep b).
Proof.
  induction a as [|x a' IH]; intros Hclean.
  - cbn [String.append JsString.replace].
    change (String c (String.append pat b)) with (String.append (String c pat) b).
    now rewrite prefix_append, drop_append.
  - cbn [JsString.contains] in Hclean. apply orb_false_iff in Hclean as [Hx Ha].
    cbn [String.append JsString.replace].
    assert (Hp : String.prefix (String c pat)
                   (String x (String.append a' (String c (String.append pat b))))
                 = false).
    { cbn [String.prefix]. destruct (ascii_dec c x) as [->|_]; [|reflexivity].
      rewrite Ascii.eqb_refl in Hx. discriminate. }
    rewrite Hp. now rewrite (IH Ha).
Qed.

(** X19. For a session shop "name.myshopify.com" whose name holds no dot, the
    admin subdomain the loader returns, the one the history links are built
    with, is the name. *)
Theorem shop_admin_subdomain :
  forall w createdParam name,
    JsString.contains "." name = false ->
    IndexLoader.shopAdminSubdomain
      (fst (IndexLoader.loader w createdParam
              (Some (String.append name ".myshopify.com"))))
    = name.
Proof.
  intros w c name Hclean. unfold IndexLoader.loader.
  destruct (fst (getShopNumericId (IndexLoader.admin w)));
    cbn [fst IndexLoader.shopAdminSubdomain];
    (replace (orText (Some (String.append name ".myshopify.com")) "")
       with (String.append name (String "." (String.append "myshopify.com" "")))
       by (unfold orText; destruct name; reflexivity));
    rewrite (replace_after_clean_prefix "." "myshopify.com" "" name "" Hclean);
    apply append_empty_r.
Qed.

Lemma shop_admin_subdomain_witness :
  JsString.contains "." "dev02-bloom-connect" = false
  /\ IndexLoader.shopAdminSubdomain
       (fst (IndexLoader.loader
               (IndexLoader.mkWorld sampleServices (fun _ => None)
                  (fun _ => IndexLoader.CustomersFetchThrows))
               None (Some "dev02-bloom-connect.myshopify.com"%string)))
     = "dev02-bloom-connect"%string.
Proof.
  assert (H : JsString.contains "." "dev02-bloom-connect" = false) by reflexivity.
  split; [exact H|].
  exact (shop_admin_subdomain
           (IndexLoader.mkWorld sampleServices (fun _ => None)
              (fun _ => IndexLoader.CustomersFetchThrows))
           None "dev02-bloom-connect" H).
Defined.

(* ================================================================== *)
(** ** The page component *)

Lemma slice_nonneg {A : Type} (l : list A) (a b : Z) :
  0 <= a <= b ->
  Page.slice a b l = firstn (Z.to_nat (b - a)) (skipn (Z.to_nat a) l).
Proof.
  intros Hab. unfold Page.slice, Page.sliceIndex.
  destruct (Z.ltb_spec a 0); [lia|]. destruct (Z.ltb_spec b 0); [lia|].
  set (len := Z.of_nat (List.length l)).
  destruct (Z.le_gt_cases len a) as [Hlen|Hlen].
  - rewrite (Z.min_r a len), (Z.min_r b len) by lia.
    rewrite Z.sub_diag. cbn [Z.to_nat firstn].
    rewrite (skipn_all2 l) by (subst len; lia). now rewrite firstn_nil.
  - rewrite (Z.min_l a len) by lia.
    destruct (Z.le_gt_cases b len) as [Hb|Hb].
    + now rewrite (Z.min_l b len) by lia.
    + rewrite (Z.min_r b len) by lia.
      rewrite !firstn_all2; [reflexivity| |];
        rewrite length_skipn; subst len; lia.
Qed.



(** X21. An upload posted after typing a customer name without picking a
    suggestion is refused with the customer-and-file-required error, before
    the file is read or any lookup is made: typing clears the hidden customer
    id.  The same holds after Cancel, and after picking a customer that has
    no display name. *)
Theorem upload_without_selected_customer_is_refused :
  forall rev env customers value st upload,
    processIntent rev env
      (Page.processForm (Page.handleCustomerChange customers value st) upload)
    = (Return (ErrorResult msgRequired (JsString.trim value) "" (Arr [])), [])
    /\ processIntent rev env
         (Page.processForm (Page.handleCancelPreview st) upload)
       = (Return (ErrorResult msgRequired "" "" (Arr [])), [])
    /\ (forall c, Page.displayName c = None ->
          processIntent rev env
            (Page.processForm (Page.handleCustomerSelect c st) upload)
          = (Return (ErrorResult msgRequired ""
                       (JsString.trim (orText (Some (Page.id c)) "")) (Arr [])), [])).
Proof.
  intros rev env customers value st upload.
  unfold processIntent, Page.processForm, Page.handleCustomerChange,
    Page.handleCancelPreview, Page.handleCustomerSelect.
  cbn [formCustomerName formCustomerId file Page.customerQuery
       Page.selectedCustomerId].
  split; [|split].
  - replace (orText (Some value) "") with value
      by (unfold orText; now destruct value).
    change (JsString.trim (orText (Some EmptyString) "")) with EmptyString.
    cbn [JsString.nonEmpty negb]. rewrite orb_true_r. reflexivity.
  - reflexivity.
  - intros c ->. reflexivity.
Qed.

Lemma pages_bound n :
  0 <= n ->
  1 <= Page.totalHistoryPages n
  /\ n <= 15 * Page.totalHistoryPages n
  /\ (0 < n -> 15 * (Page.totalHistoryPages n - 1) < n).
Proof.
  intros Hn. unfold Page.totalHistoryPages, Page.HISTORY_PAGE_SIZE.
  pose proof (Z.div_mod (n + 15 - 1) 15 ltac:(lia)) as Hdm.
  pose proof (Z.mod_pos_bound (n + 15 - 1) 15 ltac:(lia)) as Hmod.
  set (q := (n + 15 - 1) / 15) in *. lia.
Qed.

(** X22. Whatever page number the state holds, the page shown lies between 1
    and the number of pages; it holds the rows from position
    15 * (page - 1) on, 15 at most; when there are rows it is not empty, and
    the "Showing a - b of n" line counts exactly the rows of the page. *)
Theorem history_page_content :
  forall (A : Type) (filtered : list A) (historyPage : Z),
    let n := Z.of_nat (List.length filtered) in
    let total := Page.totalHistoryPages n in
    let safe := Page.safeHistoryPage historyPage total in
    let page := Page.pagedHistory filtered safe in
    1 <= safe <= total
    /\ page = firstn 15 (skipn (Z.to_nat (15 * (safe - 1))) filtered)
    /\ (List.length page <= 15)%nat
    /\ (filtered <> [] ->
        page <> []
        /\ 1 <= Page.showingFrom safe n <= Page.showingTo safe n
        /\ Page.showingTo safe n <= n
        /\ Z.of_nat (List.length page)
           = Page.showingTo safe n - Page.showingFrom safe n + 1).
Proof.
  intros A filtered historyPage n total safe page.
  destruct (pages_bound n ltac:(subst n; lia)) as (H1 & H2 & H3).
  fold total in H1, H2, H3.
  assert (Hsafe : 1 <= safe <= total)
    by (subst safe; unfold Page.safeHistoryPage; lia).
  assert (Hpage : page = firstn 15 (skipn (Z.to_nat (15 * (safe - 1))) filtered)).
  { subst page. unfold Page.pagedHistory, Page.HISTORY_PAGE_SIZE.
    rewrite slice_nonneg by lia.
    replace ((safe - 1) * 15 + 15 - (safe - 1) * 15) with 15 by lia.
    replace ((safe - 1) * 15) with (15 * (safe - 1)) by lia. reflexivity. }
  assert (Hlen : Z.of_nat (List.length page) = Z.min 15 (n - 15 * (safe - 1))
                 \/ (n <= 15 * (safe - 1) /\ List.length page = 0%nat)).
  { rewrite Hpage, length_firstn, length_skipn. subst n. lia. }
  split; [exact Hsafe|]. split; [exact Hpage|].
  split; [rewrite Hpage, length_firstn; lia|].
  intros Hne.
  assert (Hn : 0 < n) by (subst n; destruct filtered; [contradiction|simpl; lia]).
  specialize (H3 Hn).
  unfold Page.showingFrom, Page.showingTo, Page.HISTORY_PAGE_SIZE.
  destruct (Z.eqb_spec n 0); [lia|].
  clear Hpage Hne. clearbody page. clearbody safe. clearbody total. clearbody n.
  assert (Hcount : Z.of_nat (List.length page) = Z.min 15 (n - 15 * (safe - 1)))
    by (destruct Hlen as [H|[H _]]; [exact H|lia]).
  split; [intros E; rewrite E in Hcount; cbn [List.length Z.of_nat] in Hcount; lia|].
  lia.
Qed.

Lemma history_page_content_witness :
  let filtered := seq 0 40 in
  Page.pagedHistory filtered (Page.safeHistoryPage 99 (Page.totalHistoryPages 40))
  = seq 30 10
  /\ (filtered <> [] ->
      Page.showingFrom (Page.safeHistoryPage 99 (Page.totalHistoryPages 40)) 40 = 31
      /\ Page.showingTo (Page.safeHistoryPage 99 (Page.totalHistoryPages 40)) 40 = 40).
Proof.
  cbv zeta. split; [reflexivity|]. intros Hne.
  pose proof (history_page_content nat (seq 0 40) 99) as H. cbv zeta in H.
  destruct H as (_ & _ & _ & H). specialize (H Hne).
  split; reflexivity.
Defined.

Lemma chunks_concat {A : Type} (m : nat) : forall l : list A,
  (List.length l <= 15 * m)%nat ->
  List.concat (map (fun k => firstn 15 (skipn (15 * k) l)) (seq 0 m)) = l.
Proof.
  induction m as [|m IH]; intros l Hl.
  - destruct l; [reflexivity|simpl in Hl; lia].
  - cbn [seq map List.concat]. rewrite <- seq_shift, map_map.
    replace (15 * 0)%nat with 0%nat by lia. cbn [skipn].
    rewrite (map_ext _ (fun k => firstn 15 (skipn (15 * k) (skipn 15 l)))).
    + rewrite IH by (rewrite length_skipn; lia). apply firstn_skipn.
    + intros k. rewrite skipn_skipn. f_equal. f_equal. lia.
Qed.

(** X23. The pages 1 to the last one, put end to end, are the filtered
    history: every row is on exactly one page and the order is kept. *)
Theorem history_pages_partition :
  forall (A : Type) (filtered : list A),
    let total := Page.totalHistoryPages (Z.of_nat (List.length filtered)) in
    List.concat (map (fun k => Page.pagedHistory filtered
                            (Page.safeHistoryPage (Z.of_nat (S k)) total))
              (seq 0 (Z.to_nat total)))
    = filtered.
Proof.
  intros A filtered total.
  destruct (pages_bound (Z.of_nat (List.length filtered)) ltac:(lia)) as (H1 & H2 & _).
  fold total in H1, H2.
  rewrite (map_ext_in _ (fun k => firstn 15 (skipn (15 * k) filtered))).
  - apply chunks_concat. lia.
  - intros k Hk. apply in_seq in Hk.
    assert (Hsafe : Page.safeHistoryPage (Z.of_nat (S k)) total = Z.of_nat (S k))
      by (unfold Page.safeHistoryPage; lia).
    rewrite Hsafe.
    unfold Page.pagedHistory, Page.HISTORY_PAGE_SIZE.
    rewrite slice_nonneg by lia.
    replace (Z.to_nat ((Z.of_nat (S k) - 1) * 15 + 15 - (Z.of_nat (S k) - 1) * 15))
      with 15%nat by lia.
    replace (Z.to_nat ((Z.of_nat (S k) - 1) * 15)) with (15 * k)%nat by lia.
    reflexivity.
Qed.

(** X24. The Prev and Next buttons keep the page number between 1 and the
    number of pages; there the page shown is the page number itself; Next
    moves one page forward unless on the last page, Prev one page back unless
    on the first, and Prev after Next returns to the page left. *)
Theorem history_page_buttons :
  forall totalPages p,
    1 <= p <= totalPages ->
    let safe := Page.safeHistoryPage p totalPages in
    let next := Page.clickNext safe totalPages p in
    let prev := Page.clickPrev safe p in
    safe = p
    /\ 1 <= next <= totalPages
    /\ 1 <= prev <= totalPages
    /\ next = (if p <? totalPages then p + 1 else p)
    /\ prev = (if 1 <? p then p - 1 else p)
    /\ (p < totalPages ->
        Page.clickPrev (Page.safeHistoryPage next totalPages) next = p).
Proof.
  intros totalPages p Hp safe next prev. subst next prev safe.
  unfold Page.clickNext, Page.clickPrev, Page.canNext, Page.canPrev,
    Page.safeHistoryPage.
  rewrite (Z.max_l p 1), (Z.min_l p totalPages) by lia.
  destruct (Z.ltb_spec p totalPages); destruct (Z.ltb_spec 1 p);
    repeat split; try lia;
    intros _;
    rewrite ?(Z.max_l (p + 1) 1), ?(Z.min_l (p + 1) totalPages),
            ?(Z.min_l (Z.min totalPages (p + 1)) totalPages) by lia;
    rewrite ?(Z.min_r totalPages (p + 1)) by lia;
    rewrite ?(Z.max_l (p + 1) 1), ?(Z.min_l (p + 1) totalPages) by lia;
    destruct (Z.ltb_spec 1 (p + 1)); lia.
Qed.

Lemma history_page_buttons_witness :
  Page.clickNext (Page.safeHistoryPage 2 3) 3 2 = 3
  /\ Page.clickNext (Page.safeHistoryPage 3 3) 3 3 = 3
  /\ Page.clickPrev (Page.safeHistoryPage 1 3) 1 = 1.
Proof.
  pose proof (history_page_buttons 3 2 ltac:(lia)) as H. cbv zeta in H.
  destruct H as (_ & _ & _ & Hnext & _).
  split; [exact Hnext|]. split; reflexivity.
Defined.

(** X25. The page shows either the preview or the import history, never
    both and never neither; Cancel hides the preview, brings the history
    back and clears the customer fields and suggestions; new action data in
    preview mode shows the preview again. *)
Theorem preview_or_history :
  forall actionData st,
    Page.showPreview actionData st = negb (Page.showHistory actionData st)
    /\ Page.showHistory actionData (Page.handleCancelPreview st) = true
    /\ Page.showPreview actionData (Page.handleCancelPreview st) = false
    /\ Page.customerQuery (Page.handleCancelPreview st) = EmptyString
    /\ Page.selectedCustomerId (Page.handleCancelPreview st) = EmptyString
    /\ Page.customerOptions (Page.handleCancelPreview st) = []
    /\ Page.showPreview actionData (Page.onActionData (Page.handleCancelPreview st))
       = Page.inPreviewMode actionData.
Proof.
  intros actionData st.
  unfold Page.showPreview, Page.showHistory, Page.handleCancelPreview,
    Page.onActionData.
  cbn [Page.previewCancelled Page.customerQuery Page.selectedCustomerId
       Page.customerOptions].
  destruct (Page.inPreviewMode actionData), (Page.previewCancelled st);
    repeat split.
Qed.

(** X26. In the preview table a reconciled row is written in red exactly
    when it does not exist (sku not found, or lookup error); a row that a
    confirm would put on the order is always written in black; a row
    without stock has the revision's no-stock colour. *)
Theorem preview_row_colours :
  forall rev shown row reply,
    let r := Reconciler.enrichRow rev row reply in
    let colour := Page.textColor shown (statusString (status r)) in
    (colour = "#ff0000"%string <-> exist r = false)
    /\ (includableRow r = true -> colour = "#000000"%string)
    /\ (status r = NoStock ->
        colour = match shown with
                 | Rev1 => "#fcb001"
                 | Rev2 => "#aaaaaa"
                 end%string).
Proof.
  intros rev shown row reply r colour. subst colour r.
  destruct (enrichRow_cases rev row reply) as [[node Hfound]|(st & Hst & Hcase)].
  - rewrite (enrichRow_found _ _ _ _ Hfound).
    unfold Reconciler.matched, Reconciler.classify, includableRow.
    destruct (le _ zero); [|destruct (gt _ _)];
      cbn [exist variantId status fulfilledQuantity statusString];
      unfold Page.textColor; cbn [String.eqb Ascii.eqb Bool.eqb orb];
      destruct shown; (split; [split; discriminate|]);
      (split; [|try discriminate; reflexivity]);
      try reflexivity;
      change (gt zero zero) with false; rewrite andb_false_r; discriminate.
  - rewrite Hst. unfold includableRow.
    cbn [Reconciler.unresolved exist status andb].
    destruct Hcase as [-> | ->]; cbn [statusString];
      unfold Page.textColor; cbn [String.eqb Ascii.eqb Bool.eqb orb];
      destruct shown; repeat split; discriminate.
Qed.

(* ================================================================== *)
(** ** From the upload to the order *)

Lemma reconciled_includable rev row reply :
  candidate row ->
  (forall node, foundIn rev reply node -> JsString.nonEmpty (id node) = true) ->
  includableRow (Reconciler.enrichRow rev row reply)
  = okOrPartial (status (Reconciler.enrichRow rev row reply)).
Proof.
  intros [Hfin Hpos] Hid.
  destruct (enrichRow_cases rev row reply) as [[node Hfound]|(st & Hst & Hcase)].
  - rewrite (enrichRow_found _ _ _ _ Hfound).
    pose proof (Hid node Hfound) as Hnode.
    unfold Reconciler.matched, Reconciler.classify, includableRow.
    destruct (le (Reconciler.totalAvailableOf node) zero) eqn:Hle;
      [|destruct (gt (quantityRequested row) (Reconciler.totalAvailableOf node)) eqn:Hgt];
      cbn [exist variantId status fulfilledQuantity okOrPartial];
      rewrite Hnode; cbn [andb].
    + reflexivity.
    + unfold gt in *.
      destruct (Reconciler.totalAvailableOf node) as [| | |m e];
        try discriminate.
      * destruct (quantityRequested row); discriminate.
      * apply not_le_lt; auto.
    + exact Hpos.
  - rewrite Hst. unfold includableRow.
    cbn [Reconciler.unresolved exist status andb].
    now destruct Hcase as [-> | ->].
Qed.

Lemma reconciled_filter rev env parsedRows : forall n,
  Forall candidate parsedRows ->
  (forall k s node, foundIn rev (catalog env k s) node ->
                    JsString.nonEmpty (id node) = true) ->
  filter includableRow (reconciled rev env n parsedRows)
  = filter (fun r => okOrPartial (status r)) (reconciled rev env n parsedRows).
Proof.
  induction parsedRows as [|row rest IH]; intros n Hall Hid; [reflexivity|].
  inversion Hall as [|? ? Hrow Hrest]; subst.
  cbn [reconciled filter].
  rewrite (reconciled_includable rev row _ Hrow (Hid n (sku row))).
  now rewrite (IH (S n) Hrest Hid).
Qed.

(** X27. From the upload to the order.  When an upload with a customer
    parses to rows, the action returns their reconciliation as the preview;
    confirming that preview through the page's form (the rows serialised and
    read back unchanged) orders exactly the rows whose status is ok or
    partial, in order, each with its variant id and fulfilled quantity, for
    the same customer, with their sum as totalQuantity; when no row is ok or
    partial the confirm is refused and nothing is ordered. *)
Theorem preview_then_confirm :
  forall JSON_parse JSON_stringify encodeURIComponent rev env env' form rows parsedRows,
    let customerName := JsString.trim (orText (formCustomerName form) "") in
    let customerId := JsString.trim (orText (formCustomerId form) "") in
    let preview := reconciled rev env O parsedRows in
    let text := JSON_stringify (Arr (map rowValue preview)) in
    JsString.nonEmpty customerName = true ->
    JsString.nonEmpty customerId = true ->
    file form = Upload (Some rows) ->
    Parser.parse rows = Parser.Parsed parsedRows ->
    (forall k s node, foundIn rev (catalog env k s) node ->
                      JsString.nonEmpty (id node) = true) ->
    text <> EmptyString ->
    JSON_parse text = Some (Arr (map rowValue preview)) ->
    let toOrder := filter (fun r => okOrPartial (status r)) preview in
    let confirm :=
      createIntent JSON_parse encodeURIComponent rev env'
        (Page.confirmForm JSON_stringify customerName customerId preview) in
    fst (processIntent rev env form)
    = Return (PreviewResult customerName customerId preview)
    /\ (toOrder = [] ->
        fst confirm = Return (ErrorResult msgNothingToOrder customerName customerId
                                (Arr (map rowValue preview)))
        /\ orderRequests (snd confirm) = [])
    /\ (toOrder <> [] ->
        exists body,
          orderRequests (snd confirm) = [body]
          /\ lineItems body = map lineOf toOrder
          /\ totalQuantity body = sumOf (map fulfilledQuantity toOrder)
          /\ reqCustomerName body = customerName
          /\ reqCustomerId body = customerId).
Proof.
  intros JSON_parse JSON_stringify enc rev env env' form rows parsedRows
         cn cid preview text Hcn Hcid Hfile Hparse Hids Htext Hround toOrder confirm.
  split.
  { unfold processIntent. fold cn. fold cid.
    rewrite Hcn, Hcid, Hfile, Hparse. cbn [negb orb]. unfold bind, ret.
    pose proof (enrichLoop_rows rev env parsedRows O []) as Hrows.
    destruct (Reconciler.enrichLoop rev env O parsedRows []) as [out t].
    cbn [fst snd] in *. subst out. reflexivity. }
  set (form' := Page.confirmForm JSON_stringify cn cid preview) in *.
  assert (Hname : createName form' = cn).
  { unfold createName, form', Page.confirmForm. cbn [formCustomerName].
    unfold orText. rewrite Hcn. now rewrite Hcn. }
  assert (Hcust : createCustomerId form' = cid).
  { unfold createCustomerId, form', Page.confirmForm. cbn [formCustomerId].
    unfold orText. rewrite Hcid. now rewrite Hcid. }
  assert (Hpreview : previewRowsOf JSON_parse form' = Arr (map rowValue preview)).
  { unfold previewRowsOf, form', Page.confirmForm. cbn [previewJson].
    fold text. rewrite Hround.
    destruct text; [now contradiction Htext|reflexivity]. }
  assert (Hfilter : filter includableRow preview = toOrder).
  { subst toOrder preview. apply reconciled_filter; [|exact Hids].
    exact (parsed_rows_are_candidates rows parsedRows Hparse). }
  split.
  - intros Hnone. subst confirm.
    rewrite (confirm_without_includable_rows JSON_parse enc rev env' form' preview
               Hpreview) by (now rewrite Hfilter).
    cbn [fst snd]. rewrite Hname, Hcust. split; [reflexivity|].
    apply lookupsBefore_orders.
  - intros Hsome. subst confirm.
    rewrite (createIntent_unfold JSON_parse enc rev env' form'). cbn [snd].
    rewrite orderRequests_app.
    destruct (lookupsBefore_orders rev (createCustomerId form')) as [-> _].
    cbn [app]. rewrite Hpreview, Hname, Hcust.
    pose proof (confirmRows_cases enc rev env' cn cid
                  (fst (contextOf rev env' cid)) (fst (getShopNumericId env'))
                  (Arr (map rowValue preview))) as Hcases.
    cbv zeta in Hcases. rewrite includedRows_rowValues, Hfilter in Hcases.
    destruct Hcases as [[Habs _]|[[Hnone _]|(l & body & Hinc & _ & Hbody & Hrest)]].
    + discriminate.
    + exfalso. apply Hsome. inversion Hnone as [H0]. now destruct toOrder.
    + inversion Hinc; subst l. exists body. split.
      * destruct Hrest as [(m & _ & ->)|[(d & _ & _ & ->)|(d & _ & _ & ->)]];
          reflexivity.
      * rewrite Hbody.
        cbn [lineItems totalQuantity reqCustomerName reqCustomerId orderBody].
        split; [apply lineItems_rowValues|]. split; [|now split].
        unfold totalQuantityOf, sumOf. apply totalQuantity_rowValues.
        rewrite <- Hfilter. apply filter_includable.
Qed.

Lemma preview_then_confirm_witness :
  let preview :=
    reconciled Rev2 sampleServices O
      [Parser.parsedRow "ABC123" (ofZ 5); Parser.parsedRow "GHI111" (ofZ 2)] in
  let confirm :=
    createIntent (fun _ => Some (Arr (map rowValue preview))) (fun s => s) Rev2
      creatingServices
      (Page.confirmForm (fun _ => "rows"%string) "Acme" "gid://shopify/Customer/42"
         preview) in
  map status preview = [Partial; LookupError]
  /\ exists body,
       orderRequests (snd confirm) = [body]
       /\ lineItems body
          = [ {| itemQuantity := ofZ 3;
                 itemVariantId := Str "gid://shopify/ProductVariant/1" |} ]
       /\ totalQuantity body = ofZ 3.
Proof.
  cbv zeta. split; [reflexivity|].
  pose proof (preview_then_confirm
                (fun _ => Some (Arr (map rowValue
                   (reconciled Rev2 sampleServices O
                      [Parser.parsedRow "ABC123" (ofZ 5);
                       Parser.parsedRow "GHI111" (ofZ 2)]))))
                (fun _ => "rows"%string) (fun s => s) Rev2 sampleServices
                creatingServices (uploadForm (Some exampleGrid)) exampleGrid
                [Parser.parsedRow "ABC123" (ofZ 5); Parser.parsedRow "GHI111" (ofZ 2)])
    as H.
  cbv zeta in H.
  destruct H as (_ & _ & Hsome);
    try reflexivity; try discriminate; try exact parse_example.
  - intros k s node (errors & rest & E & _). unfold sampleServices in E.
    cbn [catalog] in E. destruct k; [|discriminate].
    inversion E; subst. reflexivity.
  - destruct (Hsome ltac:(discriminate)) as (body & Hreq & Hlines & Htotal & _).
    exists body. split; [exact Hreq|]. split; [exact Hlines|exact Htotal].
Defined.
